(** * Clinical summary generator: data layer and provider fallback

    A shallow embedding of [src/data_layer.py], [src/llm_service.py] and
    the endpoints of [main.py].

    - Python [str] values are [string]s, one [ascii] per character (code
      points below 256).
    - A record (one row turned into a [dict]) is a [gmap string value].
    - Exceptions are explicit: fallible functions return [res].
    - The provider calls of [generate_summary] are recorded in a call log. *)

From Stdlib Require Import ZArith List Ascii String Sorted Permutation Lia Bool.
From stdpp Require Import base option gmap strings pretty.
Import ListNotations.

Local Open Scope string_scope.
Local Open Scope Z_scope.

(** ** Python string primitives *)

Module PyStr.

Definition nl : string := String "010"%char EmptyString.

Definition lower_char (c : ascii) : ascii :=
  let n := nat_of_ascii c in
  if ((65 <=? n) && (n <=? 90))%nat then ascii_of_nat (n + 32) else c.

(** [s.lower()] on the ASCII letters. *)
Fixpoint lower (s : string) : string :=
  match s with
  | EmptyString => EmptyString
  | String c s' => String (lower_char c) (lower s')
  end.

(** [s.startswith(p)] *)
Definition startswith (s p : string) : bool := String.prefix p s.

(** [s[:n]] for a non-negative [n]. *)
Fixpoint slice_to (n : nat) (s : string) : string :=
  match n, s with
  | O, _ => EmptyString
  | S _, EmptyString => EmptyString
  | S n', String c s' => String c (slice_to n' s')
  end.

(** [s.replace(old, new)] for a non-empty [old]: occurrences are replaced
    from the left, without overlap. [skip] counts the characters of a
    match that are still to be dropped. *)
Fixpoint replace_go (old new : string) (skip : nat) (s : string) : string :=
  match s with
  | EmptyString => EmptyString
  | String c s' =>
      match skip with
      | S k => replace_go old new k s'
      | O =>
          if String.prefix old s
          then new ++ replace_go old new (Nat.pred (String.length old)) s'
          else String c (replace_go old new O s')
      end
  end.

Definition replace (s old new : string) : string := replace_go old new O s.

(** Characters [str.strip()] removes. *)
Definition is_space (c : ascii) : bool :=
  let n := nat_of_ascii c in
  (((9 <=? n) && (n <=? 13)) || ((28 <=? n) && (n <=? 32))
   || (n =? 133) || (n =? 160))%nat.

Fixpoint lstrip (s : string) : string :=
  match s with
  | EmptyString => EmptyString
  | String c s' => if is_space c then lstrip s' else s
  end.

Fixpoint rstrip (s : string) : string :=
  match s with
  | EmptyString => EmptyString
  | String c s' =>
      match rstrip s' with
      | EmptyString => if is_space c then EmptyString else String c EmptyString
      | r => String c r
      end
  end.

Definition strip (s : string) : string := rstrip (lstrip s).

(** [str(z)] for a Python [int]. *)
Definition of_Z (z : Z) : string := pretty z.

(** Zero padding on the left up to [width] characters, as the [%Y], [%m]
    and [%d] fields of [strftime] do. *)
Fixpoint zeros (n : nat) : string :=
  match n with
  | O => EmptyString
  | S n' => String "0"%char (zeros n')
  end.

Definition zfill (width : nat) (s : string) : string :=
  zeros (width - String.length s) ++ s.

(** [c * n] *)
Fixpoint repeat_char (c : ascii) (n : nat) : string :=
  match n with
  | O => EmptyString
  | S n' => String c (repeat_char c n')
  end.

(** [needle in s] *)
Definition contains (s needle : string) : Prop :=
  exists pre post, s = pre ++ needle ++ post.

Definition concat (l : list string) : string :=
  fold_right String.append EmptyString l.

(** [needle in s], as a test. *)
Fixpoint isin (needle s : string) : bool :=
  String.prefix needle s
  || match s with
     | EmptyString => false
     | String _ s' => isin needle s'
     end.

(** [sep.join(l)] *)
Fixpoint join (sep : string) (l : list string) : string :=
  match l with
  | [] => EmptyString
  | [x] => x
  | x :: l' => x ++ sep ++ join sep l'
  end.

(** [c not in s] for a character [c]. *)
Fixpoint lacks (c : ascii) (s : string) : bool :=
  match s with
  | EmptyString => true
  | String x s' => negb (Ascii.eqb x c) && lacks c s'
  end.

(** [f"{l}"] for a list of integers. *)
Definition repr_ints (l : list Z) : string :=
  "[" ++ join ", " (List.map of_Z l) ++ "]".

End PyStr.

(** ** Python exceptions as results *)

(** The exceptions the data layer can raise.  [KeyErrorIndex labels] is
    [KeyError(Index(labels))], which pandas raises for the column labels a
    [subset] names and the frame lacks.  [Unsupported] is not a Python
    exception: it marks an input whose behaviour in pandas this model does
    not cover (see [to_datetime]). *)
Inductive exn :=
| KeyError (key : string)
| KeyErrorIndex (labels : gset string)
| TypeError (msg : string)
| ValueError (msg : string)
| Unsupported (what : string).

Inductive res (A : Type) :=
| Ok (a : A)
| Raise (e : exn).
Arguments Ok {A} a.
Arguments Raise {A} e.

#[global] Instance res_ret : MRet res := fun _ a => Ok a.
#[global] Instance res_bind : MBind res := fun _ _ f m =>
  match m with
  | Ok a => f a
  | Raise e => Raise e
  end.

(** Runs [f] on the elements from the left; the first exception stops it. *)
Fixpoint traverse {A B} (f : A -> res B) (l : list A) : res (list B) :=
  match l with
  | [] => Ok []
  | x :: l' => y ← f x; ys ← traverse f l'; Ok (y :: ys)
  end.

(** ** src/data_layer.py *)

Module DataLayer.
Import PyStr.

(** *** Scalars and records *)

(** A cell of a table or a value of a record: a string, an integer, or
    the missing value ([nan]).  Floating-point cells other than [nan] are
    outside the model. *)
Inductive value :=
| VStr (s : string)
| VInt (z : Z)
| VNaN.

#[global] Instance value_eq_dec : EqDecision value.
Proof. solve_decision. Defined.

#[global] Instance value_countable : Countable value.
Proof.
  refine (inj_countable'
    (fun v => match v with
              | VStr s => inl s
              | VInt z => inr (inl z)
              | VNaN => inr (inr tt)
              end)
    (fun x => match x with
              | inl s => VStr s
              | inr (inl z) => VInt z
              | inr (inr _) => VNaN
              end) _).
  intros []; reflexivity.
Defined.

(** One row as a [dict]. *)
Abbreviation record := (gmap string value).

(** [f"{v}"] *)
Definition fmt (v : value) : string :=
  match v with
  | VStr s => s
  | VInt z => of_Z z
  | VNaN => "nan"
  end.

(** [r.get(key, default)] on a [dict]. *)
Definition get (r : record) (key : string) (dflt : value) : value :=
  default dflt (r !! key).

(** *** Timestamps *)

(** A pandas [Timestamp] at midnight: the model covers calendar dates. *)
Record Timestamp := { year : Z; month : Z; day : Z }.

#[global] Instance Timestamp_eq_dec : EqDecision Timestamp.
Proof. solve_decision. Defined.

Definition ts_ltb (a b : Timestamp) : bool :=
  (year a <? year b)
  || ((year a =? year b)
      && ((month a <? month b)
          || ((month a =? month b) && (day a <? day b)))).

Definition ts_eqb (a b : Timestamp) : bool :=
  (year a =? year b) && (month a =? month b) && (day a =? day b).

Definition ts_lt (a b : Timestamp) : Prop := ts_ltb a b = true.
Definition ts_le (a b : Timestamp) : Prop := ts_ltb b a = false.

(** [t.strftime('%Y-%m-%d')] *)
Definition strftime_ymd (t : Timestamp) : string :=
  zfill 4 (of_Z (year t)) ++ "-" ++ zfill 2 (of_Z (month t)) ++ "-"
    ++ zfill 2 (of_Z (day t)).

(** [f"{t}"] for a cell of a datetime column; [None] is [NaT]. *)
Definition fmt_ts (t : option Timestamp) : string :=
  match t with
  | Some t => strftime_ymd t ++ " 00:00:00"
  | None => "NaT"
  end.

Definition digit (c : ascii) : option Z :=
  let n := nat_of_ascii c in
  if ((48 <=? n) && (n <=? 57))%nat then Some (Z.of_nat (n - 48)) else None.

Definition is_leap (y : Z) : bool :=
  ((y mod 4 =? 0) && negb (y mod 100 =? 0)) || (y mod 400 =? 0).

Definition days_in_month (y m : Z) : Z :=
  if m =? 2 then (if is_leap y then 29 else 28)
  else if (m =? 4) || (m =? 6) || (m =? 9) || (m =? 11) then 30
  else 31.

(** The shape [dddd-dd-dd]: year, month and day as written. *)
Definition iso_fields (s : string) : option (Z * Z * Z) :=
  match list_ascii_of_string s with
  | [y1; y2; y3; y4; h1; m1; m2; h2; d1; d2] =>
      if (Ascii.eqb h1 "-" && Ascii.eqb h2 "-")%bool then
        a ← digit y1; b ← digit y2; c ← digit y3; d ← digit y4;
        e ← digit m1; f ← digit m2; g ← digit d1; h ← digit d2;
        Some (1000 * a + 100 * b + 10 * c + d, 10 * e + f, 10 * g + h)
      else None
  | _ => None
  end.

(** [pd.to_datetime] on one cell.  A missing cell becomes [NaT].  A
    string of the shape [YYYY-MM-DD] whose month or day does not exist
    raises a [ValueError]; otherwise it is a date when the year is one
    that every nanosecond [Timestamp] holds (1678 to 2261).  Years
    beyond (an error in pandas 2, a coarser unit in pandas 3), other
    strings (pandas accepts further formats) and integer cells
    (nanoseconds since the epoch) are outside the model. *)
Definition to_datetime (v : value) : res (option Timestamp) :=
  match v with
  | VNaN => Ok None
  | VStr s =>
      match iso_fields s with
      | Some (y, m, d) =>
          if (1 <=? m) && (m <=? 12) && (1 <=? d) && (d <=? days_in_month y m)
          then
            if (1678 <=? y) && (y <=? 2261)
            then Ok (Some {| year := y; month := m; day := d |})
            else Raise (Unsupported ("year of " ++ s))
          else Raise (ValueError ("cannot parse " ++ s))
      | None => Raise (Unsupported ("date format of " ++ s))
      end
  | VInt _ => Raise (Unsupported "integer date")
  end.

(** *** Frames *)

(** [pd.DataFrame(records)] with one column already replaced by
    [pd.to_datetime]: each row carries the converted cell next to the
    record it came from.  The columns of the frame are the keys that
    occur in some record; a cell whose record lacks the key is [nan]. *)
Abbreviation row := (option Timestamp * record)%type.

Definition has_column (recs : list record) (col : string) : bool :=
  existsb (fun r => bool_decide (is_Some (r !! col))) recs.

Definition cell (r : record) (col : string) : value := get r col VNaN.

(** The dtype of a column of [pd.DataFrame(recs)]: a column without a
    string in which some cell is missing is [float64], and its integers
    become floats. *)
Definition float_column (recs : list record) (col : string) : bool :=
  forallb (fun r => match cell r col with VStr _ => false | _ => true end) recs
  && existsb (fun r => bool_decide (cell r col = VNaN)) recs.

(** [f"{x}"] for the cell [v] of column [col]: a float that is an integer
    prints with [.0] (below [1e16]; from there on Python switches to the
    exponent notation, and integers beyond [2**53] lose digits as floats:
    those are outside the model). *)
Definition fmt_cell (recs : list record) (col : string) (v : value) : string :=
  match v with
  | VInt z => if float_column recs col then of_Z z ++ ".0" else of_Z z
  | _ => fmt v
  end.

(** [type(x).__name__] for that cell. *)
Definition type_name (recs : list record) (col : string) (v : value) : string :=
  match v with
  | VStr _ => "str"
  | VInt _ => if float_column recs col then "float" else "int"
  | VNaN => "float"
  end.

(** [row.get(col, default)] on a row of the frame built from [recs],
    formatted by an f-string. *)
Definition row_get (recs : list record) (r : record) (col dflt : string) : string :=
  if has_column recs col then fmt_cell recs col (cell r col) else dflt.

(** [df[col] = pd.to_datetime(df[col])]: [KeyError] when no record has
    the column. *)
Definition to_frame (col : string) (recs : list record) : res (list row) :=
  if has_column recs col
  then traverse (fun r => d ← to_datetime (cell r col); Ok (d, r)) recs
  else Raise (KeyError col).

(** [df.sort_values(col, ascending=False)] on the datetime column, with
    [NaT] rows last.  Rows of equal date keep their order (numpy's default
    sort gives no promise on ties; the model takes the stable order). *)
Fixpoint insert_desc (x : Timestamp * record) (l : list (Timestamp * record))
  : list (Timestamp * record) :=
  match l with
  | [] => [x]
  | y :: l' => if ts_ltb (fst x) (fst y) then y :: insert_desc x l' else x :: l
  end.

Fixpoint sort_desc (l : list (Timestamp * record)) : list (Timestamp * record) :=
  match l with
  | [] => []
  | x :: l' => insert_desc x (sort_desc l')
  end.

Definition dated (df : list row) : list (Timestamp * record) :=
  omap (fun '(d, r) => t ← d; Some (t, r)) df.

Definition undated (df : list row) : list row :=
  List.filter (fun '(d, _) => bool_decide (d = None)) df.

Definition sort_values_desc (df : list row) : list row :=
  List.map (fun '(t, r) => (Some t, r)) (sort_desc (dated df)) ++ undated df.

(** [df.groupby(col)]: [sort=True] is the default, so the groups come in
    ascending key order whatever the order of the frame; [dropna=True]
    leaves the [NaT] rows out; the rows of a group keep the frame's order. *)
Fixpoint insert_key (k : Timestamp) (ks : list Timestamp) : list Timestamp :=
  match ks with
  | [] => [k]
  | k' :: ks' =>
      if ts_ltb k k' then k :: ks
      else if ts_eqb k k' then ks
      else k' :: insert_key k ks'
  end.

Definition group_keys (df : list row) : list Timestamp :=
  fold_right insert_key [] (List.map fst (dated df)).

Definition group_rows (k : Timestamp) (df : list row) : list record :=
  List.map snd (List.filter (fun '(d, _) => bool_decide (d = Some k)) df).

Definition groupby (df : list row) : list (Timestamp * list record) :=
  List.map (fun k => (k, group_rows k df)) (group_keys df).

(** [df.drop_duplicates(subset=..., keep='first')]: [key] reads the
    subset's cells; missing cells count as equal. *)
Fixpoint drop_duplicates {K} `{EqDecision K} (key : row -> K) (seen : list K) (df : list row)
  : list row :=
  match df with
  | [] => []
  | r :: df' =>
      if decide (key r ∈ seen) then drop_duplicates key seen df'
      else r :: drop_duplicates key (key r :: seen) df'
  end.

(** *** Record store *)

(** A table as [pd.read_csv] returns it: the header and the rows, each
    row read through [cell] at the columns of the header.  A column that
    [read_csv] reads as integers has no missing cell (with one it is a
    column of floats, which are outside the model). *)
Record DataFrame := { columns : list string; rows : list record }.

(** [pd.DataFrame()] *)
Definition empty_frame : DataFrame := {| columns := []; rows := [] |}.

(** [df.empty] *)
Definition empty (df : DataFrame) : bool :=
  match columns df, rows df with
  | [], _ | _, [] => true
  | _, _ => false
  end.

Definition csv_files : list (string * string) :=
  [("diagnoses", "diagnoses.csv"); ("medications", "medications.csv");
   ("vitals", "vitals.csv"); ("notes", "notes.csv");
   ("wounds", "wounds.csv"); ("oasis", "oasis.csv")].

(** [load_all_data()]: [fs] is the data directory, [fs name] what
    [pd.read_csv] returns for the file, [None] when it raises. *)
Definition load_all_data (fs : string -> option DataFrame) : gmap string DataFrame :=
  fold_left (fun data '(key, filename) =>
               match fs filename with
               | Some df => <[key := df]> data
               | None => <[key := empty_frame]> data
               end)
            csv_files ∅.

(** [df.to_dict('records')] *)
Definition to_dict (cols : list string) (r : record) : record :=
  list_to_map (List.map (fun c => (c, cell r c)) cols).

Definition to_dict_records (df : DataFrame) : list record :=
  List.map (to_dict (columns df)) (rows df).

(** [df[df['patient_id'] == patient_id]] *)
Definition select_patient (df : DataFrame) (patient_id : Z) : res DataFrame :=
  if bool_decide ("patient_id" ∈ columns df)
  then Ok {| columns := columns df;
             rows := List.filter
                       (fun r => bool_decide (cell r "patient_id" = VInt patient_id))
                       (rows df) |}
  else Raise (KeyError "patient_id").

(** The dictionary [get_patient_data] returns. *)
Record bundle := {
  patient_id : Z;
  diagnoses : list record;
  medications : list record;
  vitals : list record;
  notes : list record;
  wounds : list record;
  oasis : list record
}.

(** The body of the loop of [get_patient_data] for one [key]. *)
Definition patient_rows (data : gmap string DataFrame) (key : string) (patient_id : Z)
  : res (list record) :=
  match data !! key with
  | Some df =>
      if negb (empty df)
      then filtered ← select_patient df patient_id; Ok (to_dict_records filtered)
      else Ok []
  | None => Ok []
  end.

Definition get_patient_data (fs : string -> option DataFrame) (patient_id : Z) : res bundle :=
  let data := load_all_data fs in
  dg ← patient_rows data "diagnoses" patient_id;
  md ← patient_rows data "medications" patient_id;
  vt ← patient_rows data "vitals" patient_id;
  nt ← patient_rows data "notes" patient_id;
  wd ← patient_rows data "wounds" patient_id;
  oa ← patient_rows data "oasis" patient_id;
  Ok {| patient_id := patient_id; diagnoses := dg; medications := md;
        vitals := vt; notes := nt; wounds := wd; oasis := oa |}.

(** The six sequences of a bundle. *)
Definition categories (b : bundle) : list (list record) :=
  [diagnoses b; medications b; vitals b; notes b; wounds b; oasis b].

(** *** Narrative formatter *)

(** The part of the output each numbered block of [format_for_llm]
    appends after its heading. *)

(** Membership in a Python [set] is by identity, then by [==].  Every
    missing cell of a record is a [nan] object of its own, and
    [nan != nan]: a missing value is found in no set, so that a set keeps
    each of them. *)
Definition set_contains (s : gset value) (x : value) : bool :=
  match x with
  | VNaN => false
  | _ => bool_decide (x ∈ s)
  end.

(** Block 1.  [set_order l] is the order in which Python iterates the
    [set] obtained by adding the elements of [l] one after the other.
    It is fixed by the interpreter's hash of the elements, which for
    strings is salted anew in each process; it is a parameter here. *)
Definition diagnosis_descriptions (diags : list record) : list value :=
  List.map (fun diag => get diag "diagnosis_description" (VStr "Unknown")) diags.

Fixpoint enumerate_from {A} (start : Z) (l : list A) : list (Z * A) :=
  match l with
  | [] => []
  | x :: l' => (start, x) :: enumerate_from (start + 1) l'
  end.

Definition diagnoses_block (set_order : list value -> list value) (diags : list record)
  : string :=
  match diags with
  | [] => "No diagnosis data available." ++ nl
  | _ =>
      let unique_diagnoses := set_order (diagnosis_descriptions diags) in
      fold_left (fun output '(idx, diag) => output ++ of_Z idx ++ ". " ++ fmt diag ++ nl)
                (enumerate_from 1 unique_diagnoses) ""
  end.

(** Block 2.  One step of the loop over the medications: the state is
    [seen_meds] and the text appended so far. *)
Definition med_name (med : record) : value :=
  get med "medication_name" (VStr "Unknown").

Definition medication_entry (med : record) : string :=
  "- " ++ fmt (med_name med) ++ nl
    ++ "  Frequency: " ++ fmt (get med "frequency" (VStr "Unknown"))
    ++ " | Class: " ++ fmt (get med "classification" (VStr "Unknown"))
    ++ " | Reason: " ++ fmt (get med "reason" (VStr "Unknown")) ++ nl.

Definition medications_step (st : gset value * string) (med : record)
  : gset value * string :=
  let '(seen_meds, output) := st in
  if negb (set_contains seen_meds (med_name med))
  then ({[med_name med]} ∪ seen_meds, output ++ medication_entry med)
  else (seen_meds, output).

Definition medications_block (meds : list record) : string :=
  match meds with
  | [] => "No medication data available." ++ nl
  | _ => snd (fold_left medications_step meds (∅, ""))
  end.

(** Block 3. *)
Definition vital_line (recs : list record) (r : record) : string :=
  "  - " ++ row_get recs r "vital_type" "Unknown" ++ ": "
    ++ row_get recs r "reading" "N/A" ++ nl.

Definition vitals_group (recs : list record) (g : Timestamp * list record) : string :=
  nl ++ "**" ++ strftime_ymd (fst g) ++ ":**" ++ nl
    ++ concat (List.map (vital_line recs) (snd g)).

Definition vitals_block (vs : list record) : res string :=
  match vs with
  | [] => Ok ("No vital signs data available." ++ nl)
  | _ =>
      vitals_df ← to_frame "visit_date" vs;
      let vitals_df := sort_values_desc vitals_df in
      Ok (concat (List.map (vitals_group vs) (groupby vitals_df)))
  end.

(** Block 4.  [drop_duplicates] raises for the labels of [subset] that
    are no column of the frame. *)
Definition missing_columns (recs : list record) (subset : list string) : gset string :=
  list_to_set (List.filter (fun col => negb (has_column recs col)) subset).

Definition wound_entry (recs : list record) (w : row) : string :=
  "- " ++ row_get recs (snd w) "description" "Unknown" ++ " at "
    ++ row_get recs (snd w) "location" "Unknown" ++ nl
    ++ "  Onset: " ++ row_get recs (snd w) "onset_date" "Unknown"
    ++ " | Last Assessment: " ++ fmt_ts (fst w) ++ nl.

Definition wounds_block (ws : list record) : res string :=
  match ws with
  | [] => Ok ("No wound data available." ++ nl)
  | _ =>
      wounds_df ← to_frame "visit_date" ws;
      if has_column ws "location" && has_column ws "description"
      then
        let latest_wounds :=
          drop_duplicates (fun w : row => (cell (snd w) "location", cell (snd w) "description"))
                          [] (sort_values_desc wounds_df) in
        Ok (concat (List.map (wound_entry ws) latest_wounds))
      else Raise (KeyErrorIndex (missing_columns ws ["location"; "description"]))
  end.

(** Block 5. *)
Definition oasis_entry (recs : list record) (o : row) : string :=
  "**Assessment Date:** " ++ fmt_ts (fst o) ++ nl
    ++ "**Type:** " ++ row_get recs (snd o) "assessment_type" "Unknown" ++ nl ++ nl
    ++ "- **Grooming:** " ++ row_get recs (snd o) "grooming" "Unknown" ++ nl
    ++ "- **Bathing:** " ++ row_get recs (snd o) "bathing" "Unknown" ++ nl
    ++ "- **Toilet Transfer:** " ++ row_get recs (snd o) "toilet_transfer" "Unknown" ++ nl
    ++ "- **Transfer:** " ++ row_get recs (snd o) "transfer" "Unknown" ++ nl
    ++ "- **Ambulation:** " ++ row_get recs (snd o) "ambulation" "Unknown" ++ nl.

Definition oasis_block (os : list record) : res string :=
  match os with
  | [] => Ok ("No OASIS data available." ++ nl)
  | _ =>
      oasis_df ← to_frame "assessment_date" os;
      match sort_values_desc oasis_df with
      | latest_oasis :: _ => Ok (oasis_entry os latest_oasis)
      | [] => Raise (Unsupported "iloc[0] of an empty frame")
      end
  end.

(** Block 6.  [note_text[:500]] needs a string. *)
Definition note_text (recs : list record) (r : record) : value :=
  if has_column recs "note_text" then cell r "note_text" else VStr "No text".

(** [f"{note_text[:500]}..."] *)
Definition emitted_text (text : string) : string := slice_to 500 text ++ "...".

Definition note_heading (recs : list record) (n : row) : string :=
  nl ++ "**" ++ fmt_ts (fst n) ++ " - "
     ++ row_get recs (snd n) "note_type" "Unknown" ++ ":**" ++ nl.

Definition note_entry (recs : list record) (n : row) : res string :=
  match note_text recs (snd n) with
  | VStr text => Ok (note_heading recs n ++ emitted_text text ++ nl)
  | v => Raise (TypeError ("'" ++ type_name recs "note_text" v
                             ++ "' object is not subscriptable"))
  end.

(** [df.head(3)] *)
Definition head3 (df : list row) : list row := firstn 3 df.

Definition recent_notes (ns : list record) : res (list row) :=
  notes_df ← to_frame "note_date" ns;
  Ok (head3 (sort_values_desc notes_df)).

Definition notes_block (ns : list record) : res string :=
  match ns with
  | [] => Ok ("No clinical notes available." ++ nl)
  | _ =>
      recent ← recent_notes ns;
      entries ← traverse (note_entry ns) recent;
      Ok (concat entries)
  end.

Definition format_for_llm (set_order : list value -> list value) (patient_data : bundle)
  : res string :=
  let output := "# Patient Clinical Data - ID: " ++ of_Z (patient_id patient_data) ++ nl ++ nl in
  let output := output ++ "## PRIMARY DIAGNOSES" ++ nl in
  let output := output ++ diagnoses_block set_order (diagnoses patient_data) in
  let output := output ++ nl in
  let output := output ++ "## ACTIVE MEDICATIONS" ++ nl in
  let output := output ++ medications_block (medications patient_data) in
  let output := output ++ nl in
  let output := output ++ "## VITAL SIGNS HISTORY" ++ nl in
  vitals_text ← vitals_block (vitals patient_data);
  let output := output ++ vitals_text in
  let output := output ++ nl in
  let output := output ++ "## ACTIVE WOUNDS" ++ nl in
  wounds_text ← wounds_block (wounds patient_data);
  let output := output ++ wounds_text in
  let output := output ++ nl in
  let output := output ++ "## FUNCTIONAL STATUS (OASIS Assessment)" ++ nl in
  oasis_text ← oasis_block (oasis patient_data);
  let output := output ++ oasis_text in
  let output := output ++ nl in
  let output := output ++ "## CLINICAL NOTES (Recent)" ++ nl in
  notes_text ← notes_block (notes patient_data);
  Ok (output ++ notes_text).

(** *** Patient list *)

(** A cell of the [patient_id] column as a Python [int].  Cells that are
    not integers (strings, or missing cells, which turn the column into
    floats) are outside the model. *)
Definition int_cell (v : value) : res Z :=
  match v with
  | VInt z => Ok z
  | _ => Raise (Unsupported "patient_id that is not an integer")
  end.

(** [series.unique()]: the distinct values by first appearance. *)
Fixpoint unique (seen : list Z) (l : list Z) : list Z :=
  match l with
  | [] => []
  | x :: l' =>
      if bool_decide (x ∈ seen) then unique seen l' else x :: unique (x :: seen) l'
  end.

(** [sorted(l)] on integers. *)
Fixpoint insert_asc (x : Z) (l : list Z) : list Z :=
  match l with
  | [] => [x]
  | y :: l' => if y <? x then y :: insert_asc x l' else x :: l
  end.

Fixpoint sorted (l : list Z) : list Z :=
  match l with
  | [] => []
  | x :: l' => insert_asc x (sorted l')
  end.

Definition get_patient_ids (fs : string -> option DataFrame) : res (list Z) :=
  let data := load_all_data fs in
  match data !! "diagnoses" with
  | Some df =>
      if negb (empty df)
      then
        if bool_decide ("patient_id" ∈ columns df)
        then
          patient_ids ← traverse (fun r => int_cell (cell r "patient_id")) (rows df);
          Ok (sorted (unique [] patient_ids))
        else Raise (KeyError "patient_id")
      else Ok []
  | None => Ok []
  end.

(** [patient_data.get(key, [])] *)
Definition bundle_get (b : bundle) (key : string) : list record :=
  if String.eqb key "diagnoses" then diagnoses b
  else if String.eqb key "medications" then medications b
  else if String.eqb key "vitals" then vitals b
  else if String.eqb key "notes" then notes b
  else if String.eqb key "wounds" then wounds b
  else if String.eqb key "oasis" then oasis b
  else [].

(** The key of a wound row for [drop_duplicates]. *)
Definition wound_key (w : row) : value * value :=
  (cell (snd w) "location", cell (snd w) "description").

(** *** Notions used to state the properties *)





(** [a] is at least as recent as [b]; a missing date is the least recent. *)
Definition not_before (a b : option Timestamp) : Prop :=
  match a, b with
  | _, None => True
  | None, Some _ => False
  | Some x, Some y => ts_le y x
  end.

(** The elements of the [set] built by adding those of [l]: one of each
    value, and every [nan]. *)
Fixpoint distinct (l : list value) : list value :=
  match l with
  | [] => []
  | VNaN :: l' => VNaN :: distinct l'
  | x :: l' => if bool_decide (x ∈ l') then distinct l' else x :: distinct l'
  end.



(** The output for a bundle whose six sequences are empty. *)
Definition no_data_text (pid : Z) : string :=
  "# Patient Clinical Data - ID: " ++ of_Z pid ++ nl ++ nl
    ++ "## PRIMARY DIAGNOSES" ++ nl ++ "No diagnosis data available." ++ nl ++ nl
    ++ "## ACTIVE MEDICATIONS" ++ nl ++ "No medication data available." ++ nl ++ nl
    ++ "## VITAL SIGNS HISTORY" ++ nl ++ "No vital signs data available." ++ nl ++ nl
    ++ "## ACTIVE WOUNDS" ++ nl ++ "No wound data available." ++ nl ++ nl
    ++ "## FUNCTIONAL STATUS (OASIS Assessment)" ++ nl ++ "No OASIS data available."
    ++ nl ++ nl
    ++ "## CLINICAL NOTES (Recent)" ++ nl ++ "No clinical notes available." ++ nl.

(** The records are none, or they have the column [col] and each of their
    cells under it is missing or a date [to_datetime] reads. *)
Definition dates_ok (col : string) (recs : list record) : Prop :=
  recs = []
  \/ (has_column recs col = true
      /\ Forall (fun r => exists d, to_datetime (cell r col) = Ok d) recs).

(** The order [sort_values_desc] establishes on rows. *)
Definition recency (a b : row) : Prop := not_before (fst a) (fst b).

Definition desc (a b : Timestamp * record) : Prop := ts_le (fst b) (fst a).

(** Every non-empty table that was loaded has the [patient_id] column. *)
Definition keyed (fs : string -> option DataFrame) : Prop :=
  forall filename df, fs filename = Some df -> empty df = false ->
                      "patient_id" ∈ columns df.

(** No row of any table carries [pid]. *)
Definition unknown (fs : string -> option DataFrame) (pid : Z) : Prop :=
  forall filename df r, fs filename = Some df -> In r (rows df) ->
                        cell r "patient_id" <> VInt pid.

Definition table (fs : string -> option DataFrame) (filename : string) : DataFrame :=
  match fs filename with
  | Some df => df
  | None => empty_frame
  end.

Definition empty_bundle (pid : Z) : bundle :=
  {| patient_id := pid; diagnoses := []; medications := []; vitals := [];
     notes := []; wounds := []; oasis := [] |}.

End DataLayer.

(** ** src/llm_service.py *)

Module LlmService.
Import PyStr.

(** *** JSON values and provider outcomes *)

(** What [json.loads] returns; an object keeps its keys in order.
    Numbers are integers here. *)
#[warnings="-register-all"]
Inductive json :=
| JNull
| JBool (b : bool)
| JNum (z : Z)
| JStr (s : string)
| JArr (items : list json)
| JObj (fields : list (string * json)).

(** [d[key] = v] on a [dict]. *)
Fixpoint dict_set (d : list (string * json)) (key : string) (v : json)
  : list (string * json) :=
  match d with
  | [] => [(key, v)]
  | (k, x) :: d' =>
      if String.eqb k key then (k, v) :: d' else (k, x) :: dict_set d' key v
  end.

Fixpoint dict_get (d : list (string * json)) (key : string) : option json :=
  match d with
  | [] => None
  | (k, x) :: d' => if String.eqb k key then Some x else dict_get d' key
  end.

(** [summary_data[key] = v] on whatever [json.loads] returned: only a
    [dict] takes the assignment, the other values raise a [TypeError]
    whose text is on the left. *)
Definition set_item (j : json) (key : string) (v : json) : string + json :=
  match j with
  | JObj d => inr (JObj (dict_set d key v))
  | JArr _ => inl "list indices must be integers or slices, not str"
  | JStr _ => inl "'str' object does not support item assignment"
  | JNum _ => inl "'int' object does not support item assignment"
  | JBool _ => inl "'bool' object does not support item assignment"
  | JNull => inl "'NoneType' object does not support item assignment"
  end.

(** A call either returns or raises [Exception(msg)]. *)
Inductive outcome (A : Type) :=
| Returned (a : A)
| Raised (msg : string).
Arguments Returned {A} a.
Arguments Raised {A} msg.

Inductive provider := Gemini | OpenAI.

#[global] Instance provider_eq_dec : EqDecision provider.
Proof. solve_decision. Defined.

(** A computation that calls providers: the calls made, in order, and
    how it ended. *)
Record Run (A : Type) := MkRun { calls : list provider; result : outcome A }.
Arguments MkRun {A} calls result.
Arguments calls {A} r.
Arguments result {A} r.

#[global] Instance run_ret : MRet Run := fun _ a => MkRun [] (Returned a).
#[global] Instance run_bind : MBind Run := fun _ _ f m =>
  match result m with
  | Returned a => MkRun (calls m ++ calls (f a)) (result (f a))
  | Raised msg => MkRun (calls m) (Raised msg)
  end.

Definition raise {A} (msg : string) : Run A := MkRun [] (Raised msg).

(** [try: body  except Exception as e: handler(str(e))] *)
Definition try_except {A} (body : Run A) (handler : string -> Run A) : Run A :=
  match result body with
  | Returned a => body
  | Raised msg => MkRun (calls body ++ calls (handler msg)) (result (handler msg))
  end.

(** Entering provider [p]'s function, whose body ends as [r]. *)
Definition invoke {A} (p : provider) (r : outcome A) : Run A := MkRun [p] r.

(** *** Configuration and the outside world *)

(** The process environment and which client libraries were importable. *)
Record Config := {
  GEMINI_AVAILABLE : bool;
  OPENAI_AVAILABLE : bool;
  getenv : string -> option string
}.

Definition getenv_default (cfg : Config) (name dflt : string) : string :=
  default dflt (getenv cfg name).

Definition USE_FALLBACK (cfg : Config) : bool :=
  String.eqb (lower (getenv_default cfg "USE_FALLBACK" "true")) "true".

Definition FORCE_PROVIDER (cfg : Config) : string :=
  lower (getenv_default cfg "FORCE_PROVIDER" "").

(** The remote services and the JSON parser.  A call yields [inr] of
    what it returns or [inl] of [str(e)] for the exception [e] it raises.
    [system_prompt] is the fixed text of [_build_system_prompt]. *)
Record Services := {
  system_prompt : string;
  generate_content : string -> string + string;
  chat_completions_create : string -> string -> string + string;
  json_loads : string -> string + json
}.

Definition _build_user_prompt (patient_context : string) : string :=
  "Please generate a comprehensive clinical summary for this home health patient."
    ++ nl ++ nl ++ patient_context ++ nl ++ nl
    ++ "Generate the summary following the JSON structure specified above. Ensure every clinical claim has a citation. Return ONLY the JSON object, no additional text.".

(** [not api_key or api_key.startswith(placeholder)] *)
Definition key_unconfigured (api_key : option string) (placeholder : string) : bool :=
  match api_key with
  | None => true
  | Some k => String.eqb k "" || startswith k placeholder
  end.

(** Removal of the markdown code fence around Gemini's answer. *)
Definition clean_response (response_text : string) : string :=
  if startswith response_text "```json"
  then strip (replace (replace response_text "```json" "") "```" "")
  else if startswith response_text "```"
  then strip (replace response_text "```" "")
  else response_text.

(** *** The two providers *)

Definition gemini_body (cfg : Config) (sv : Services) (patient_context : string)
  : outcome json :=
  if negb (GEMINI_AVAILABLE cfg)
  then Raised "Google Generative AI library not installed"
  else if key_unconfigured (getenv cfg "GEMINI_API_KEY") "your-"
  then Raised "GEMINI_API_KEY not configured in .env file"
  else
    let full_prompt :=
      system_prompt sv ++ nl ++ nl ++ _build_user_prompt patient_context in
    match generate_content sv full_prompt with
    | inl e => Raised ("Gemini API error: " ++ e)
    | inr response_text =>
        let response_text := clean_response response_text in
        match json_loads sv response_text with
        | inl e =>
            Raised ("Gemini returned invalid JSON: " ++ e ++ nl
                      ++ "Response: " ++ slice_to 200 response_text)
        | inr summary_data =>
            match set_item summary_data "provider_used" (JStr "gemini") with
            | inr summary_data => Returned summary_data
            | inl e => Raised ("Gemini API error: " ++ e)
            end
        end
    end.

Definition _call_gemini (cfg : Config) (sv : Services) (patient_context : string)
  : Run json :=
  invoke Gemini (gemini_body cfg sv patient_context).

Definition openai_body (cfg : Config) (sv : Services) (patient_context : string)
  : outcome json :=
  if negb (OPENAI_AVAILABLE cfg)
  then Raised "OpenAI library not installed"
  else if key_unconfigured (getenv cfg "OPENAI_API_KEY") "sk-your"
  then Raised "OPENAI_API_KEY not configured in .env file"
  else
    match chat_completions_create sv (system_prompt sv)
                                  (_build_user_prompt patient_context) with
    | inl e => Raised ("OpenAI API error: " ++ e)
    | inr response_text =>
        match json_loads sv response_text with
        | inl e => Raised ("OpenAI returned invalid JSON: " ++ e)
        | inr summary_data =>
            match set_item summary_data "provider_used" (JStr "openai") with
            | inr summary_data => Returned summary_data
            | inl e => Raised ("OpenAI API error: " ++ e)
            end
        end
    end.

Definition _call_openai (cfg : Config) (sv : Services) (patient_context : string)
  : Run json :=
  invoke OpenAI (openai_body cfg sv patient_context).

(** *** The orchestrator *)

(** [f"{openai_error}"]; the variable starts as [None]. *)
Definition fmt_error (e : option string) : string := default "None" e.

Definition generate_summary (cfg : Config) (sv : Services) (patient_context : string)
  : Run (json * string) :=
  if String.eqb (FORCE_PROVIDER cfg) "openai" then
    summary ← _call_openai cfg sv patient_context;
    mret (summary, "openai")
  else if String.eqb (FORCE_PROVIDER cfg) "gemini" then
    summary ← _call_gemini cfg sv patient_context;
    mret (summary, "gemini")
  else
    primary ← try_except
                (summary ← _call_gemini cfg sv patient_context;
                 mret (inl (summary, "gemini")))
                (fun e => mret (inr e));
    match primary with
    | inl done => mret done
    | inr gemini_error =>
        backup ← (if USE_FALLBACK cfg
                  then try_except
                         (summary ← _call_openai cfg sv patient_context;
                          mret (inl (summary, "openai")))
                         (fun e => mret (inr (Some e)))
                  else mret (inr None));
        match backup with
        | inl done => mret done
        | inr openai_error =>
            let error_msg := "Both LLM providers failed:" ++ nl in
            let error_msg := error_msg ++ "  Gemini: " ++ gemini_error ++ nl in
            let error_msg :=
              if USE_FALLBACK cfg
              then error_msg ++ "  OpenAI: " ++ fmt_error openai_error ++ nl
              else error_msg ++ "  OpenAI: Fallback disabled" ++ nl in
            raise error_msg
        end
    end.

(** The behaviour with no override: what [generate_summary] does below
    its two [FORCE_PROVIDER] tests. *)
Definition unset_force (cfg : Config) : Config :=
  {| GEMINI_AVAILABLE := GEMINI_AVAILABLE cfg;
     OPENAI_AVAILABLE := OPENAI_AVAILABLE cfg;
     getenv := fun name =>
                 if String.eqb name "FORCE_PROVIDER" then None else getenv cfg name |}.

(** The summary schema as the specification words it: an overall
    [summary] string and a [sections] mapping whose sections each have a
    [content] string and a list of [citations] strings.  The source has
    no such check. *)
Definition is_string (j : json) : bool :=
  match j with JStr _ => true | _ => false end.

Definition spec_section (j : json) : bool :=
  match j with
  | JObj d =>
      match dict_get d "content", dict_get d "citations" with
      | Some (JStr _), Some (JArr cs) => forallb is_string cs
      | _, _ => false
      end
  | _ => false
  end.

Definition spec_summary_schema (j : json) : bool :=
  match j with
  | JObj d =>
      match dict_get d "summary", dict_get d "sections" with
      | Some (JStr _), Some (JObj secs) => forallb (fun kv => spec_section (snd kv)) secs
      | _, _ => false
      end
  | _ => false
  end.

(** [return summary, name] after a provider's call. *)
Definition tagged (name : string) (o : outcome json) : outcome (json * string) :=
  match o with
  | Returned summary => Returned (summary, name)
  | Raised msg => Raised msg
  end.

(** The message [generate_summary] raises after the primary failed with
    [gemini_error]; [openai_line] is what it says of the secondary. *)
Definition failure_message (gemini_error openai_line : string) : string :=
  "Both LLM providers failed:" ++ nl
    ++ "  Gemini: " ++ gemini_error ++ nl
    ++ "  OpenAI: " ++ openai_line ++ nl.

(** The remote call of a provider is reached and answers [text]: the
    client library is present, the key is configured, and the service
    returns. *)
Definition gemini_answers (cfg : Config) (sv : Services) (patient_context text : string)
  : Prop :=
  GEMINI_AVAILABLE cfg = true
  /\ key_unconfigured (getenv cfg "GEMINI_API_KEY") "your-" = false
  /\ generate_content sv (system_prompt sv ++ nl ++ nl ++ _build_user_prompt patient_context)
     = inr text.

Definition openai_answers (cfg : Config) (sv : Services) (patient_context text : string)
  : Prop :=
  OPENAI_AVAILABLE cfg = true
  /\ key_unconfigured (getenv cfg "OPENAI_API_KEY") "sk-your" = false
  /\ chat_completions_create sv (system_prompt sv) (_build_user_prompt patient_context)
     = inr text.

(** [text] does not parse to a JSON object: it is no JSON, or it is a
    list, a string, a number, a boolean or null. *)
Definition malformed (sv : Services) (text : string) : Prop :=
  forall d, json_loads sv text <> inr (JObj d).

End LlmService.

(** ** main.py *)

Module Api.
Import PyStr DataLayer LlmService.

(** What an endpoint does with a request: it returns a body, or raises
    [HTTPException(status_code, detail)].  [OutOfModel] marks a request
    whose data the model of the data layer does not cover. *)
Inductive reply (A : Type) :=
| Reply (body : A)
| HTTPError (status_code : Z) (detail : string)
| OutOfModel (what : string).
Arguments Reply {A} body.
Arguments HTTPError {A} status_code detail.
Arguments OutOfModel {A} what.

Record PatientListResponse := { patient_ids : list Z; count : Z }.

Record SummaryResponse := {
  response_patient_id : Z;
  summary : json;
  provider_used : string;
  success : bool
}.

Record DataSummary := {
  diagnoses_count : nat;
  medications_count : nat;
  vitals_count : nat;
  notes_count : nat;
  wounds_count : nat;
  oasis_count : nat
}.

Record RawDataResponse := {
  raw_patient_id : Z;
  data_summary : DataSummary;
  full_data : bundle
}.

(** The text of exceptions: [exn_str e] is [str(e)] for an exception of the
    data layer, [http_str status detail] is [str(e)] for an
    [HTTPException]; both are fixed by the libraries. *)
Section Endpoints.
Variable exn_str : exn -> string.
Variable http_str : Z -> string -> string.

(** [except Exception as e: raise HTTPException(500, prefix + str(e))] for
    an exception of the data layer. *)
Definition internal_error {A} (prefix : string) (e : exn) : reply A :=
  match e with
  | Unsupported what => OutOfModel what
  | _ => HTTPError 500 (prefix ++ exn_str e)
  end.

(** [GET /patients].  The [HTTPException] raised for an empty list is an
    [Exception], and the handler below it catches it. *)
Definition list_patients (fs : string -> option DataFrame) : reply PatientListResponse :=
  match get_patient_ids fs with
  | Ok ids =>
      match ids with
      | [] =>
          HTTPError 500 ("Error fetching patient list: "
                           ++ http_str 404 "No patients found in database")
      | _ => Reply {| patient_ids := ids; count := Z.of_nat (List.length ids) |}
      end
  | Raise e => internal_error "Error fetching patient list: " e
  end.

Definition not_found (patient_id : Z) (available_patients : list Z) : string :=
  "Patient " ++ of_Z patient_id ++ " not found. Available patients: "
    ++ repr_ints available_patients.

(** The hint [create_summary] appends to the text of an error. *)
Definition with_hint (error_detail : string) : string :=
  if isin "API" error_detail || isin "key" (lower error_detail)
  then error_detail ++ nl ++ nl ++ "Make sure you have configured API keys in .env file."
  else error_detail.

Definition summary_error {A} (e : exn) : reply A :=
  match e with
  | Unsupported what => OutOfModel what
  | _ => HTTPError 500 ("Error generating summary: " ++ with_hint (exn_str e))
  end.

(** [POST /generate_summary]: the provider calls made and the reply. *)
Definition create_summary (set_order : list value -> list value)
    (fs : string -> option DataFrame) (cfg : Config) (sv : Services)
    (request_patient_id : Z) : list provider * reply SummaryResponse :=
  match get_patient_ids fs with
  | Raise e => ([], summary_error e)
  | Ok available_patients =>
      if negb (bool_decide (request_patient_id ∈ available_patients))
      then ([], HTTPError 404 (not_found request_patient_id available_patients))
      else
        match get_patient_data fs request_patient_id with
        | Raise e => ([], summary_error e)
        | Ok patient_data =>
            match format_for_llm set_order patient_data with
            | Raise e => ([], summary_error e)
            | Ok patient_context =>
                let run := generate_summary cfg sv patient_context in
                match result run with
                | Returned (summary, provider) =>
                    (calls run,
                     Reply {| response_patient_id := request_patient_id;
                              summary := summary;
                              provider_used := provider;
                              success := true |})
                | Raised error_detail =>
                    (calls run,
                     HTTPError 500 ("Error generating summary: " ++ with_hint error_detail))
                end
            end
        end
  end.

(** [GET /patient/{patient_id}/data] *)
Definition get_raw_patient_data (fs : string -> option DataFrame) (patient_id : Z)
  : reply RawDataResponse :=
  match get_patient_ids fs with
  | Raise e => internal_error "Error fetching patient data: " e
  | Ok available_patients =>
      if negb (bool_decide (patient_id ∈ available_patients))
      then HTTPError 404 (not_found patient_id available_patients)
      else
        match get_patient_data fs patient_id with
        | Raise e => internal_error "Error fetching patient data: " e
        | Ok patient_data =>
            Reply {| raw_patient_id := patient_id;
                     data_summary :=
                       {| diagnoses_count := List.length (bundle_get patient_data "diagnoses");
                          medications_count := List.length (bundle_get patient_data "medications");
                          vitals_count := List.length (bundle_get patient_data "vitals");
                          notes_count := List.length (bundle_get patient_data "notes");
                          wounds_count := List.length (bundle_get patient_data "wounds");
                          oasis_count := List.length (bundle_get patient_data "oasis") |};
                     full_data := patient_data |}
        end
  end.

End Endpoints.

End Api.

(** * Sample inputs *)

Module Samples.
Import LlmService.

(** [os.environ] given as a list of bindings. *)
Definition environ (l : list (string * string)) (name : string) : option string :=
  snd <$> List.find (fun kv => String.eqb (fst kv) name) l.

Definition keys : list (string * string) :=
  [("GEMINI_API_KEY", "AIza-demo"); ("OPENAI_API_KEY", "sk-demo")].

Definition cfg_plain : Config :=
  {| GEMINI_AVAILABLE := true; OPENAI_AVAILABLE := true; getenv := environ keys |}.

Definition cfg_force (name : string) : Config :=
  {| GEMINI_AVAILABLE := true; OPENAI_AVAILABLE := true;
     getenv := environ (("FORCE_PROVIDER", name) :: keys) |}.

(** [json.loads] on the response texts the samples use. *)
Definition sample_loads (text : string) : string + json :=
  if String.eqb text "{}" then inr (JObj [])
  else if String.eqb text "[]" then inr (JArr [])
  else inl "Expecting value: line 1 column 1 (char 0)".

Definition services (gemini openai : string + string) : Services :=
  {| system_prompt := "You are an expert home health clinician.";
     generate_content := fun _ => gemini;
     chat_completions_create := fun _ _ => openai;
     json_loads := sample_loads |}.

Definition sv_gemini_down : Services :=
  services (inl "503 Service Unavailable") (inr "{}").

Definition sv_both_down : Services :=
  services (inl "503 Service Unavailable") (inl "Connection error.").

Definition sv_empty_object : Services :=
  services (inr "{}") (inr "{}").

Definition sv_not_json : Services :=
  services (inr "oops") (inr "{}").

(** OpenAI answers with a JSON list, Gemini is down. *)
Definition sv_openai_list : Services :=
  services (inl "503 Service Unavailable") (inr "[]").

(** The keys as a fresh copy of the example environment file has them. *)
Definition cfg_placeholders : Config :=
  {| GEMINI_AVAILABLE := true; OPENAI_AVAILABLE := true;
     getenv := environ [("GEMINI_API_KEY", "your-gemini-api-key-here");
                        ("OPENAI_API_KEY", "sk-your-openai-api-key-here")] |}.

Definition cfg_fallback_yes : Config :=
  {| GEMINI_AVAILABLE := true; OPENAI_AVAILABLE := true;
     getenv := environ (("USE_FALLBACK", "yes") :: keys) |}.

(** Gemini answers with an object that names another provider. *)
Definition relabelled_loads (text : string) : string + json :=
  if String.eqb text "SUMMARY"
  then inr (JObj [("summary", JStr "Stable."); ("provider_used", JStr "openai")])
  else inl "Expecting value: line 1 column 1 (char 0)".

Definition sv_relabelled : Services :=
  {| system_prompt := "You are an expert home health clinician.";
     generate_content := fun _ => inr "SUMMARY";
     chat_completions_create := fun _ _ => inl "Connection error.";
     json_loads := relabelled_loads |}.

Import DataLayer.

Definition rec (l : list (string * value)) : record := list_to_map l.

Definition diagnoses_csv : DataFrame :=
  {| columns := ["patient_id"; "diagnosis_description"];
     rows := [rec [("patient_id", VInt 1001); ("diagnosis_description", VStr "Hypertension")];
              rec [("patient_id", VInt 1002); ("diagnosis_description", VStr "Diabetes")]] |}.

Definition vitals_csv : DataFrame :=
  {| columns := ["patient_id"; "visit_date"; "vital_type"; "reading"];
     rows := [rec [("patient_id", VInt 1001); ("visit_date", VStr "2026-01-01");
                   ("vital_type", VStr "Heart Rate"); ("reading", VInt 72)]] |}.

(** What [get_patient_data] returns for patient 1001 over [data_dir]. *)
Definition bundle_1001 : bundle :=
  {| patient_id := 1001;
     diagnoses := [rec [("patient_id", VInt 1001);
                        ("diagnosis_description", VStr "Hypertension")]];
     medications := [];
     vitals := [rec [("patient_id", VInt 1001); ("visit_date", VStr "2026-01-01");
                     ("vital_type", VStr "Heart Rate"); ("reading", VInt 72)]];
     notes := []; wounds := []; oasis := [] |}.

(** The same medication twice, with different metadata, and another one. *)
Definition aspirin_daily : record :=
  rec [("medication_name", VStr "Aspirin 81mg"); ("frequency", VStr "DAILY");
       ("classification", VStr "Antiplatelet"); ("reason", VStr "Cardiac")].

Definition aspirin_bid : record :=
  rec [("medication_name", VStr "Aspirin 81mg"); ("frequency", VStr "BID");
       ("classification", VStr "Analgesic"); ("reason", VStr "Pain")].

Definition metformin : record :=
  rec [("medication_name", VStr "Metformin 500mg"); ("frequency", VStr "BID");
       ("classification", VStr "Antidiabetic"); ("reason", VStr "Diabetes")].

Definition meds : list record := [aspirin_daily; metformin; aspirin_bid].



(** Vitals of two visits, the older one first in the table. *)
Definition two_visits : list record :=
  [rec [("patient_id", VInt 1001); ("visit_date", VStr "2026-01-01");
        ("vital_type", VStr "Heart Rate"); ("reading", VInt 72)];
   rec [("patient_id", VInt 1001); ("visit_date", VStr "2026-01-10");
        ("vital_type", VStr "Heart Rate"); ("reading", VInt 80)]].

Definition bundle_two_visits : bundle :=
  {| patient_id := 1001; diagnoses := []; medications := []; vitals := two_visits;
     notes := []; wounds := []; oasis := [] |}.

(** Notes: one of exactly 500 characters, one of 600, and two short ones. *)
Definition text_500 : string := PyStr.repeat_char "a" 500.
Definition text_600 : string := PyStr.repeat_char "b" 600.

Definition note (date type text : string) : record :=
  rec [("patient_id", VInt 1001); ("note_date", VStr date);
       ("note_type", VStr type); ("note_text", VStr text)].

Definition note_500 : record := note "2026-01-05" "Visit" text_500.

Definition four_notes : list record :=
  [note "2026-01-02" "Visit" "Wound dressing changed.";
   note "2026-01-09" "Phone" text_600;
   note "2026-01-01" "Admission" "Start of care.";
   note_500].

Definition day (d : Z) : Timestamp := {| year := 2026; month := 1; day := d |}.

(** [four_notes] with [note_date] converted. *)
Definition four_notes_frame : list row :=
  [(Some (day 2), note "2026-01-02" "Visit" "Wound dressing changed.");
   (Some (day 9), note "2026-01-09" "Phone" text_600);
   (Some (day 1), note "2026-01-01" "Admission" "Start of care.");
   (Some (day 5), note_500)].

(** Two iteration orders of the same set: which one a process shows
    depends on its string hash seed. *)
Definition order_a (l : list value) : list value := distinct l.
Definition order_b (l : list value) : list value := rev (distinct l).


(** The diagnosis record of [bundle_1001]. *)
Definition hypertension_1001 : record :=
  rec [("patient_id", VInt 1001); ("diagnosis_description", VStr "Hypertension")].

(** A reading whose visit date is missing, and a dated one. *)
Definition vital_undated : record :=
  rec [("patient_id", VInt 1001); ("visit_date", VNaN);
       ("vital_type", VStr "Heart Rate"); ("reading", VInt 75)].

Definition vital_day_10 : record :=
  rec [("patient_id", VInt 1001); ("visit_date", VStr "2026-01-10");
       ("vital_type", VStr "Heart Rate"); ("reading", VInt 80)].

Definition vitals_one_undated : list record := [vital_undated; vital_day_10].

(** One wound assessed at two visits. *)
Definition wound (date : string) : record :=
  rec [("patient_id", VInt 1001); ("visit_date", VStr date);
       ("location", VStr "Sacrum"); ("description", VStr "Pressure ulcer");
       ("onset_date", VStr "2025-12-01")].

Definition wound_day_1 : record := wound "2026-01-01".
Definition wound_day_8 : record := wound "2026-01-08".
Definition wounds_two_visits : list record := [wound_day_1; wound_day_8].

(** Two OASIS assessments. *)
Definition oasis_of (date grooming : string) : record :=
  rec [("patient_id", VInt 1001); ("assessment_date", VStr date);
       ("assessment_type", VStr "Recertification"); ("grooming", VStr grooming)].

Definition oasis_day_1 : record := oasis_of "2026-01-01" "Needs help".
Definition oasis_day_15 : record := oasis_of "2026-01-15" "Independent".
Definition oasis_two : list record := [oasis_day_1; oasis_day_15].

(** A vitals table without a [visit_date] column, and what
    [get_patient_data] returns over it for patient 1001. *)
Definition vitals_csv_no_dates : DataFrame :=
  {| columns := ["patient_id"; "vital_type"; "reading"];
     rows := [rec [("patient_id", VInt 1001); ("vital_type", VStr "Heart Rate");
                   ("reading", VInt 72)]] |}.

Definition data_dir_no_dates (filename : string) : option DataFrame :=
  if String.eqb filename "vitals.csv" then Some vitals_csv_no_dates else None.

Definition bundle_undated_table : bundle :=
  {| patient_id := 1001; diagnoses := []; medications := [];
     vitals := [rec [("patient_id", VInt 1001); ("vital_type", VStr "Heart Rate");
                     ("reading", VInt 72)]];
     notes := []; wounds := []; oasis := [] |}.

(** A note whose text cell is missing, older than the notes of
    [four_notes]. *)
Definition december_20 : Timestamp :=
  {| year := 2025; month := 12; DataLayer.day := 20 |}.

Definition note_without_text : record :=
  rec [("patient_id", VInt 1001); ("note_date", VStr "2025-12-20");
       ("note_type", VStr "Visit"); ("note_text", VNaN)].

Definition notes_old_without_text : list record :=
  note_without_text :: List.tl four_notes.

(** A note dated 30 February 2025, older than the notes of [four_notes],
    and a note of a table that has no [note_date] column. *)
Definition notes_old_misdated : list record :=
  note "2025-02-30" "Visit" "Stable." :: four_notes.

Definition note_undated_table : record :=
  rec [("patient_id", VInt 1001); ("note_type", VStr "Visit");
       ("note_text", VStr "Stable.")].

(** A notes table whose header has no [patient_id]. *)
Definition notes_csv_unkeyed : DataFrame :=
  {| columns := ["note_date"; "note_text"];
     rows := [rec [("note_date", VStr "2026-01-03"); ("note_text", VStr "Stable.")]] |}.

Definition data_dir_unkeyed (filename : string) : option DataFrame :=
  if String.eqb filename "diagnoses.csv" then Some diagnoses_csv
  else if String.eqb filename "notes.csv" then Some notes_csv_unkeyed
  else None.

(** A data directory with two of the six files. *)
Definition data_dir (filename : string) : option DataFrame :=
  if String.eqb filename "diagnoses.csv" then Some diagnoses_csv
  else if String.eqb filename "vitals.csv" then Some vitals_csv
  else None.

(** Patient 1003 has a vitals row and no diagnosis. *)
Definition vitals_csv_1003 : DataFrame :=
  {| columns := ["patient_id"; "visit_date"; "vital_type"; "reading"];
     rows := [rec [("patient_id", VInt 1003); ("visit_date", VStr "2026-01-04");
                   ("vital_type", VStr "Heart Rate"); ("reading", VInt 66)]] |}.

Definition data_dir_vitals_only (filename : string) : option DataFrame :=
  if String.eqb filename "diagnoses.csv" then Some diagnoses_csv
  else if String.eqb filename "vitals.csv" then Some vitals_csv_1003
  else None.

(** The context [format_for_llm] gives for [bundle_1001]. *)
Definition context_1001 : string :=
  match format_for_llm order_a bundle_1001 with
  | Ok output => output
  | Raise _ => EmptyString
  end.

(** [str(e)] for the exceptions: a [KeyError] shows its key quoted, an
    [HTTPException] its status and detail. *)
Definition exn_text (e : exn) : string :=
  match e with
  | KeyError key => "'" ++ key ++ "'"
  | KeyErrorIndex labels =>
      "Index([" ++ PyStr.join ", " (List.map (fun l => "'" ++ l ++ "'") (elements labels))
        ++ "], dtype='str')"
  | TypeError msg => msg
  | ValueError msg => msg
  | Unsupported what => what
  end.

Definition http_text (status : Z) (detail : string) : string :=
  PyStr.of_Z status ++ ": " ++ detail.

End Samples.

(** * Facts about strings *)

Section StringFacts.
Import PyStr.

Lemma append_cons (x : ascii) (a b : string) : String x a ++ b = String x (a ++ b).
Proof. reflexivity. Qed.

Lemma append_nil_l (a : string) : "" ++ a = a.
Proof. reflexivity. Qed.

Lemma append_assoc (a b c : string) : (a ++ b) ++ c = a ++ b ++ c.
Proof.
  induction a as [|x a IH]; [reflexivity|].
  rewrite !append_cons. now rewrite IH.
Qed.

Lemma append_nil_r (a : string) : a ++ "" = a.
Proof.
  induction a as [|x a IH]; [reflexivity|].
  rewrite append_cons. now rewrite IH.
Qed.

Lemma length_append (a b : string) :
  String.length (a ++ b) = (String.length a + String.length b)%nat.
Proof.
  induction a as [|x a IH]; [reflexivity|].
  rewrite append_cons. simpl. now rewrite IH.
Qed.

Lemma contains_middle (pre needle post : string) :
  contains (pre ++ needle ++ post) needle.
Proof. exists pre, post. reflexivity. Qed.

Lemma length_slice_to (n : nat) (s : string) :
  String.length (slice_to n s) = Nat.min n (String.length s).
Proof.
  revert s. induction n as [|n IH]; intros [|c s]; simpl; try reflexivity.
  now rewrite IH.
Qed.

Lemma slice_to_all (n : nat) (s : string) :
  (String.length s <= n)%nat -> slice_to n s = s.
Proof.
  revert s. induction n as [|n IH]; intros [|c s]; simpl; intros H;
    try reflexivity; try lia.
  rewrite IH; [reflexivity | lia].
Qed.

Lemma concat_app (l1 l2 : list string) :
  concat (l1 ++ l2)%list = concat l1 ++ concat l2.
Proof.
  induction l1 as [|x l1 IH]; simpl; [reflexivity|].
  rewrite IH. now rewrite append_assoc.
Qed.

Lemma concat_cons (x : string) (l : list string) : concat (x :: l) = x ++ concat l.
Proof. reflexivity. Qed.

End StringFacts.

Example lower_ex : PyStr.lower "OpenAI" = "openai".
Proof. reflexivity. Qed.
Example replace_ex : PyStr.replace "```json{}```" "```json" "" = "{}```".
Proof. reflexivity. Qed.
Example strip_ex : PyStr.strip ("  {} " ++ PyStr.nl) = "{}".
Proof. reflexivity. Qed.
Example of_Z_ex : PyStr.of_Z 1001 = "1001" /\ PyStr.of_Z (-5) = "-5" /\ PyStr.zfill 2 "7" = "07".
Proof. vm_compute. auto. Qed.

(** * Properties of the summary orchestrator *)

Section Orchestrator.
Import LlmService PyStr.

Variables (cfg : Config) (sv : Services) (ctx : string).

(** No override is in force: both tests at the top of
    [generate_summary] fail. *)
Hypothesis not_openai : FORCE_PROVIDER cfg <> "openai".
Hypothesis not_gemini : FORCE_PROVIDER cfg <> "gemini".

Lemma force_tests_fail :
  String.eqb (FORCE_PROVIDER cfg) "openai" = false
  /\ String.eqb (FORCE_PROVIDER cfg) "gemini" = false.
Proof. split; apply String.eqb_neq; assumption. Qed.

Lemma primary_success summary :
  gemini_body cfg sv ctx = Returned summary ->
  generate_summary cfg sv ctx = MkRun [Gemini] (Returned (summary, "gemini")).
Proof.
  intros Hg. destruct force_tests_fail as [H1 H2].
  unfold generate_summary. rewrite H1, H2.
  unfold _call_gemini, invoke, try_except, mbind, run_bind, mret, run_ret; simpl.
  rewrite Hg. reflexivity.
Qed.

Lemma fallback_success gemini_error summary :
  gemini_body cfg sv ctx = Raised gemini_error ->
  USE_FALLBACK cfg = true ->
  openai_body cfg sv ctx = Returned summary ->
  generate_summary cfg sv ctx = MkRun [Gemini; OpenAI] (Returned (summary, "openai")).
Proof.
  intros Hg Hf Ho. destruct force_tests_fail as [H1 H2].
  unfold generate_summary. rewrite H1, H2, Hf.
  unfold _call_gemini, _call_openai, invoke, try_except, mbind, run_bind, mret, run_ret; simpl.
  rewrite Hg; simpl. rewrite Ho. reflexivity.
Qed.

Lemma fallback_failure gemini_error openai_error :
  gemini_body cfg sv ctx = Raised gemini_error ->
  USE_FALLBACK cfg = true ->
  openai_body cfg sv ctx = Raised openai_error ->
  generate_summary cfg sv ctx =
    MkRun [Gemini; OpenAI]
          (Raised ("Both LLM providers failed:" ++ nl
                     ++ "  Gemini: " ++ gemini_error ++ nl
                     ++ "  OpenAI: " ++ openai_error ++ nl)).
Proof.
  intros Hg Hf Ho. destruct force_tests_fail as [H1 H2].
  unfold generate_summary. rewrite H1, H2, Hf.
  unfold _call_gemini, _call_openai, invoke, try_except, mbind, run_bind, mret, run_ret, raise;
    simpl.
  rewrite Hg; simpl. rewrite Ho; simpl.
  do 2 f_equal. now rewrite !append_assoc.
Qed.

Lemma no_fallback_failure gemini_error :
  gemini_body cfg sv ctx = Raised gemini_error ->
  USE_FALLBACK cfg = false ->
  generate_summary cfg sv ctx =
    MkRun [Gemini]
          (Raised ("Both LLM providers failed:" ++ nl
                     ++ "  Gemini: " ++ gemini_error ++ nl
                     ++ "  OpenAI: Fallback disabled" ++ nl)).
Proof.
  intros Hg Hf. destruct force_tests_fail as [H1 H2].
  unfold generate_summary. rewrite H1, H2, Hf.
  unfold _call_gemini, invoke, try_except, mbind, run_bind, mret, run_ret, raise; simpl.
  rewrite Hg; simpl. do 2 f_equal. now rewrite !append_assoc.
Qed.

End Orchestrator.

(** * The claims on [generate_summary] *)

Section OrchestratorClaims.
Import LlmService PyStr.

(** The runs of [generate_summary], by the configuration and by how the
    bodies of the two providers end. *)
Lemma generate_summary_cases (cfg : Config) (sv : Services) (ctx : string) :
  generate_summary cfg sv ctx =
    if String.eqb (FORCE_PROVIDER cfg) "openai"
    then MkRun [OpenAI] (tagged "openai" (openai_body cfg sv ctx))
    else if String.eqb (FORCE_PROVIDER cfg) "gemini"
    then MkRun [Gemini] (tagged "gemini" (gemini_body cfg sv ctx))
    else
      match gemini_body cfg sv ctx with
      | Returned summary => MkRun [Gemini] (Returned (summary, "gemini"))
      | Raised gemini_error =>
          if USE_FALLBACK cfg
          then
            match openai_body cfg sv ctx with
            | Returned summary => MkRun [Gemini; OpenAI] (Returned (summary, "openai"))
            | Raised openai_error =>
                MkRun [Gemini; OpenAI] (Raised (failure_message gemini_error openai_error))
            end
          else MkRun [Gemini] (Raised (failure_message gemini_error "Fallback disabled"))
      end.
Proof.
  destruct (String.eqb (FORCE_PROVIDER cfg) "openai") eqn:Ho.
  { unfold generate_summary. rewrite Ho.
    unfold _call_openai, invoke, mbind, run_bind, mret, run_ret; simpl.
    destruct (openai_body cfg sv ctx); reflexivity. }
  destruct (String.eqb (FORCE_PROVIDER cfg) "gemini") eqn:Hg.
  { unfold generate_summary. rewrite Ho, Hg.
    unfold _call_gemini, invoke, mbind, run_bind, mret, run_ret; simpl.
    destruct (gemini_body cfg sv ctx); reflexivity. }
  apply String.eqb_neq in Ho, Hg.
  destruct (gemini_body cfg sv ctx) as [s|ge] eqn:Hgem.
  - now apply primary_success.
  - destruct (USE_FALLBACK cfg) eqn:Hf.
    + destruct (openai_body cfg sv ctx) as [s|oe] eqn:Hop.
      * eapply fallback_success; eassumption.
      * eapply fallback_failure; eassumption.
    + eapply no_fallback_failure; eassumption.
Qed.

(** C3. With no override in force and fallback enabled, a primary call
    that raises is followed by exactly one call of the secondary provider
    (the calls are Gemini, then OpenAI), and when that call returns, its
    result comes back tagged ["openai"]. *)
Theorem fallback_invokes_secondary_once (cfg : Config) (sv : Services) (ctx ge : string) :
  FORCE_PROVIDER cfg <> "openai" ->
  FORCE_PROVIDER cfg <> "gemini" ->
  USE_FALLBACK cfg = true ->
  result (_call_gemini cfg sv ctx) = Raised ge ->
  calls (generate_summary cfg sv ctx) = [Gemini; OpenAI]
  /\ count_occ provider_eq_dec (calls (generate_summary cfg sv ctx)) OpenAI = 1%nat
  /\ forall summary,
       result (_call_openai cfg sv ctx) = Returned summary ->
       result (generate_summary cfg sv ctx) = Returned (summary, "openai").
Proof.
  intros Hno Hng Hf Hg. simpl in Hg.
  destruct (openai_body cfg sv ctx) as [s|oe] eqn:Ho.
  - rewrite (fallback_success cfg sv ctx Hno Hng ge s Hg Hf Ho). simpl.
    repeat split. intros summary Hs. simpl in Hs. rewrite Ho in Hs.
    injection Hs as <-. reflexivity.
  - rewrite (fallback_failure cfg sv ctx Hno Hng ge oe Hg Hf Ho). simpl.
    repeat split. intros summary Hs. simpl in Hs. rewrite Ho in Hs. discriminate.
Qed.

Lemma fallback_invokes_secondary_once_witness :
  calls (generate_summary Samples.cfg_plain Samples.sv_gemini_down "ctx") = [Gemini; OpenAI]
  /\ result (generate_summary Samples.cfg_plain Samples.sv_gemini_down "ctx")
     = Returned (JObj [("provider_used", JStr "openai")], "openai").
Proof.
  destruct (fallback_invokes_secondary_once Samples.cfg_plain Samples.sv_gemini_down "ctx"
              "Gemini API error: 503 Service Unavailable") as (Hc & _ & Hr).
  - vm_compute. discriminate.
  - vm_compute. discriminate.
  - reflexivity.
  - reflexivity.
  - split; [exact Hc | apply Hr; reflexivity].
Defined.

(** C4. With [FORCE_PROVIDER] equal to ["openai"] (or ["gemini"]) the
    only call made is the one to that provider; the other provider is
    not called, and an exception of the forced provider leaves
    [generate_summary] unchanged, with no fallback. *)
Theorem forced_provider_only (cfg : Config) (sv : Services) (ctx : string) :
  (FORCE_PROVIDER cfg = "openai" ->
     calls (generate_summary cfg sv ctx) = [OpenAI]
     /\ ~ In Gemini (calls (generate_summary cfg sv ctx))
     /\ (forall e, result (_call_openai cfg sv ctx) = Raised e ->
                   result (generate_summary cfg sv ctx) = Raised e)
     /\ (forall s, result (_call_openai cfg sv ctx) = Returned s ->
                   result (generate_summary cfg sv ctx) = Returned (s, "openai")))
  /\ (FORCE_PROVIDER cfg = "gemini" ->
     calls (generate_summary cfg sv ctx) = [Gemini]
     /\ ~ In OpenAI (calls (generate_summary cfg sv ctx))
     /\ (forall e, result (_call_gemini cfg sv ctx) = Raised e ->
                   result (generate_summary cfg sv ctx) = Raised e)
     /\ (forall s, result (_call_gemini cfg sv ctx) = Returned s ->
                   result (generate_summary cfg sv ctx) = Returned (s, "gemini"))).
Proof.
  split; intros Hforce; unfold generate_summary; rewrite Hforce; simpl;
    unfold _call_openai, _call_gemini, invoke, mbind, run_bind, mret, run_ret; simpl.
  - destruct (openai_body cfg sv ctx) as [s|e]; simpl;
      (split; [reflexivity|]); (split; [intros [H|[]]; discriminate|]);
      split; intros x [= <-]; reflexivity.
  - destruct (gemini_body cfg sv ctx) as [s|e]; simpl;
      (split; [reflexivity|]); (split; [intros [H|[]]; discriminate|]);
      split; intros x [= <-]; reflexivity.
Qed.

Lemma forced_provider_only_witness :
  (calls (generate_summary (Samples.cfg_force "OpenAI") Samples.sv_both_down "ctx") = [OpenAI]
   /\ result (generate_summary (Samples.cfg_force "OpenAI") Samples.sv_both_down "ctx")
      = Raised "OpenAI API error: Connection error.")
  /\ (calls (generate_summary (Samples.cfg_force "gemini") Samples.sv_gemini_down "ctx") = [Gemini]
      /\ result (generate_summary (Samples.cfg_force "gemini") Samples.sv_gemini_down "ctx")
         = Raised "Gemini API error: 503 Service Unavailable").
Proof.
  split.
  - destruct (forced_provider_only (Samples.cfg_force "OpenAI") Samples.sv_both_down "ctx")
      as [H _].
    destruct H as (Hc & _ & Hr & _); [reflexivity|].
    split; [exact Hc | apply Hr; reflexivity].
  - destruct (forced_provider_only (Samples.cfg_force "gemini") Samples.sv_gemini_down "ctx")
      as [_ H].
    destruct H as (Hc & _ & Hr & _); [reflexivity|].
    split; [exact Hc | apply Hr; reflexivity].
Defined.

(** C5. With no override in force and fallback enabled, when both
    provider calls raise, [generate_summary] raises one message that is
    built from both reasons and contains each of them. *)
Theorem both_fail_reports_both_reasons (cfg : Config) (sv : Services) (ctx ge oe : string) :
  FORCE_PROVIDER cfg <> "openai" ->
  FORCE_PROVIDER cfg <> "gemini" ->
  USE_FALLBACK cfg = true ->
  result (_call_gemini cfg sv ctx) = Raised ge ->
  result (_call_openai cfg sv ctx) = Raised oe ->
  exists msg,
    result (generate_summary cfg sv ctx) = Raised msg
    /\ msg = "Both LLM providers failed:" ++ nl
               ++ "  Gemini: " ++ ge ++ nl ++ "  OpenAI: " ++ oe ++ nl
    /\ contains msg ge /\ contains msg oe.
Proof.
  intros Hno Hng Hf Hg Ho. simpl in Hg, Ho.
  rewrite (fallback_failure cfg sv ctx Hno Hng ge oe Hg Hf Ho). simpl.
  eexists. split; [reflexivity|]. split; [reflexivity|]. split.
  - exists ("Both LLM providers failed:" ++ nl ++ "  Gemini: "),
           (nl ++ "  OpenAI: " ++ oe ++ nl).
    now rewrite !append_assoc.
  - exists ("Both LLM providers failed:" ++ nl ++ "  Gemini: " ++ ge ++ nl ++ "  OpenAI: "), nl.
    now rewrite !append_assoc.
Qed.

Lemma both_fail_reports_both_reasons_witness :
  exists msg,
    result (generate_summary Samples.cfg_plain Samples.sv_both_down "ctx") = Raised msg
    /\ contains msg "Gemini API error: 503 Service Unavailable"
    /\ contains msg "OpenAI API error: Connection error.".
Proof.
  destruct (both_fail_reports_both_reasons Samples.cfg_plain Samples.sv_both_down "ctx"
              "Gemini API error: 503 Service Unavailable"
              "OpenAI API error: Connection error.") as (msg & Hr & _ & Hg & Ho).
  - vm_compute. discriminate.
  - vm_compute. discriminate.
  - reflexivity.
  - reflexivity.
  - reflexivity.
  - exists msg. split; [exact Hr | split; [exact Hg | exact Ho]].
Defined.

(** What [unset_force] leaves alone. *)
Lemma unset_force_bodies (cfg : Config) (sv : Services) (ctx : string) :
  FORCE_PROVIDER (unset_force cfg) = ""
  /\ USE_FALLBACK (unset_force cfg) = USE_FALLBACK cfg
  /\ gemini_body (unset_force cfg) sv ctx = gemini_body cfg sv ctx
  /\ openai_body (unset_force cfg) sv ctx = openai_body cfg sv ctx.
Proof. repeat split. Qed.

(** C10. Whatever [FORCE_PROVIDER] holds after lowercasing, when it is
    neither ["openai"] nor ["gemini"] (the empty string, an unknown name)
    nothing is raised on its account and the run is the one of the same
    configuration with the variable unset, which is: Gemini is called; if
    it returns, its summary is returned tagged ["gemini"] and OpenAI is
    not called; if it raises and fallback is enabled, OpenAI is called and
    its summary is returned tagged ["openai"], or the message with both
    reasons is raised; if it raises and fallback is disabled, the message
    with Gemini's reason is raised after that one call. *)
Theorem unknown_override_ignored (cfg : Config) (sv : Services) (ctx : string) :
  FORCE_PROVIDER cfg <> "openai" ->
  FORCE_PROVIDER cfg <> "gemini" ->
  generate_summary cfg sv ctx = generate_summary (unset_force cfg) sv ctx
  /\ generate_summary cfg sv ctx
     = match result (_call_gemini cfg sv ctx) with
       | Returned summary => MkRun [Gemini] (Returned (summary, "gemini"))
       | Raised gemini_error =>
           if USE_FALLBACK cfg
           then
             MkRun [Gemini; OpenAI]
                   match result (_call_openai cfg sv ctx) with
                   | Returned summary => Returned (summary, "openai")
                   | Raised openai_error =>
                       Raised ("Both LLM providers failed:" ++ nl
                                 ++ "  Gemini: " ++ gemini_error ++ nl
                                 ++ "  OpenAI: " ++ openai_error ++ nl)
                   end
           else
             MkRun [Gemini]
                   (Raised ("Both LLM providers failed:" ++ nl
                              ++ "  Gemini: " ++ gemini_error ++ nl
                              ++ "  OpenAI: Fallback disabled" ++ nl))
       end.
Proof.
  intros Hno Hng.
  destruct (force_tests_fail cfg Hno Hng) as [H1 H2].
  destruct (unset_force_bodies cfg sv ctx) as (F & U & G & O).
  split.
  - unfold generate_summary, _call_gemini, _call_openai.
    rewrite H1, H2, F, U, G, O. reflexivity.
  - rewrite generate_summary_cases, H1, H2. simpl.
    destruct (gemini_body cfg sv ctx) as [s|ge]; [reflexivity|].
    destruct (USE_FALLBACK cfg); [|reflexivity].
    destruct (openai_body cfg sv ctx) as [s|oe]; reflexivity.
Qed.

Lemma unknown_override_ignored_witness :
  FORCE_PROVIDER (Samples.cfg_force "Claude") = "claude"
  /\ generate_summary (Samples.cfg_force "Claude") Samples.sv_gemini_down "ctx"
     = MkRun [Gemini; OpenAI] (Returned (JObj [("provider_used", JStr "openai")], "openai"))
  /\ FORCE_PROVIDER (Samples.cfg_force "") = ""
  /\ generate_summary (Samples.cfg_force "") Samples.sv_both_down "ctx"
     = MkRun [Gemini; OpenAI]
             (Raised ("Both LLM providers failed:" ++ nl
                        ++ "  Gemini: Gemini API error: 503 Service Unavailable" ++ nl
                        ++ "  OpenAI: OpenAI API error: Connection error." ++ nl))
  /\ generate_summary (Samples.cfg_force "Claude") Samples.sv_empty_object "ctx"
     = MkRun [Gemini] (Returned (JObj [("provider_used", JStr "gemini")], "gemini")).
Proof.
  split; [reflexivity|]. split; [|split; [reflexivity|split]].
  - destruct (unknown_override_ignored (Samples.cfg_force "Claude") Samples.sv_gemini_down "ctx")
      as [_ Hrun]; [vm_compute; discriminate | vm_compute; discriminate |].
    exact (eq_trans Hrun eq_refl).
  - destruct (unknown_override_ignored (Samples.cfg_force "") Samples.sv_both_down "ctx")
      as [_ Hrun]; [vm_compute; discriminate | vm_compute; discriminate |].
    exact (eq_trans Hrun eq_refl).
  - destruct (unknown_override_ignored (Samples.cfg_force "Claude") Samples.sv_empty_object
                "ctx") as [_ Hrun]; [vm_compute; discriminate | vm_compute; discriminate |].
    exact (eq_trans Hrun eq_refl).
Defined.

(** C6, as the claim has it, fails: Gemini answers [{}], which is JSON
    but not a summary in the sense of [spec_summary_schema]; the object
    is stamped and returned, and OpenAI is not called. *)
Lemma schema_invalid_response_is_returned :
  json_loads Samples.sv_empty_object "{}" = inr (JObj [])
  /\ spec_summary_schema (JObj []) = false
  /\ spec_summary_schema (JObj [("provider_used", JStr "gemini")]) = false
  /\ generate_summary Samples.cfg_plain Samples.sv_empty_object "ctx"
     = MkRun [Gemini] (Returned (JObj [("provider_used", JStr "gemini")], "gemini")).
Proof. repeat split. Qed.

Lemma gemini_body_answered (cfg : Config) (sv : Services) (ctx text : string) :
  gemini_answers cfg sv ctx text ->
  gemini_body cfg sv ctx
  = match json_loads sv (clean_response text) with
    | inl e =>
        Raised ("Gemini returned invalid JSON: " ++ e ++ nl
                  ++ "Response: " ++ slice_to 200 (clean_response text))
    | inr summary_data =>
        match set_item summary_data "provider_used" (JStr "gemini") with
        | inr summary_data => Returned summary_data
        | inl e => Raised ("Gemini API error: " ++ e)
        end
    end.
Proof. intros (Hav & Hkey & Hresp). unfold gemini_body. now rewrite Hav, Hkey, Hresp. Qed.

Lemma openai_body_answered (cfg : Config) (sv : Services) (ctx text : string) :
  openai_answers cfg sv ctx text ->
  openai_body cfg sv ctx
  = match json_loads sv text with
    | inl e => Raised ("OpenAI returned invalid JSON: " ++ e)
    | inr summary_data =>
        match set_item summary_data "provider_used" (JStr "openai") with
        | inr summary_data => Returned summary_data
        | inl e => Raised ("OpenAI API error: " ++ e)
        end
    end.
Proof. intros (Hav & Hkey & Hresp). unfold openai_body. now rewrite Hav, Hkey, Hresp. Qed.

(** Only a [dict] takes the stamp. *)
Lemma set_item_malformed (sv : Services) (text name : string) :
  malformed sv text ->
  match json_loads sv text with
  | inl _ => True
  | inr j => exists e, set_item j "provider_used" (JStr name) = inl e
  end.
Proof.
  intros Hbad. destruct (json_loads sv text) as [e|j] eqn:Hj; [exact I|].
  destruct j; simpl; eauto. now destruct (Hbad fields).
Qed.

(** C6, amended.  An answer of either provider that does not parse to a
    JSON object (it is no JSON, or it is a list, a string, a number, a
    boolean or null; for Gemini after the code fence is removed) makes
    that provider's call raise, and the orchestrator goes on as after any
    other exception of that call: a forced provider's exception is the
    result; without override a malformed answer of Gemini is followed by
    the call of OpenAI when fallback is enabled, and by the failure
    message when it is not; a malformed answer of OpenAI as the fallback
    gives the failure message with both reasons.  An answer that parses to
    an object, whatever its keys, is stamped with the provider's name and
    returned by the call. *)
Theorem malformed_response_is_provider_failure
    (cfg : Config) (sv : Services) (ctx : string) :
  (forall text,
     gemini_answers cfg sv ctx text -> malformed sv (clean_response text) ->
     exists reason,
       result (_call_gemini cfg sv ctx) = Raised reason
       /\ (forall e, json_loads sv (clean_response text) = inl e ->
                     reason = "Gemini returned invalid JSON: " ++ e ++ nl
                                ++ "Response: " ++ slice_to 200 (clean_response text))
       /\ (FORCE_PROVIDER cfg = "gemini" ->
           generate_summary cfg sv ctx = MkRun [Gemini] (Raised reason))
       /\ (FORCE_PROVIDER cfg <> "openai" -> FORCE_PROVIDER cfg <> "gemini" ->
           generate_summary cfg sv ctx
           = if USE_FALLBACK cfg
             then MkRun [Gemini; OpenAI]
                        match result (_call_openai cfg sv ctx) with
                        | Returned summary => Returned (summary, "openai")
                        | Raised openai_error =>
                            Raised (failure_message reason openai_error)
                        end
             else MkRun [Gemini] (Raised (failure_message reason "Fallback disabled"))))
  /\ (forall text,
       openai_answers cfg sv ctx text -> malformed sv text ->
       exists reason,
         result (_call_openai cfg sv ctx) = Raised reason
         /\ (forall e, json_loads sv text = inl e ->
                       reason = "OpenAI returned invalid JSON: " ++ e)
         /\ (FORCE_PROVIDER cfg = "openai" ->
             generate_summary cfg sv ctx = MkRun [OpenAI] (Raised reason))
         /\ (FORCE_PROVIDER cfg <> "openai" -> FORCE_PROVIDER cfg <> "gemini" ->
             USE_FALLBACK cfg = true ->
             forall gemini_error,
               result (_call_gemini cfg sv ctx) = Raised gemini_error ->
               generate_summary cfg sv ctx
               = MkRun [Gemini; OpenAI] (Raised (failure_message gemini_error reason))))
  /\ (forall text d,
       gemini_answers cfg sv ctx text ->
       json_loads sv (clean_response text) = inr (JObj d) ->
       result (_call_gemini cfg sv ctx)
       = Returned (JObj (dict_set d "provider_used" (JStr "gemini"))))
  /\ (forall text d,
       openai_answers cfg sv ctx text ->
       json_loads sv text = inr (JObj d) ->
       result (_call_openai cfg sv ctx)
       = Returned (JObj (dict_set d "provider_used" (JStr "openai")))).
Proof.
  split; [|split; [|split]].
  - intros text Hans Hbad.
    assert (exists reason,
              gemini_body cfg sv ctx = Raised reason
              /\ forall e, json_loads sv (clean_response text) = inl e ->
                           reason = "Gemini returned invalid JSON: " ++ e ++ nl
                                      ++ "Response: " ++ slice_to 200 (clean_response text))
      as (reason & Hg & Hreason).
    { rewrite (gemini_body_answered cfg sv ctx text Hans).
      pose proof (set_item_malformed sv (clean_response text) "gemini" Hbad) as Hset.
      destruct (json_loads sv (clean_response text)) as [e|j].
      - eexists. split; [reflexivity|]. now intros e' [= <-].
      - destruct Hset as [e ->]. eexists. split; [reflexivity|]. discriminate. }
    exists reason. split; [exact Hg|]. split; [exact Hreason|]. split.
    + intros Hforce. rewrite generate_summary_cases, Hforce, Hg. reflexivity.
    + intros Hno Hng. destruct (force_tests_fail cfg Hno Hng) as [H1 H2].
      rewrite generate_summary_cases, H1, H2, Hg. simpl.
      destruct (USE_FALLBACK cfg); [|reflexivity].
      destruct (openai_body cfg sv ctx); reflexivity.
  - intros text Hans Hbad.
    assert (exists reason,
              openai_body cfg sv ctx = Raised reason
              /\ forall e, json_loads sv text = inl e ->
                           reason = "OpenAI returned invalid JSON: " ++ e)
      as (reason & Ho & Hreason).
    { rewrite (openai_body_answered cfg sv ctx text Hans).
      pose proof (set_item_malformed sv text "openai" Hbad) as Hset.
      destruct (json_loads sv text) as [e|j].
      - eexists. split; [reflexivity|]. now intros e' [= <-].
      - destruct Hset as [e ->]. eexists. split; [reflexivity|]. discriminate. }
    exists reason. split; [exact Ho|]. split; [exact Hreason|]. split.
    + intros Hforce. rewrite generate_summary_cases, Hforce, Ho. reflexivity.
    + intros Hno Hng Hf ge Hg. simpl in Hg.
      destruct (force_tests_fail cfg Hno Hng) as [H1 H2].
      rewrite generate_summary_cases, H1, H2, Hg, Hf, Ho. reflexivity.
  - intros text d Hans Hj. simpl.
    rewrite (gemini_body_answered cfg sv ctx text Hans), Hj. reflexivity.
  - intros text d Hans Hj. simpl.
    rewrite (openai_body_answered cfg sv ctx text Hans), Hj. reflexivity.
Qed.

Lemma malformed_response_is_provider_failure_witness :
  generate_summary Samples.cfg_plain Samples.sv_not_json "ctx"
  = MkRun [Gemini; OpenAI] (Returned (JObj [("provider_used", JStr "openai")], "openai"))
  /\ generate_summary (Samples.cfg_force "openai") Samples.sv_openai_list "ctx"
     = MkRun [OpenAI]
             (Raised "OpenAI API error: list indices must be integers or slices, not str")
  /\ generate_summary Samples.cfg_plain Samples.sv_openai_list "ctx"
     = MkRun [Gemini; OpenAI]
             (Raised ("Both LLM providers failed:" ++ nl
                        ++ "  Gemini: Gemini API error: 503 Service Unavailable" ++ nl
                        ++ "  OpenAI: OpenAI API error: list indices must be integers or slices, not str"
                        ++ nl))
  /\ result (_call_gemini Samples.cfg_plain Samples.sv_empty_object "ctx")
     = Returned (JObj [("provider_used", JStr "gemini")]).
Proof.
  split; [|split; [|split]].
  - destruct (proj1 (malformed_response_is_provider_failure
                       Samples.cfg_plain Samples.sv_not_json "ctx") "oops")
      as (reason & _ & _ & _ & Hrun).
    + repeat split.
    + intros d. vm_compute. discriminate.
    + refine (eq_trans (Hrun _ _) eq_refl); vm_compute; discriminate.
  - destruct (proj1 (proj2 (malformed_response_is_provider_failure
                              (Samples.cfg_force "openai") Samples.sv_openai_list "ctx")) "[]")
      as (reason & Hr & _ & Hforced & _).
    + repeat split.
    + intros d. vm_compute. discriminate.
    + vm_compute in Hr. injection Hr as <-. apply Hforced. reflexivity.
  - destruct (proj1 (proj2 (malformed_response_is_provider_failure
                              Samples.cfg_plain Samples.sv_openai_list "ctx")) "[]")
      as (reason & Hr & _ & _ & Hrun).
    + repeat split.
    + intros d. vm_compute. discriminate.
    + vm_compute in Hr. injection Hr as <-.
      refine (eq_trans (Hrun _ _ _ "Gemini API error: 503 Service Unavailable" _) eq_refl);
        try (vm_compute; discriminate); reflexivity.
  - apply (proj1 (proj2 (proj2 (malformed_response_is_provider_failure
                                  Samples.cfg_plain Samples.sv_empty_object "ctx"))) "{}" []).
    + repeat split.
    + reflexivity.
Defined.

End OrchestratorClaims.

(** * The claims on the record store *)

Section RecordStore.
Import DataLayer.

Lemma to_dict_lookup (cols : list string) (r : record) (c : string) :
  c ∈ cols -> to_dict cols r !! c = Some (cell r c).
Proof.
  unfold to_dict. induction cols as [|c0 cols IH]; intros Hin.
  - inversion Hin.
  - simpl. destruct (decide (c0 = c)) as [->|Hne].
    + apply lookup_insert_eq.
    + rewrite lookup_insert_ne by assumption. apply IH.
      inversion Hin; subst; [congruence | assumption].
Qed.

Lemma filter_none {A} (f : A -> bool) (l : list A) :
  (forall x, In x l -> f x = false) -> List.filter f l = [].
Proof.
  induction l as [|x l IH]; intros H; [reflexivity|].
  simpl. rewrite (H x) by (now left). apply IH. intros y Hy. apply H. now right.
Qed.

(** The rows [select_patient] keeps, as records, all carry the identifier. *)
Lemma patient_rows_filtered (data : gmap string DataFrame) (key : string) (pid : Z)
    (l : list record) :
  patient_rows data key pid = Ok l ->
  Forall (fun r : record => r !! "patient_id" = Some (VInt pid)) l.
Proof.
  unfold patient_rows. destruct (data !! key) as [df|]; [|intros [= <-]; constructor].
  destruct (empty df); simpl; [intros [= <-]; constructor|].
  unfold select_patient. destruct (bool_decide_reflect ("patient_id" ∈ columns df)) as [Hc|Hc];
    simpl; [|discriminate].
  intros [= <-]. unfold to_dict_records; simpl.
  apply List.Forall_forall. intros r' Hr'.
  apply in_map_iff in Hr' as (r & <- & Hr).
  apply filter_In in Hr as [_ Hr]. apply bool_decide_eq_true in Hr.
  rewrite to_dict_lookup by assumption. now rewrite Hr.
Qed.

Lemma load_all_data_tables (fs : string -> option DataFrame) :
  load_all_data fs =
    <["oasis" := table fs "oasis.csv"]>
      (<["wounds" := table fs "wounds.csv"]>
        (<["notes" := table fs "notes.csv"]>
          (<["vitals" := table fs "vitals.csv"]>
            (<["medications" := table fs "medications.csv"]>
              (<["diagnoses" := table fs "diagnoses.csv"]> ∅))))).
Proof.
  unfold load_all_data, csv_files, table; simpl.
  destruct (fs "diagnoses.csv"), (fs "medications.csv"), (fs "vitals.csv"),
    (fs "notes.csv"), (fs "wounds.csv"), (fs "oasis.csv"); reflexivity.
Qed.

Lemma load_all_data_lookup (fs : string -> option DataFrame) (key filename : string) :
  In (key, filename) csv_files ->
  load_all_data fs !! key = Some (table fs filename).
Proof.
  rewrite load_all_data_tables. unfold csv_files. simpl.
  intros [H|[H|[H|[H|[H|[H|[]]]]]]]; injection H as <- <-; by simplify_map_eq.
Qed.

Lemma patient_rows_unknown (fs : string -> option DataFrame) (key filename : string)
    (pid : Z) :
  In (key, filename) csv_files ->
  keyed fs -> unknown fs pid ->
  patient_rows (load_all_data fs) key pid = Ok [].
Proof.
  intros Hin Hk Hu. unfold patient_rows.
  rewrite (load_all_data_lookup fs key filename Hin). unfold table.
  destruct (fs filename) as [df|] eqn:Hfs; [|reflexivity].
  destruct (empty df) eqn:He; simpl; [reflexivity|].
  unfold select_patient. rewrite bool_decide_eq_true_2 by (eapply Hk; eassumption).
  simpl. unfold to_dict_records; simpl.
  rewrite filter_none; [reflexivity|].
  intros r Hr. apply bool_decide_eq_false. eapply Hu; eassumption.
Qed.

(** C9. Whatever the identifier, a bundle [get_patient_data] returns
    carries it, and every record of its six sequences has [patient_id]
    equal to it; and over tables keyed by [patient_id], an identifier that
    occurs in none of them gives the bundle with six empty sequences, not
    an exception. *)
Theorem get_patient_data_post_filter (fs : string -> option DataFrame) (pid : Z) :
  (forall b, get_patient_data fs pid = Ok b ->
             patient_id b = pid
             /\ Forall (Forall (fun r : record => r !! "patient_id" = Some (VInt pid)))
                       (categories b))
  /\ (keyed fs -> unknown fs pid -> get_patient_data fs pid = Ok (empty_bundle pid)).
Proof.
  split.
  - intros b. unfold get_patient_data.
    destruct (patient_rows _ "diagnoses" pid) as [dg|] eqn:H1; simpl; [|discriminate].
    destruct (patient_rows _ "medications" pid) as [md|] eqn:H2; simpl; [|discriminate].
    destruct (patient_rows _ "vitals" pid) as [vt|] eqn:H3; simpl; [|discriminate].
    destruct (patient_rows _ "notes" pid) as [nt|] eqn:H4; simpl; [|discriminate].
    destruct (patient_rows _ "wounds" pid) as [wd|] eqn:H5; simpl; [|discriminate].
    destruct (patient_rows _ "oasis" pid) as [oa|] eqn:H6; simpl; [|discriminate].
    intros [= <-]. split; [reflexivity|]. unfold categories; simpl.
    repeat constructor; eapply patient_rows_filtered; eassumption.
  - intros Hk Hu. unfold get_patient_data.
    assert (forall key filename, In (key, filename) csv_files ->
              patient_rows (load_all_data fs) key pid = Ok []) as Hrows
      by (intros; eapply patient_rows_unknown; eassumption).
    rewrite (Hrows "diagnoses" "diagnoses.csv"), (Hrows "medications" "medications.csv"),
      (Hrows "vitals" "vitals.csv"), (Hrows "notes" "notes.csv"),
      (Hrows "wounds" "wounds.csv"), (Hrows "oasis" "oasis.csv");
      solve [reflexivity | unfold csv_files; simpl; tauto].
Qed.

Lemma get_patient_data_post_filter_witness :
  (get_patient_data Samples.data_dir 1001 = Ok Samples.bundle_1001
   /\ Forall (Forall (fun r : record => r !! "patient_id" = Some (VInt 1001)))
             (categories Samples.bundle_1001))
  /\ get_patient_data Samples.data_dir 4242 = Ok (empty_bundle 4242).
Proof.
  split.
  - split; [vm_compute; reflexivity|].
    apply (proj1 (get_patient_data_post_filter Samples.data_dir 1001)).
    vm_compute; reflexivity.
  - apply (proj2 (get_patient_data_post_filter Samples.data_dir 4242)).
    + intros filename df Hf _. unfold Samples.data_dir in Hf.
      destruct (String.eqb filename "diagnoses.csv");
        [|destruct (String.eqb filename "vitals.csv"); [|discriminate]];
        injection Hf as <-; constructor.
    + intros filename df r Hf Hr. unfold Samples.data_dir in Hf.
      destruct (String.eqb filename "diagnoses.csv");
        [|destruct (String.eqb filename "vitals.csv"); [|discriminate]];
        injection Hf as <-; simpl in Hr;
        repeat (destruct Hr as [<-|Hr]; [vm_compute; discriminate|]); destruct Hr.
Defined.

End RecordStore.

(** * The claims on the narrative formatter *)

Section Medications.
Import DataLayer PyStr.













End Medications.

(** * Facts about frames: sorting and grouping *)

Section Frames.
Import DataLayer PyStr.

Ltac ts_crush :=
  unfold ts_lt, ts_le, ts_ltb, ts_eqb in *;
  repeat match goal with t : Timestamp |- _ => destruct t end;
  simpl in *;
  repeat rewrite ?orb_true_iff, ?andb_true_iff, ?orb_false_iff, ?andb_false_iff,
    ?Z.ltb_lt, ?Z.eqb_eq, ?Z.ltb_ge, ?Z.eqb_neq in *.

Lemma ts_lt_trans (a b c : Timestamp) : ts_lt a b -> ts_lt b c -> ts_lt a c.
Proof. ts_crush. lia. Qed.

Lemma ts_lt_irrefl (a : Timestamp) : ~ ts_lt a a.
Proof. ts_crush. lia. Qed.

Lemma ts_eqb_eq (a b : Timestamp) : ts_eqb a b = true <-> a = b.
Proof.
  split.
  - ts_crush. intros [[-> ->] ->]. reflexivity.
  - intros ->. ts_crush. lia.
Qed.

Lemma ts_lt_total (a b : Timestamp) :
  ts_ltb a b = false -> ts_eqb a b = false -> ts_lt b a.
Proof. ts_crush. lia. Qed.

Lemma ts_le_trans (a b c : Timestamp) : ts_le a b -> ts_le b c -> ts_le a c.
Proof. ts_crush. lia. Qed.

Lemma ts_lt_le (a b : Timestamp) : ts_lt a b -> ts_le a b.
Proof. ts_crush. lia. Qed.

Lemma insert_key_In (k x : Timestamp) (ks : list Timestamp) :
  In x (insert_key k ks) -> x = k \/ In x ks.
Proof.
  induction ks as [|k' ks IH]; simpl.
  - intros [<-|[]]. now left.
  - destruct (ts_ltb k k'); [|destruct (ts_eqb k k')]; simpl; intuition.
Qed.

Lemma insert_key_sorted (k : Timestamp) (ks : list Timestamp) :
  StronglySorted ts_lt ks -> StronglySorted ts_lt (insert_key k ks).
Proof.
  induction ks as [|k' ks IH]; intros Hs; simpl.
  - repeat constructor.
  - inversion Hs as [|? ? Hs' Hall]; subst.
    destruct (ts_ltb k k') eqn:Hlt; [|destruct (ts_eqb k k') eqn:Heq].
    + constructor; [assumption|]. constructor; [exact Hlt|].
      eapply List.Forall_impl; [|exact Hall]. intros x Hx. eapply ts_lt_trans; eassumption.
    + assumption.
    + constructor; [now apply IH|].
      apply List.Forall_forall. intros x Hx. apply insert_key_In in Hx as [->|Hx].
      * now apply ts_lt_total.
      * revert x Hx. now apply List.Forall_forall.
Qed.

(** Whatever the order of the rows in the frame, so also after
    [sort_values_desc], [groupby] yields its groups by strictly increasing
    date: the older visit comes first. *)
Lemma groupby_oldest_first (df : list row) :
  StronglySorted ts_lt (List.map fst (groupby df)).
Proof.
  unfold groupby. rewrite List.map_map; simpl. rewrite List.map_id.
  unfold group_keys. induction (List.map fst (dated df)) as [|k ks IH]; simpl.
  - constructor.
  - now apply insert_key_sorted.
Qed.

Lemma StronglySorted_app {A} (R : A -> A -> Prop) (l1 l2 : list A) :
  StronglySorted R l1 -> StronglySorted R l2 ->
  (forall a b, In a l1 -> In b l2 -> R a b) ->
  StronglySorted R (l1 ++ l2).
Proof.
  induction l1 as [|x l1 IH]; intros H1 H2 Hc; simpl; [assumption|].
  inversion H1 as [|? ? H1' Hall]; subst. constructor.
  - apply IH; [assumption | assumption |]. intros a b Ha Hb. apply Hc; [now right | assumption].
  - apply Forall_app. split; [assumption|].
    apply List.Forall_forall. intros b Hb. apply Hc; [now left | assumption].
Qed.

Lemma StronglySorted_app_inv {A} (R : A -> A -> Prop) (l1 l2 : list A) :
  StronglySorted R (l1 ++ l2) ->
  StronglySorted R l1 /\ forall a b, In a l1 -> In b l2 -> R a b.
Proof.
  induction l1 as [|x l1 IH]; simpl; intros Hs.
  - split; [constructor | intros a b []].
  - inversion Hs as [|? ? Hs' Hall]; subst.
    destruct (IH Hs') as [Hf Hc]. apply Forall_app in Hall as [Hall1 Hall2]. split.
    + now constructor.
    + intros a b [<-|Ha] Hb; [|now apply Hc].
      revert b Hb. now apply List.Forall_forall.
Qed.

Lemma StronglySorted_split {A} (R : A -> A -> Prop) (n : nat) (l : list A) :
  StronglySorted R l ->
  StronglySorted R (firstn n l)
  /\ forall a b, In a (firstn n l) -> In b (skipn n l) -> R a b.
Proof.
  intros Hs. apply StronglySorted_app_inv. now rewrite firstn_skipn.
Qed.

Lemma insert_desc_perm (x : Timestamp * record) (l : list (Timestamp * record)) :
  Permutation (insert_desc x l) (x :: l).
Proof.
  induction l as [|y l IH]; simpl; [reflexivity|].
  destruct (ts_ltb (fst x) (fst y)); [|reflexivity].
  rewrite IH. apply perm_swap.
Qed.

Lemma sort_desc_perm (l : list (Timestamp * record)) : Permutation (sort_desc l) l.
Proof.
  induction l as [|x l IH]; simpl; [reflexivity|].
  rewrite insert_desc_perm. now constructor.
Qed.

Lemma insert_desc_sorted (x : Timestamp * record) (l : list (Timestamp * record)) :
  StronglySorted desc l -> StronglySorted desc (insert_desc x l).
Proof.
  induction l as [|y l IH]; intros Hs; simpl; [repeat constructor|].
  inversion Hs as [|? ? Hs' Hall]; subst.
  destruct (ts_ltb (fst x) (fst y)) eqn:Hlt.
  - constructor; [now apply IH|].
    apply List.Forall_forall. intros z Hz.
    apply (Permutation_in _ (insert_desc_perm x l)) in Hz as [<-|Hz].
    + apply ts_lt_le. exact Hlt.
    + revert z Hz. now apply List.Forall_forall.
  - constructor; [assumption|]. constructor; [exact Hlt|].
    eapply List.Forall_impl; [|exact Hall]. intros z Hz. unfold desc in *.
    eapply ts_le_trans; [exact Hz | exact Hlt].
Qed.

Lemma sort_desc_sorted (l : list (Timestamp * record)) : StronglySorted desc (sort_desc l).
Proof.
  induction l as [|x l IH]; simpl; [constructor | now apply insert_desc_sorted].
Qed.

Lemma partition_by_date (df : list row) :
  Permutation (List.map (fun '(t, r) => (Some t, r)) (dated df) ++ undated df) df.
Proof.
  induction df as [|[[t|] r] df IH]; simpl.
  - reflexivity.
  - now constructor.
  - rewrite <- Permutation_middle. now constructor.
Qed.

Lemma sort_values_desc_perm (df : list row) : Permutation (sort_values_desc df) df.
Proof.
  unfold sort_values_desc.
  eapply Permutation_trans; [|apply partition_by_date].
  apply Permutation_app_tail, Permutation_map, sort_desc_perm.
Qed.

Lemma sort_values_desc_sorted (df : list row) :
  StronglySorted recency (sort_values_desc df).
Proof.
  unfold sort_values_desc. apply StronglySorted_app.
  - generalize (sort_desc_sorted (dated df)).
    induction 1 as [|[t r] l Hs IH Hall]; simpl; constructor; [assumption|].
    apply Forall_map. eapply List.Forall_impl; [|exact Hall].
    intros [t' r'] H. exact H.
  - unfold undated. induction df as [|[d r] df IH]; simpl; [constructor|].
    destruct (bool_decide_reflect (d = None)) as [->|_]; [|assumption].
    constructor; [assumption|].
    apply List.Forall_forall. intros [d' r'] Hin. apply filter_In in Hin as [_ Hd].
    apply bool_decide_eq_true in Hd. subst d'. exact I.
  - intros a [d r] _ Hb. apply filter_In in Hb as [_ Hd].
    apply bool_decide_eq_true in Hd. subst d. unfold recency, not_before; simpl.
    now destruct (fst a).
Qed.

Lemma traverse_records (f : record -> res (option Timestamp)) (ns : list record)
    (df : list row) :
  traverse (fun r => d ← f r; Ok (d, r)) ns = Ok df -> List.map snd df = ns.
Proof.
  revert df. induction ns as [|r ns IH]; simpl; intros df.
  - intros [= <-]. reflexivity.
  - destruct (f r) as [d|e]; simpl; [|discriminate].
    destruct (traverse _ ns) as [df'|e]; simpl; [|discriminate].
    intros [= <-]. simpl. f_equal. now apply IH.
Qed.

Lemma to_frame_records (col : string) (ns : list record) (df : list row) :
  to_frame col ns = Ok df -> List.map snd df = ns.
Proof.
  unfold to_frame. destruct (has_column ns col); [|discriminate].
  apply traverse_records.
Qed.

End Frames.

Section Vitals.
Import DataLayer PyStr.

Lemma insert_key_keeps (k x : Timestamp) (ks : list Timestamp) :
  x = k \/ In x ks -> In x (insert_key k ks).
Proof.
  induction ks as [|k' ks IH]; simpl.
  - intros [->|[]]. now left.
  - destruct (ts_ltb k k') eqn:Hlt; [|destruct (ts_eqb k k') eqn:Heq]; simpl.
    + intros [->|[->|Hx]]; auto.
    + apply ts_eqb_eq in Heq as ->. intros [->|[->|Hx]]; auto.
    + intros [->|[->|Hx]]; [right; apply IH; now left | now left | right; apply IH; now right].
Qed.

Lemma group_keys_dates (df : list row) (k : Timestamp) :
  In k (group_keys df) <-> In (Some k) (List.map fst df).
Proof.
  unfold group_keys.
  assert (In k (List.map fst (dated df)) <-> In (Some k) (List.map fst df)) as <-.
  { induction df as [|[[t|] r] df IH]; simpl; [tauto| |].
    - rewrite IH. split; intros [H|H]; auto; left; congruence.
    - rewrite IH. split; [auto|]. intros [H|H]; [discriminate | assumption]. }
  induction (List.map fst (dated df)) as [|x ks IH]; simpl; [tauto|].
  split.
  - intros H. apply insert_key_In in H as [->|H]; [now left | right; now apply IH].
  - intros [->|H]; apply insert_key_keeps; [now left | right; now apply IH].
Qed.

Lemma sorted_places {A} (R : A -> A -> Prop) (l : list A) (a b : A) :
  (forall x, ~ R x x) -> (forall x y z, R x y -> R y z -> R x z) ->
  StronglySorted R l -> In a l -> In b l -> R a b ->
  exists l1 l2 l3, l = (l1 ++ a :: l2 ++ b :: l3)%list.
Proof.
  intros Hirr Htr Hs Ha Hb Hab.
  apply in_split in Ha as (l1 & rest & ->).
  apply StronglySorted_app_inv in Hs as Hsplit. destruct Hsplit as [_ Hcross].
  apply in_app_or in Hb as [Hb|[<-|Hb]].
  - exfalso. apply (Hirr a). eapply Htr; [exact Hab|]. apply Hcross; [assumption | now left].
  - exfalso. now apply (Hirr a).
  - apply in_split in Hb as (l2 & l3 & ->). now exists l1, l2, l3.
Qed.

(** On every input with vitals on two dates, the group of the older date
    stands before the group of the more recent one in the block. *)
Lemma vitals_block_oldest_first (vs : list record) (df : list row) (d1 d2 : Timestamp) :
  vs <> [] ->
  to_frame "visit_date" vs = Ok df ->
  In (Some d1) (List.map fst df) -> In (Some d2) (List.map fst df) ->
  ts_lt d1 d2 ->
  exists pre mid post,
    vitals_block vs
    = Ok (pre ++ vitals_group vs (d1, group_rows d1 (sort_values_desc df))
              ++ mid ++ vitals_group vs (d2, group_rows d2 (sort_values_desc df))
              ++ post).
Proof.
  intros Hne Hdf H1 H2 Hlt.
  assert (forall d, In (Some d) (List.map fst df) -> In d (group_keys (sort_values_desc df)))
    as Hkeys.
  { intros d Hd. apply group_keys_dates.
    eapply Permutation_in; [|exact Hd].
    apply Permutation_map, Permutation_sym, sort_values_desc_perm. }
  destruct (sorted_places ts_lt (group_keys (sort_values_desc df)) d1 d2)
    as (l1 & l2 & l3 & Hsplit);
    [exact ts_lt_irrefl | exact ts_lt_trans | | auto | auto | exact Hlt |].
  { generalize (groupby_oldest_first (sort_values_desc df)).
    unfold groupby. rewrite List.map_map; simpl. now rewrite List.map_id. }
  destruct vs as [|v vs]; [contradiction|].
  unfold vitals_block. rewrite Hdf. simpl.
  set (mk := fun k : Timestamp => (k, group_rows k (sort_values_desc df))).
  set (g := vitals_group (v :: vs)).
  exists (concat (List.map g (List.map mk l1))), (concat (List.map g (List.map mk l2))),
         (concat (List.map g (List.map mk l3))).
  f_equal. unfold groupby. fold mk. rewrite Hsplit.
  rewrite !List.map_app, concat_app, !List.map_cons, concat_cons.
  rewrite !List.map_app, concat_app, !List.map_cons, concat_cons.
  reflexivity.
Qed.

(** C1, on the code.  Whatever the frame, the groups of [groupby] come by
    strictly increasing date, the descending sort before it notwithstanding;
    so for the vitals of 2026-01-01 and 2026-01-10 the block lists the
    group of 2026-01-01 first, and in the whole output the heading of
    2026-01-01 stands before that of 2026-01-10. *)
Theorem vitals_two_visits_oldest_first :
  (forall df, StronglySorted ts_lt (List.map fst (groupby (sort_values_desc df))))
  /\ vitals_block Samples.two_visits
     = Ok (nl ++ "**2026-01-01:**" ++ nl ++ "  - Heart Rate: 72" ++ nl
           ++ nl ++ "**2026-01-10:**" ++ nl ++ "  - Heart Rate: 80" ++ nl)
  /\ forall set_order,
       exists output i j,
         format_for_llm set_order Samples.bundle_two_visits = Ok output
         /\ String.index 0 "**2026-01-01:**" output = Some i
         /\ String.index 0 "**2026-01-10:**" output = Some j
         /\ (i < j)%nat.
Proof.
  split; [intros df; apply groupby_oldest_first|].
  split; [vm_compute; reflexivity|].
  intros set_order. eexists _, 164%nat, 200%nat.
  split; [vm_compute; reflexivity|].
  split; [vm_compute; reflexivity|].
  split; [vm_compute; reflexivity|lia].
Qed.

End Vitals.

Section Notes.
Import DataLayer PyStr.

(** C2, as the claim has it, fails on its last part: a note of exactly
    500 characters is written out in full and then gets the marker like
    any other, so what is emitted for it is 503 characters long. *)
Lemma note_of_500_characters_gets_marker :
  String.length Samples.text_500 = 500%nat
  /\ notes_block [Samples.note_500]
     = Ok (nl ++ "**2026-01-05 00:00:00 - Visit:**" ++ nl
              ++ Samples.text_500 ++ "..." ++ nl)
  /\ String.length (emitted_text Samples.text_500) = 503%nat.
Proof. repeat split; vm_compute; reflexivity. Qed.

(** C2, amended.  The notes block takes the first three rows of the
    notes sorted by date, most recent first: they are as many as there are
    notes up to three, in descending order of date, and no note left out is
    more recent than one that is kept.  Each kept note's text is cut to its
    first 500 characters and followed by the marker, whatever its length:
    a text of at most 500 characters is emitted whole, then the marker. *)
Theorem notes_three_most_recent_with_marker (ns : list record) (df : list row) :
  ns <> [] ->
  to_frame "note_date" ns = Ok df ->
  exists recent older,
    recent_notes ns = Ok recent
    /\ notes_block ns = (entries ← traverse (note_entry ns) recent; Ok (concat entries))
    /\ Permutation (recent ++ older) df
    /\ List.map snd df = ns
    /\ List.length recent = Nat.min 3 (List.length ns)
    /\ StronglySorted recency recent
    /\ (forall a b, In a recent -> In b older -> recency a b)
    /\ (forall n text,
          note_text ns (snd n) = VStr text ->
          note_entry ns n = Ok (note_heading ns n ++ emitted_text text ++ nl)
          /\ emitted_text text = slice_to 500 text ++ "..."
          /\ String.length (emitted_text text)
             = (Nat.min 500 (String.length text) + 3)%nat
          /\ ((String.length text <= 500)%nat -> emitted_text text = text ++ "...")).
Proof.
  intros Hne Hdf.
  exists (firstn 3 (sort_values_desc df)), (skipn 3 (sort_values_desc df)).
  pose proof (to_frame_records _ _ _ Hdf) as Hrec.
  destruct (StronglySorted_split recency 3 _ (sort_values_desc_sorted df)) as [Hs Hc].
  split; [unfold recent_notes; rewrite Hdf; reflexivity|].
  split.
  { destruct ns as [|r ns]; [contradiction|].
    unfold notes_block, recent_notes. rewrite Hdf. reflexivity. }
  split; [rewrite firstn_skipn; apply sort_values_desc_perm|].
  split; [exact Hrec|].
  split.
  { rewrite length_firstn, (Permutation_length (sort_values_desc_perm df)).
    rewrite <- Hrec. now rewrite List.length_map. }
  split; [exact Hs|]. split; [exact Hc|].
  intros n text Ht. unfold note_entry, emitted_text. rewrite Ht.
  split; [reflexivity|]. split; [reflexivity|]. split.
  - rewrite length_append, length_slice_to. reflexivity.
  - intros Hlen. now rewrite slice_to_all.
Qed.

Lemma notes_three_most_recent_with_marker_witness :
  exists recent,
    recent_notes Samples.four_notes = Ok recent
    /\ List.length recent = 3%nat
    /\ List.map fst recent = [Some (Samples.day 9); Some (Samples.day 5); Some (Samples.day 2)]
    /\ notes_block Samples.four_notes
       = Ok (nl ++ "**2026-01-09 00:00:00 - Phone:**" ++ nl
                ++ repeat_char "b" 500 ++ "..." ++ nl
                ++ nl ++ "**2026-01-05 00:00:00 - Visit:**" ++ nl
                ++ Samples.text_500 ++ "..." ++ nl
                ++ nl ++ "**2026-01-02 00:00:00 - Visit:**" ++ nl
                ++ "Wound dressing changed...." ++ nl).
Proof.
  destruct (notes_three_most_recent_with_marker Samples.four_notes Samples.four_notes_frame)
    as (recent & older & Hr & Hb & _ & _ & Hlen & _).
  - discriminate.
  - vm_compute; reflexivity.
  - exists recent. split; [exact Hr|]. split; [exact Hlen|].
    assert (recent = firstn 3 (sort_values_desc Samples.four_notes_frame)) as ->.
    { assert (Ok recent = recent_notes Samples.four_notes) as E by (symmetry; exact Hr).
      vm_compute in E. injection E as ->. vm_compute; reflexivity. }
    split; vm_compute; reflexivity.
Defined.

End Notes.

Section Purity.
Import DataLayer PyStr.








End Purity.

(** * Further properties of the record store *)

Section RecordStoreRows.
Import DataLayer.

(** The rows of a table that bear [pid], as [get_patient_data] returns them. *)
Lemma patient_rows_table (fs : string -> option DataFrame) (key filename : string) (pid : Z) :
  In (key, filename) csv_files ->
  patient_rows (load_all_data fs) key pid =
    if empty (table fs filename) then Ok []
    else if bool_decide ("patient_id" ∈ columns (table fs filename))
         then Ok (List.map (to_dict (columns (table fs filename)))
                    (List.filter (fun r => bool_decide (cell r "patient_id" = VInt pid))
                                 (rows (table fs filename))))
         else Raise (KeyError "patient_id").
Proof.
  intros Hin. unfold patient_rows. rewrite (load_all_data_lookup fs key filename Hin).
  destruct (empty (table fs filename)); simpl; [reflexivity|].
  unfold select_patient. destruct (bool_decide _); reflexivity.
Qed.

Lemma get_patient_data_fields (fs : string -> option DataFrame) (pid : Z) (b : bundle) :
  get_patient_data fs pid = Ok b ->
  patient_id b = pid
  /\ forall key filename, In (key, filename) csv_files ->
       patient_rows (load_all_data fs) key pid = Ok (bundle_get b key).
Proof.
  unfold get_patient_data.
  destruct (patient_rows _ "diagnoses" pid) as [dg|] eqn:H1; simpl; [|discriminate].
  destruct (patient_rows _ "medications" pid) as [md|] eqn:H2; simpl; [|discriminate].
  destruct (patient_rows _ "vitals" pid) as [vt|] eqn:H3; simpl; [|discriminate].
  destruct (patient_rows _ "notes" pid) as [nt|] eqn:H4; simpl; [|discriminate].
  destruct (patient_rows _ "wounds" pid) as [wd|] eqn:H5; simpl; [|discriminate].
  destruct (patient_rows _ "oasis" pid) as [oa|] eqn:H6; simpl; [|discriminate].
  intros [= <-]. split; [reflexivity|].
  intros key filename Hin. unfold csv_files in Hin. simpl in Hin.
  destruct Hin as [H|[H|[H|[H|[H|[H|[]]]]]]]; injection H as <- <-; assumption.
Qed.

Lemma bundle_get_rows (fs : string -> option DataFrame) (pid : Z) (b : bundle)
    (key filename : string) :
  get_patient_data fs pid = Ok b ->
  In (key, filename) csv_files ->
  bundle_get b key =
    (if empty (table fs filename) then []
     else List.map (to_dict (columns (table fs filename)))
            (List.filter (fun r => bool_decide (cell r "patient_id" = VInt pid))
                         (rows (table fs filename)))).
Proof.
  intros Hb Hin. destruct (get_patient_data_fields fs pid b Hb) as [_ Hrows].
  specialize (Hrows key filename Hin).
  rewrite (patient_rows_table fs key filename pid Hin) in Hrows.
  destruct (empty (table fs filename)); [now injection Hrows|].
  destruct (bool_decide ("patient_id" ∈ columns (table fs filename)));
    [now injection Hrows | discriminate].
Qed.

(** X1. Each sequence of a bundle [get_patient_data] returns holds exactly
    the rows of its table whose [patient_id] is the identifier, in the
    order of the table, each as the dictionary of the table's columns; a
    file that could not be read, or has no rows, gives the empty
    sequence. *)
Theorem get_patient_data_selects_rows (fs : string -> option DataFrame) (pid : Z)
    (b : bundle) (key filename : string) :
  get_patient_data fs pid = Ok b ->
  In (key, filename) csv_files ->
  bundle_get b key =
    (if empty (table fs filename) then []
     else List.map (to_dict (columns (table fs filename)))
            (List.filter (fun r => bool_decide (cell r "patient_id" = VInt pid))
                         (rows (table fs filename))))
  /\ (fs filename = None -> bundle_get b key = []).
Proof.
  intros Hb Hin. pose proof (bundle_get_rows fs pid b key filename Hb Hin) as Heq.
  split; [exact Heq|].
  intros Hnone. rewrite Heq. unfold table. rewrite Hnone. reflexivity.
Qed.

Lemma get_patient_data_selects_rows_witness :
  bundle_get Samples.bundle_1001 "vitals"
  = List.map (to_dict (columns Samples.vitals_csv))
      (List.filter (fun r => bool_decide (cell r "patient_id" = VInt 1001))
                   (rows Samples.vitals_csv))
  /\ bundle_get Samples.bundle_1001 "wounds" = [].
Proof.
  split.
  - apply (proj1 (get_patient_data_selects_rows Samples.data_dir 1001 Samples.bundle_1001
                    "vitals" "vitals.csv" ltac:(vm_compute; reflexivity)
                    ltac:(simpl; tauto))).
  - apply (proj2 (get_patient_data_selects_rows Samples.data_dir 1001 Samples.bundle_1001
                    "wounds" "wounds.csv" ltac:(vm_compute; reflexivity)
                    ltac:(simpl; tauto))).
    reflexivity.
Defined.

(** X2. A table that has rows but no [patient_id] column makes
    [get_patient_data] raise [KeyError('patient_id')], for every
    identifier and whatever the other tables hold. *)
Theorem get_patient_data_missing_column (fs : string -> option DataFrame) (pid : Z)
    (key filename : string) (df : DataFrame) :
  In (key, filename) csv_files ->
  fs filename = Some df ->
  empty df = false ->
  "patient_id" ∉ columns df ->
  get_patient_data fs pid = Raise (KeyError "patient_id").
Proof.
  intros Hin Hfs Hne Hcol.
  assert (patient_rows (load_all_data fs) key pid = Raise (KeyError "patient_id")) as Hbad.
  { rewrite (patient_rows_table fs key filename pid Hin). unfold table. rewrite Hfs, Hne.
    now rewrite bool_decide_eq_false_2. }
  assert (forall k f, In (k, f) csv_files ->
            forall e, patient_rows (load_all_data fs) k pid = Raise e -> e = KeyError "patient_id")
    as Honly.
  { intros k f Hk e. rewrite (patient_rows_table fs k f pid Hk).
    destruct (empty (table fs f)); [discriminate|].
    destruct (bool_decide ("patient_id" ∈ columns (table fs f))); [discriminate|].
    now intros [= <-]. }
  destruct (get_patient_data fs pid) as [b|e] eqn:Hres.
  - destruct (get_patient_data_fields fs pid b Hres) as [_ Hrows].
    rewrite (Hrows key filename Hin) in Hbad. discriminate.
  - f_equal. revert Hres. unfold get_patient_data.
    destruct (patient_rows _ "diagnoses" pid) eqn:H1; simpl;
      [|intros [= <-]; eapply (Honly "diagnoses" "diagnoses.csv"); [simpl; tauto | eassumption]].
    destruct (patient_rows _ "medications" pid) eqn:H2; simpl;
      [|intros [= <-]; eapply (Honly "medications" "medications.csv"); [simpl; tauto | eassumption]].
    destruct (patient_rows _ "vitals" pid) eqn:H3; simpl;
      [|intros [= <-]; eapply (Honly "vitals" "vitals.csv"); [simpl; tauto | eassumption]].
    destruct (patient_rows _ "notes" pid) eqn:H4; simpl;
      [|intros [= <-]; eapply (Honly "notes" "notes.csv"); [simpl; tauto | eassumption]].
    destruct (patient_rows _ "wounds" pid) eqn:H5; simpl;
      [|intros [= <-]; eapply (Honly "wounds" "wounds.csv"); [simpl; tauto | eassumption]].
    destruct (patient_rows _ "oasis" pid) eqn:H6; simpl;
      [|intros [= <-]; eapply (Honly "oasis" "oasis.csv"); [simpl; tauto | eassumption]].
    discriminate.
Qed.

Lemma get_patient_data_missing_column_witness :
  get_patient_data Samples.data_dir_unkeyed 1001 = Raise (KeyError "patient_id")
  /\ get_patient_data Samples.data_dir_unkeyed 4242 = Raise (KeyError "patient_id").
Proof.
  split;
    apply (get_patient_data_missing_column Samples.data_dir_unkeyed _
             "notes" "notes.csv" Samples.notes_csv_unkeyed);
    try reflexivity; try (simpl; tauto);
    vm_compute; intros H; repeat (inversion H as [|? ? ? H']; clear H; rename H' into H).
Defined.

End RecordStoreRows.

Section PatientList.
Import DataLayer.

Lemma to_dict_lookup_absent (cols : list string) (r : record) (c : string) :
  c ∉ cols -> to_dict cols r !! c = None.
Proof.
  unfold to_dict. induction cols as [|c0 cols IH]; intros Hc; simpl.
  - apply lookup_empty.
  - rewrite lookup_insert_ne.
    + apply IH. intros Hin. apply Hc. now right.
    + intros ->. apply Hc. now left.
Qed.

Lemma bundle_record_row (fs : string -> option DataFrame) (pid : Z)
    (b : bundle) (key filename : string) (r : record) :
  get_patient_data fs pid = Ok b ->
  In (key, filename) csv_files ->
  In r (bundle_get b key) ->
  exists row,
    In row (rows (table fs filename))
    /\ cell row "patient_id" = VInt pid
    /\ (forall c, r !! c = if bool_decide (c ∈ columns (table fs filename))
                           then Some (cell row c) else None)
    /\ (forall c dflt, c ∈ columns (table fs filename) -> get r c dflt = cell row c).
Proof.
  intros Hb Hin Hr.
  pose proof (bundle_get_rows fs pid b key filename Hb Hin) as Heq.
  rewrite Heq in Hr. destruct (empty (table fs filename)); [destruct Hr|].
  apply in_map_iff in Hr as (row & <- & Hrow).
  apply filter_In in Hrow as [Hrow Hpid]. apply bool_decide_eq_true in Hpid.
  exists row. split; [assumption|]. split; [assumption|].
  assert (forall c, to_dict (columns (table fs filename)) row !! c
                    = if bool_decide (c ∈ columns (table fs filename))
                      then Some (cell row c) else None) as Hlook.
  { intros c. destruct (bool_decide_reflect (c ∈ columns (table fs filename))).
    - now apply to_dict_lookup.
    - now apply to_dict_lookup_absent. }
  split; [exact Hlook|].
  intros c dflt Hc. unfold get at 1. rewrite Hlook, bool_decide_eq_true_2 by assumption.
  reflexivity.
Qed.

(** X3. A record of a returned bundle has exactly the columns of its table
    as keys, and under each the cell of one row of the table that bears
    the identifier, [nan] where the row has no cell: so [get] on such a
    record never yields its default for a column of the table. *)
Theorem bundle_records_follow_header (fs : string -> option DataFrame) (pid : Z)
    (b : bundle) (key filename : string) (r : record) :
  get_patient_data fs pid = Ok b ->
  In (key, filename) csv_files ->
  In r (bundle_get b key) ->
  exists row,
    In row (rows (table fs filename))
    /\ cell row "patient_id" = VInt pid
    /\ (forall c, r !! c = if bool_decide (c ∈ columns (table fs filename))
                           then Some (cell row c) else None)
    /\ (forall c dflt, c ∈ columns (table fs filename) -> get r c dflt = cell row c).
Proof. apply bundle_record_row. Qed.

Lemma bundle_records_follow_header_witness :
  exists row,
    In row (rows (table Samples.data_dir "diagnoses.csv"))
    /\ cell row "patient_id" = VInt 1001
    /\ (forall c, Samples.hypertension_1001 !! c
                  = if bool_decide (c ∈ columns (table Samples.data_dir "diagnoses.csv"))
                    then Some (cell row c) else None)
    /\ (forall c dflt, c ∈ columns (table Samples.data_dir "diagnoses.csv") ->
                       get Samples.hypertension_1001 c dflt = cell row c).
Proof.
  apply (bundle_records_follow_header Samples.data_dir 1001 Samples.bundle_1001
           "diagnoses" "diagnoses.csv" Samples.hypertension_1001).
  - vm_compute; reflexivity.
  - simpl; tauto.
  - left. vm_compute; reflexivity.
Defined.

Lemma unique_spec (seen l : list Z) :
  NoDup (unique seen l)
  /\ forall x, In x (unique seen l) <-> In x l /\ x ∉ seen.
Proof.
  revert seen. induction l as [|a l IH]; intros seen; simpl.
  - split; [constructor | intros x; tauto].
  - destruct (bool_decide_reflect (a ∈ seen)) as [Ha|Ha].
    + destruct (IH seen) as [Hnd Hin]. split; [assumption|].
      intros x. rewrite Hin. split; [tauto|].
      intros [[->|Hx] Hs]; [contradiction | tauto].
    + destruct (IH (a :: seen)) as [Hnd Hin]. split.
      * constructor; [|assumption]. rewrite list_elem_of_In, Hin. intros [_ Hs]. apply Hs. now left.
      * intros x. simpl. rewrite Hin. split.
        -- intros [->|[Hx Hs]]; [tauto|]. split; [tauto|].
           intros Hxs. apply Hs. now right.
        -- intros [[->|Hx] Hs]; [now left|].
           destruct (decide (x = a)) as [->|Hne]; [now left | right].
           split; [assumption|]. intros Hxs. inversion Hxs; subst; tauto.
Qed.

Lemma insert_asc_In (a x : Z) (l : list Z) : In x (insert_asc a l) <-> x = a \/ In x l.
Proof.
  induction l as [|y l IH]; simpl; [intuition|].
  destruct (y <? a); simpl; rewrite ?IH; intuition.
Qed.

Lemma sorted_In (x : Z) (l : list Z) : In x (sorted l) <-> In x l.
Proof.
  induction l as [|a l IH]; simpl; [tauto|].
  rewrite insert_asc_In, IH. intuition.
Qed.

Lemma insert_asc_sorted (a : Z) (l : list Z) :
  ~ In a l -> StronglySorted Z.lt l -> StronglySorted Z.lt (insert_asc a l).
Proof.
  induction l as [|y l IH]; intros Ha Hs; simpl; [repeat constructor|].
  inversion Hs as [|? ? Hs' Hall]; subst.
  destruct (Z.ltb_spec y a) as [Hlt|Hge].
  - constructor.
    + apply IH; [|assumption]. intros Hin. apply Ha. now right.
    + apply List.Forall_forall. intros x Hx. apply insert_asc_In in Hx as [->|Hx];
        [assumption|]. revert x Hx. now apply List.Forall_forall.
  - assert (a < y) as Hay.
    { destruct (Z.eq_dec a y) as [->|Hne]; [exfalso; apply Ha; now left | lia]. }
    constructor; [assumption|]. constructor; [assumption|].
    eapply List.Forall_impl; [|exact Hall]. intros x Hx. simpl in Hx. lia.
Qed.

Lemma sorted_strictly (l : list Z) : NoDup l -> StronglySorted Z.lt (sorted l).
Proof.
  induction 1 as [|a l Ha Hnd IH]; simpl; [constructor|].
  apply insert_asc_sorted; [|assumption].
  rewrite sorted_In. intros Hin. apply Ha. now apply list_elem_of_In.
Qed.

Lemma traverse_int_cells (rs : list record) (ids : list Z) :
  traverse (fun r => int_cell (cell r "patient_id")) rs = Ok ids ->
  List.map (fun r => cell r "patient_id") rs = List.map VInt ids.
Proof.
  revert ids. induction rs as [|r rs IH]; simpl; intros ids.
  - intros [= <-]. reflexivity.
  - unfold int_cell at 1. destruct (cell r "patient_id") as [|z|]; simpl; try discriminate.
    destruct (traverse _ rs) as [zs|]; simpl; [|discriminate].
    intros [= <-]. simpl. f_equal. now apply IH.
Qed.

Lemma patient_ids_spec (fs : string -> option DataFrame) (ids : list Z) :
  get_patient_ids fs = Ok ids ->
  StronglySorted Z.lt ids
  /\ forall z, In z ids <->
               empty (table fs "diagnoses.csv") = false
               /\ exists r, In r (rows (table fs "diagnoses.csv"))
                            /\ cell r "patient_id" = VInt z.
Proof.
  unfold get_patient_ids.
  rewrite (load_all_data_lookup fs "diagnoses" "diagnoses.csv") by (simpl; tauto).
  destruct (empty (table fs "diagnoses.csv")); simpl.
  { intros [= <-]. split; [constructor|]. intros z; simpl. split; [tauto|]. intros [? _].
    discriminate. }
  destruct (bool_decide _); [|discriminate].
  destruct (traverse _ (rows (table fs "diagnoses.csv"))) as [zs|] eqn:Hzs; simpl;
    [|discriminate].
  intros [= <-]. apply traverse_int_cells in Hzs.
  destruct (unique_spec [] zs) as [Hnd Hin]. split.
  - apply sorted_strictly. exact Hnd.
  - intros z. rewrite sorted_In, Hin. split.
    + intros [Hz _]. split; [reflexivity|].
      assert (In (VInt z) (List.map VInt zs)) as Hv by (now apply in_map).
      rewrite <- Hzs in Hv. apply in_map_iff in Hv as (r & Hr & Hrin). eauto.
    + intros [_ (r & Hr & Hc)]. split; [|intros Hs; inversion Hs].
      assert (In (VInt z) (List.map VInt zs)) as Hv.
      { rewrite <- Hzs, <- Hc.
        exact (in_map (fun r0 : record => cell r0 "patient_id") _ _ Hr). }
      apply in_map_iff in Hv as (z' & [= ->] & Hz). exact Hz.
Qed.

(** X4. The list [get_patient_ids] returns is strictly increasing, hence
    without repeats, and holds exactly the identifiers borne by a row of
    the diagnoses table; the other tables play no role. *)
Theorem get_patient_ids_sorted_distinct (fs : string -> option DataFrame) (ids : list Z) :
  get_patient_ids fs = Ok ids ->
  StronglySorted Z.lt ids
  /\ forall z, In z ids <->
               empty (table fs "diagnoses.csv") = false
               /\ exists r, In r (rows (table fs "diagnoses.csv"))
                            /\ cell r "patient_id" = VInt z.
Proof. apply patient_ids_spec. Qed.

Lemma get_patient_ids_sorted_distinct_witness :
  get_patient_ids Samples.data_dir = Ok [1001; 1002]
  /\ StronglySorted Z.lt [1001; 1002].
Proof.
  split; [vm_compute; reflexivity|].
  apply (get_patient_ids_sorted_distinct Samples.data_dir [1001; 1002]).
  vm_compute; reflexivity.
Defined.

(** X5. For a table of diagnoses read by both functions, an identifier is
    in the list of [get_patient_ids] exactly when the bundle
    [get_patient_data] returns for it has a diagnosis: a patient with
    records in other tables only is not listed. *)
Theorem listed_iff_has_diagnosis (fs : string -> option DataFrame) (ids : list Z)
    (pid : Z) (b : bundle) :
  get_patient_ids fs = Ok ids ->
  get_patient_data fs pid = Ok b ->
  In pid ids <-> exists r, In r (diagnoses b).
Proof.
  intros Hids Hb.
  destruct (patient_ids_spec fs ids Hids) as [_ Hin].
  pose proof (bundle_get_rows fs pid b "diagnoses" "diagnoses.csv" Hb
                ltac:(simpl; tauto)) as Heq.
  change (bundle_get b "diagnoses") with (diagnoses b) in Heq.
  rewrite Hin, Heq. destruct (empty (table fs "diagnoses.csv")).
  - split; [intros [? _]; discriminate | intros [r []]].
  - split.
    + intros [_ (r & Hr & Hc)].
      exists (to_dict (columns (table fs "diagnoses.csv")) r).
      apply in_map, filter_In. split; [assumption | now apply bool_decide_eq_true].
    + intros [r' Hr']. split; [reflexivity|].
      apply in_map_iff in Hr' as (r & _ & Hr). apply filter_In in Hr as [Hr Hc].
      apply bool_decide_eq_true in Hc. eauto.
Qed.

Lemma listed_iff_has_diagnosis_witness :
  (In 1001 [1001; 1002] <-> exists r, In r (diagnoses Samples.bundle_1001))
  /\ (In 4242 [1001; 1002] <-> exists r, In r (diagnoses (empty_bundle 4242))).
Proof.
  split.
  - apply (listed_iff_has_diagnosis Samples.data_dir [1001; 1002] 1001 Samples.bundle_1001);
      vm_compute; reflexivity.
  - apply (listed_iff_has_diagnosis Samples.data_dir [1001; 1002] 4242 (empty_bundle 4242));
      vm_compute; reflexivity.
Defined.

End PatientList.

(** * Further properties of the narrative formatter *)

Section FormatterLayout.
Import DataLayer PyStr.

(** The output is the heading line and the six headed blocks, in order. *)
Lemma format_for_llm_layout (set_order : list value -> list value) (b : bundle)
    (output : string) :
  format_for_llm set_order b = Ok output ->
  exists v w o n,
    vitals_block (vitals b) = Ok v
    /\ wounds_block (wounds b) = Ok w
    /\ oasis_block (oasis b) = Ok o
    /\ notes_block (notes b) = Ok n
    /\ output =
         "# Patient Clinical Data - ID: " ++ of_Z (patient_id b) ++ nl ++ nl
           ++ "## PRIMARY DIAGNOSES" ++ nl ++ diagnoses_block set_order (diagnoses b) ++ nl
           ++ "## ACTIVE MEDICATIONS" ++ nl ++ medications_block (medications b) ++ nl
           ++ "## VITAL SIGNS HISTORY" ++ nl ++ v ++ nl
           ++ "## ACTIVE WOUNDS" ++ nl ++ w ++ nl
           ++ "## FUNCTIONAL STATUS (OASIS Assessment)" ++ nl ++ o ++ nl
           ++ "## CLINICAL NOTES (Recent)" ++ nl ++ n.
Proof.
  unfold format_for_llm.
  destruct (vitals_block (vitals b)) as [v|]; simpl; [|discriminate].
  destruct (wounds_block (wounds b)) as [w|]; simpl; [|discriminate].
  destruct (oasis_block (oasis b)) as [o|]; simpl; [|discriminate].
  destruct (notes_block (notes b)) as [n|]; simpl; [|discriminate].
  intros [= <-]. exists v, w, o, n. repeat (split; [reflexivity|]).
  now rewrite !append_assoc.
Qed.

Ltac found_between pre post :=
  exists pre, post; rewrite !append_assoc; reflexivity.

(** X6. In every output of [format_for_llm], a category with no record
    has its heading followed by its notice: no block is left out and none
    raises for want of data. *)
Theorem empty_category_gets_notice (set_order : list value -> list value) (b : bundle)
    (output : string) :
  format_for_llm set_order b = Ok output ->
  (diagnoses b = [] ->
   contains output ("## PRIMARY DIAGNOSES" ++ nl ++ "No diagnosis data available." ++ nl))
  /\ (medications b = [] ->
      contains output ("## ACTIVE MEDICATIONS" ++ nl ++ "No medication data available." ++ nl))
  /\ (vitals b = [] ->
      contains output ("## VITAL SIGNS HISTORY" ++ nl ++ "No vital signs data available." ++ nl))
  /\ (wounds b = [] ->
      contains output ("## ACTIVE WOUNDS" ++ nl ++ "No wound data available." ++ nl))
  /\ (oasis b = [] ->
      contains output ("## FUNCTIONAL STATUS (OASIS Assessment)" ++ nl
                         ++ "No OASIS data available." ++ nl))
  /\ (notes b = [] ->
      contains output ("## CLINICAL NOTES (Recent)" ++ nl
                         ++ "No clinical notes available." ++ nl)).
Proof.
  intros Hout.
  destruct (format_for_llm_layout set_order b output Hout)
    as (v & w & o & n & Hv & Hw & Ho & Hn & ->).
  repeat split; intros He; rewrite He in *; simpl in *.
  - found_between ("# Patient Clinical Data - ID: " ++ of_Z (patient_id b) ++ nl ++ nl)
      (nl ++ "## ACTIVE MEDICATIONS" ++ nl ++ medications_block (medications b) ++ nl
          ++ "## VITAL SIGNS HISTORY" ++ nl ++ v ++ nl
          ++ "## ACTIVE WOUNDS" ++ nl ++ w ++ nl
          ++ "## FUNCTIONAL STATUS (OASIS Assessment)" ++ nl ++ o ++ nl
          ++ "## CLINICAL NOTES (Recent)" ++ nl ++ n).
  - found_between ("# Patient Clinical Data - ID: " ++ of_Z (patient_id b) ++ nl ++ nl
          ++ "## PRIMARY DIAGNOSES" ++ nl ++ diagnoses_block set_order (diagnoses b) ++ nl)
      (nl ++ "## VITAL SIGNS HISTORY" ++ nl ++ v ++ nl
          ++ "## ACTIVE WOUNDS" ++ nl ++ w ++ nl
          ++ "## FUNCTIONAL STATUS (OASIS Assessment)" ++ nl ++ o ++ nl
          ++ "## CLINICAL NOTES (Recent)" ++ nl ++ n).
  - injection Hv as <-.
    found_between ("# Patient Clinical Data - ID: " ++ of_Z (patient_id b) ++ nl ++ nl
          ++ "## PRIMARY DIAGNOSES" ++ nl ++ diagnoses_block set_order (diagnoses b) ++ nl
          ++ "## ACTIVE MEDICATIONS" ++ nl ++ medications_block (medications b) ++ nl)
      (nl ++ "## ACTIVE WOUNDS" ++ nl ++ w ++ nl
          ++ "## FUNCTIONAL STATUS (OASIS Assessment)" ++ nl ++ o ++ nl
          ++ "## CLINICAL NOTES (Recent)" ++ nl ++ n).
  - injection Hw as <-.
    found_between ("# Patient Clinical Data - ID: " ++ of_Z (patient_id b) ++ nl ++ nl
          ++ "## PRIMARY DIAGNOSES" ++ nl ++ diagnoses_block set_order (diagnoses b) ++ nl
          ++ "## ACTIVE MEDICATIONS" ++ nl ++ medications_block (medications b) ++ nl
          ++ "## VITAL SIGNS HISTORY" ++ nl ++ v ++ nl)
      (nl ++ "## FUNCTIONAL STATUS (OASIS Assessment)" ++ nl ++ o ++ nl
          ++ "## CLINICAL NOTES (Recent)" ++ nl ++ n).
  - injection Ho as <-.
    found_between ("# Patient Clinical Data - ID: " ++ of_Z (patient_id b) ++ nl ++ nl
          ++ "## PRIMARY DIAGNOSES" ++ nl ++ diagnoses_block set_order (diagnoses b) ++ nl
          ++ "## ACTIVE MEDICATIONS" ++ nl ++ medications_block (medications b) ++ nl
          ++ "## VITAL SIGNS HISTORY" ++ nl ++ v ++ nl
          ++ "## ACTIVE WOUNDS" ++ nl ++ w ++ nl)
      (nl ++ "## CLINICAL NOTES (Recent)" ++ nl ++ n).
  - injection Hn as <-.
    found_between ("# Patient Clinical Data - ID: " ++ of_Z (patient_id b) ++ nl ++ nl
          ++ "## PRIMARY DIAGNOSES" ++ nl ++ diagnoses_block set_order (diagnoses b) ++ nl
          ++ "## ACTIVE MEDICATIONS" ++ nl ++ medications_block (medications b) ++ nl
          ++ "## VITAL SIGNS HISTORY" ++ nl ++ v ++ nl
          ++ "## ACTIVE WOUNDS" ++ nl ++ w ++ nl
          ++ "## FUNCTIONAL STATUS (OASIS Assessment)" ++ nl ++ o ++ nl)
      "".
Qed.

End FormatterLayout.

Section FormatterBlocks.
Import DataLayer PyStr.

Lemma empty_category_gets_notice_witness :
  exists output,
    format_for_llm Samples.order_a Samples.bundle_two_visits = Ok output
    /\ contains output ("## ACTIVE WOUNDS" ++ nl ++ "No wound data available." ++ nl).
Proof.
  eexists. split; [vm_compute; reflexivity|].
  apply (proj1 (proj2 (proj2 (proj2
           (empty_category_gets_notice Samples.order_a Samples.bundle_two_visits _
              ltac:(vm_compute; reflexivity)))))).
  reflexivity.
Defined.

Lemma get_patient_data_unknown (fs : string -> option DataFrame) (pid : Z) :
  keyed fs -> unknown fs pid -> get_patient_data fs pid = Ok (empty_bundle pid).
Proof.
  intros Hk Hu. unfold get_patient_data.
  assert (forall key filename, In (key, filename) csv_files ->
            patient_rows (load_all_data fs) key pid = Ok []) as Hrows
    by (intros; eapply patient_rows_unknown; eassumption).
  rewrite (Hrows "diagnoses" "diagnoses.csv"), (Hrows "medications" "medications.csv"),
    (Hrows "vitals" "vitals.csv"), (Hrows "notes" "notes.csv"),
    (Hrows "wounds" "wounds.csv"), (Hrows "oasis" "oasis.csv");
    solve [reflexivity | unfold csv_files; simpl; tauto].
Qed.

(** X7. Fetching and then formatting an identifier that no table bears
    gives, over tables keyed by [patient_id], the text of six headings each
    followed by its notice, with the identifier in the title: no exception,
    whatever iteration order the diagnoses set has. *)
Theorem unknown_patient_formats_to_notices (set_order : list value -> list value)
    (fs : string -> option DataFrame) (pid : Z) :
  keyed fs -> unknown fs pid ->
  (patient_data ← get_patient_data fs pid; format_for_llm set_order patient_data)
  = Ok (no_data_text pid).
Proof.
  intros Hk Hu. rewrite (get_patient_data_unknown fs pid Hk Hu). simpl.
  unfold format_for_llm, no_data_text. simpl. now rewrite !append_assoc.
Qed.

Lemma unknown_patient_formats_to_notices_witness :
  (patient_data ← get_patient_data (fun _ => None) 7;
   format_for_llm Samples.order_b patient_data)
  = Ok (no_data_text 7).
Proof.
  apply (unknown_patient_formats_to_notices Samples.order_b (fun _ => None) 7).
  - intros filename df Hf. discriminate.
  - intros filename df r Hf. discriminate.
Defined.

Lemma to_frame_nonempty (col : string) (recs : list record) (df : list row) :
  recs <> [] -> to_frame col recs = Ok df -> sort_values_desc df <> [].
Proof.
  intros Hne Hdf Hnil. apply to_frame_records in Hdf.
  pose proof (Permutation_length (sort_values_desc_perm df)) as Hlen.
  rewrite Hnil in Hlen. destruct df; [|discriminate]. now subst recs.
Qed.

Lemma group_rows_In (k : Timestamp) (r : record) (df : list row) :
  In r (group_rows k df) <-> In (Some k, r) df.
Proof.
  unfold group_rows. rewrite in_map_iff. split.
  - intros ([d r'] & <- & Hin). apply filter_In in Hin as [Hin Hd].
    apply bool_decide_eq_true in Hd. now subst d.
  - intros Hin. exists (Some k, r). split; [reflexivity|].
    apply filter_In. split; [assumption | now apply bool_decide_eq_true].
Qed.

(** X8. In the vitals block a record stands under the heading of a date
    exactly when that date is its visit date: every reading with a date is
    listed under its own date and no other, and a reading whose date is
    missing is listed nowhere.  When all dates are missing the block is
    empty, without the notice of the empty category. *)
Theorem vitals_grouped_by_date (vs : list record) (df : list row) :
  vs <> [] ->
  to_frame "visit_date" vs = Ok df ->
  exists groups,
    vitals_block vs = Ok (concat (List.map (vitals_group vs) groups))
    /\ (forall k r, (exists rs, In (k, rs) groups /\ In r rs) <-> In (Some k, r) df)
    /\ ((forall d r, In (d, r) df -> d = None) -> vitals_block vs = Ok "").
Proof.
  intros Hne Hdf. exists (groupby (sort_values_desc df)).
  assert (vitals_block vs = Ok (concat (List.map (vitals_group vs)
                                           (groupby (sort_values_desc df))))) as Hblock.
  { destruct vs; [contradiction|]. unfold vitals_block. now rewrite Hdf. }
  assert (forall x, In x (sort_values_desc df) <-> In x df) as Hperm.
  { intros x. split; apply Permutation_in;
      [|apply Permutation_sym]; apply sort_values_desc_perm. }
  split; [exact Hblock|]. split.
  - intros k r. unfold groupby. split.
    + intros (rs & Hin & Hr). apply in_map_iff in Hin as (k' & [= <- <-] & _).
      apply Hperm. now apply group_rows_In.
    + intros Hin. exists (group_rows k (sort_values_desc df)). split.
      * apply in_map_iff. exists k. split; [reflexivity|].
        apply group_keys_dates. apply in_map_iff. exists (Some k, r).
        split; [reflexivity | now apply Hperm].
      * apply group_rows_In. now apply Hperm.
  - intros Hnone. rewrite Hblock. unfold groupby.
    destruct (group_keys (sort_values_desc df)) as [|k ks] eqn:Hkeys; [reflexivity|].
    assert (In k (group_keys (sort_values_desc df))) as Hk by (rewrite Hkeys; now left).
    apply group_keys_dates in Hk. apply in_map_iff in Hk as ([d r] & Hd & Hin).
    simpl in Hd. subst d. apply Hperm in Hin. now apply Hnone in Hin.
Qed.

Lemma vitals_grouped_by_date_witness :
  vitals_block Samples.vitals_one_undated
  = Ok (nl ++ "**2026-01-10:**" ++ nl ++ "  - Heart Rate: 80" ++ nl)
  /\ vitals_block [Samples.vital_undated] = Ok "".
Proof.
  split.
  - destruct (vitals_grouped_by_date Samples.vitals_one_undated
                [(None, Samples.vital_undated); (Some (Samples.day 10), Samples.vital_day_10)])
      as (groups & Hblock & _ & _);
      [discriminate | vm_compute; reflexivity |].
    vm_compute; reflexivity.
  - destruct (vitals_grouped_by_date [Samples.vital_undated] [(None, Samples.vital_undated)])
      as (groups & _ & _ & Hnone);
      [discriminate | vm_compute; reflexivity |].
    apply Hnone. intros d r [[= <- <-]|[]]. reflexivity.
Defined.

End FormatterBlocks.

Section WoundsAndOasis.
Import DataLayer PyStr.

Lemma recency_refl (a : row) : recency a a.
Proof.
  unfold recency, not_before. destruct (fst a) as [t|]; [|exact I].
  unfold ts_le. destruct (ts_ltb t t) eqn:E; [|reflexivity].
  exfalso. now apply (ts_lt_irrefl t).
Qed.

(** What [drop_duplicates] keeps of a sorted frame: the first row of each
    key not yet seen. *)
Lemma drop_duplicates_spec {K} `{EqDecision K} (key : row -> K) (R : row -> row -> Prop)
    (df : list row) (seen : list K) :
  (forall x, R x x) ->
  StronglySorted R df ->
  NoDup (List.map key (drop_duplicates key seen df))
  /\ (forall l, In l (drop_duplicates key seen df) -> In l df /\ key l ∉ seen)
  /\ (forall w, In w df -> key w ∉ seen ->
        exists l, In l (drop_duplicates key seen df) /\ key l = key w /\ R l w).
Proof.
  intros Hrefl. revert seen. induction df as [|r df IH]; intros seen Hs; simpl.
  - split; [constructor|]. split; [intros l []|intros w []].
  - inversion Hs as [|? ? Hs' Hall]; subst.
    destruct (decide (key r ∈ seen)) as [Hseen|Hfresh].
    + destruct (IH seen Hs') as (Hnd & Hin & Hcov). split; [assumption|]. split.
      * intros l Hl. destruct (Hin l Hl). split; [now right | assumption].
      * intros w [<-|Hw] Hk; [contradiction | now apply Hcov].
    + destruct (IH (key r :: seen) Hs') as (Hnd & Hin & Hcov). split; [|split].
      * simpl. constructor; [|assumption].
        rewrite list_elem_of_In. intros Hk. apply in_map_iff in Hk as (l & Hkl & Hl).
        destruct (Hin l Hl) as [_ Hnot]. apply Hnot. rewrite Hkl. now left.
      * intros l [<-|Hl]; [split; [now left | assumption]|].
        destruct (Hin l Hl) as [Hdf Hnot]. split; [now right|].
        intros Hs2. apply Hnot. now right.
      * intros w [<-|Hw] Hk.
        -- exists r. split; [now left|]. split; [reflexivity | apply Hrefl].
        -- destruct (decide (key w = key r)) as [Heq|Hne].
           ++ exists r. split; [now left|]. split; [now symmetry|].
              exact (proj1 (List.Forall_forall (R r) df) Hall w Hw).
           ++ destruct (Hcov w Hw) as (l & Hl & Hkl & HR).
              { intros Hs2. inversion Hs2; subst; [congruence | contradiction]. }
              exists l. split; [now right|]. now split.
Qed.

(** X9. The wounds block has one entry for each pair of location and
    description that occurs, and no two for the same pair; the entry is for
    a wound row of that pair that is at least as recent as every other row
    of the pair. *)
Theorem wounds_latest_per_site (ws : list record) (df : list row) :
  ws <> [] ->
  to_frame "visit_date" ws = Ok df ->
  has_column ws "description" = true ->
  has_column ws "location" = true ->
  exists latest,
    wounds_block ws = Ok (concat (List.map (wound_entry ws) latest))
    /\ NoDup (List.map wound_key latest)
    /\ (forall l, In l latest -> In l df)
    /\ (forall w, In w df ->
          exists l, In l latest /\ wound_key l = wound_key w /\ recency l w).
Proof.
  intros Hne Hdf Hd Hl.
  exists (drop_duplicates wound_key [] (sort_values_desc df)).
  destruct (drop_duplicates_spec wound_key recency (sort_values_desc df) []
              recency_refl (sort_values_desc_sorted df)) as (Hnd & Hin & Hcov).
  assert (forall x, In x (sort_values_desc df) <-> In x df) as Hperm.
  { intros x. split; apply Permutation_in;
      [|apply Permutation_sym]; apply sort_values_desc_perm. }
  split.
  { destruct ws; [contradiction|]. unfold wounds_block. rewrite Hdf.
    unfold mbind, res_bind. rewrite Hd, Hl. reflexivity. }
  split; [exact Hnd|]. split.
  - intros l Hlin. apply Hperm. now apply Hin.
  - intros w Hw. apply Hcov; [now apply Hperm | intros Hs; inversion Hs].
Qed.

Lemma wounds_latest_per_site_witness :
  wounds_block Samples.wounds_two_visits
  = Ok ("- Pressure ulcer at Sacrum" ++ nl
          ++ "  Onset: 2025-12-01 | Last Assessment: 2026-01-08 00:00:00" ++ nl).
Proof.
  destruct (wounds_latest_per_site Samples.wounds_two_visits
              [(Some (Samples.day 1), Samples.wound_day_1);
               (Some (Samples.day 8), Samples.wound_day_8)])
    as (latest & Hblock & _); try (vm_compute; reflexivity).
  discriminate.
Defined.

(** X10. The OASIS block is the entry of one assessment, and that
    assessment is at least as recent as every assessment of the bundle; an
    assessment with a missing date counts as the least recent. *)
Theorem oasis_latest_assessment (os : list record) (df : list row) :
  os <> [] ->
  to_frame "assessment_date" os = Ok df ->
  exists latest,
    oasis_block os = Ok (oasis_entry os latest)
    /\ In latest df
    /\ forall o, In o df -> recency latest o.
Proof.
  intros Hne Hdf.
  pose proof (sort_values_desc_sorted df) as Hs.
  pose proof (sort_values_desc_perm df) as Hp.
  destruct (sort_values_desc df) as [|latest rest] eqn:Hsort.
  { exfalso. eapply to_frame_nonempty; eassumption. }
  exists latest. split; [|split].
  - destruct os; [contradiction|]. unfold oasis_block. rewrite Hdf. simpl.
    now rewrite Hsort.
  - eapply Permutation_in; [exact Hp | now left].
  - intros o Ho. apply (Permutation_in _ (Permutation_sym Hp)) in Ho as [<-|Ho].
    + apply recency_refl.
    + inversion Hs as [|? ? _ Hall]; subst. revert o Ho. now apply List.Forall_forall.
Qed.

Lemma oasis_latest_assessment_witness :
  oasis_block Samples.oasis_two = Ok (oasis_entry Samples.oasis_two
                                        (Some (Samples.day 15), Samples.oasis_day_15)).
Proof.
  destruct (oasis_latest_assessment Samples.oasis_two
              [(Some (Samples.day 1), Samples.oasis_day_1);
               (Some (Samples.day 15), Samples.oasis_day_15)])
    as (latest & Hblock & _); try (vm_compute; reflexivity).
  discriminate.
Defined.

End WoundsAndOasis.

Section FormatterErrors.
Import DataLayer PyStr.

Lemma has_column_false (recs : list record) (col : string) :
  (forall r, In r recs -> r !! col = None) -> has_column recs col = false.
Proof.
  intros Hnone. unfold has_column. induction recs as [|r recs IH]; [reflexivity|].
  simpl. rewrite (Hnone r) by (now left). rewrite bool_decide_eq_false_2.
  - apply IH. intros r' Hr'. apply Hnone. now right.
  - intros [x Hx]. discriminate.
Qed.

(** X11. When the vitals table has no [visit_date] column, formatting the
    bundle of any patient who has a row in it raises
    [KeyError('visit_date')], whatever the other categories hold. *)
Theorem vitals_table_without_dates_raises (set_order : list value -> list value)
    (fs : string -> option DataFrame) (pid : Z) (b : bundle) :
  get_patient_data fs pid = Ok b ->
  vitals b <> [] ->
  "visit_date" ∉ columns (table fs "vitals.csv") ->
  format_for_llm set_order b = Raise (KeyError "visit_date").
Proof.
  intros Hb Hne Hcol.
  assert (has_column (vitals b) "visit_date" = false) as Hno.
  { apply has_column_false. intros r Hr.
    destruct (bundle_record_row fs pid b "vitals" "vitals.csv" r Hb) as (row & _ & _ & Hk & _);
      [simpl; tauto | exact Hr |].
    rewrite Hk. now rewrite bool_decide_eq_false_2. }
  unfold format_for_llm.
  assert (vitals_block (vitals b) = Raise (KeyError "visit_date")) as ->; [|reflexivity].
  destruct (vitals b); [contradiction|]. unfold vitals_block, to_frame. now rewrite Hno.
Qed.

Lemma vitals_table_without_dates_raises_witness :
  format_for_llm Samples.order_a Samples.bundle_undated_table
  = Raise (KeyError "visit_date").
Proof.
  apply (vitals_table_without_dates_raises Samples.order_a Samples.data_dir_no_dates 1001).
  - vm_compute; reflexivity.
  - discriminate.
  - vm_compute. intros H; repeat (inversion H as [|? ? ? H']; clear H; rename H' into H).
Defined.

Lemma traverse_all_ok {A B} (f : A -> res B) (l : list A) :
  Forall (fun x => exists y, f x = Ok y) l -> exists ys, traverse f l = Ok ys.
Proof.
  induction 1 as [|x l [y Hy] _ [ys Hys]]; simpl; [now exists []|].
  rewrite Hy; simpl. rewrite Hys; simpl. now exists (y :: ys).
Qed.

Lemma traverse_some_raise {A B} (f : A -> res B) (l : list A) (P : exn -> Prop) :
  (forall x e, In x l -> f x = Raise e -> P e) ->
  Exists (fun x => exists e, f x = Raise e) l ->
  exists e, traverse f l = Raise e /\ P e.
Proof.
  intros HP. induction 1 as [x l [e He]|x l Hex IH]; simpl.
  - rewrite He; simpl. exists e. split; [reflexivity|]. apply (HP x e); [now left | exact He].
  - destruct (f x) as [y|e] eqn:Hx; simpl.
    + destruct IH as [e [He Pe]];
        [intros x' e' Hin Hf; apply (HP x' e'); [now right | exact Hf]|].
      rewrite He; simpl. now exists e.
    + exists e. split; [reflexivity|]. apply (HP x e); [now left | exact Hx].
Qed.

Lemma note_entry_cases (ns : list record) (n : row) :
  (exists text, note_text ns (snd n) = VStr text /\ exists out, note_entry ns n = Ok out)
  \/ ((forall text, note_text ns (snd n) <> VStr text)
      /\ exists msg, note_entry ns n = Raise (TypeError msg)).
Proof.
  unfold note_entry. destruct (note_text ns (snd n)) as [text| |].
  - left. eauto.
  - right. split; [discriminate | eauto].
  - right. split; [discriminate | eauto].
Qed.

Lemma to_frame_raises (col : string) (recs : list record) :
  has_column recs col = true ->
  Exists (fun r => exists e, to_datetime (cell r col) = Raise e) recs ->
  exists r e,
    In r recs /\ to_datetime (cell r col) = Raise e /\ to_frame col recs = Raise e.
Proof.
  intros Hcol Hex. unfold to_frame. rewrite Hcol.
  destruct (traverse_some_raise
              (fun r => d ← to_datetime (cell r col); Ok (d, r)) recs
              (fun e => exists r, In r recs /\ to_datetime (cell r col) = Raise e))
    as (e & He & r & Hr & Hd).
  - intros r e Hr Hf. exists r. split; [exact Hr|].
    destruct (to_datetime (cell r col)); simpl in Hf; [discriminate|].
    now injection Hf as ->.
  - eapply List.Exists_impl; [|exact Hex]. intros r [e He]. exists e. now rewrite He.
  - now exists r, e.
Qed.

(** X12. The notes block converts the date of every note before it
    selects the three most recent.  Without a [note_date] column it
    raises [KeyError('note_date')]; a note whose date does not convert
    makes it raise, be the note recent or old.  Once every date is
    converted, what the block does depends on the three most recent notes
    only: when each of them has a string as text the block is formatted,
    whatever the texts of the older notes, and when one of them has a text
    that is not a string (a missing cell, a number) the block raises a
    [TypeError]. *)
Theorem notes_block_needs_recent_texts (ns : list record) :
  ns <> [] ->
  (has_column ns "note_date" = false -> notes_block ns = Raise (KeyError "note_date"))
  /\ (has_column ns "note_date" = true ->
      Exists (fun r => exists e, to_datetime (cell r "note_date") = Raise e) ns ->
      exists r e,
        In r ns /\ to_datetime (cell r "note_date") = Raise e /\ notes_block ns = Raise e)
  /\ (forall notes_df,
        to_frame "note_date" ns = Ok notes_df ->
        (Forall (fun n => exists text, note_text ns (snd n) = VStr text)
                (head3 (sort_values_desc notes_df)) ->
         exists out, notes_block ns = Ok out)
        /\ (Exists (fun n => forall text, note_text ns (snd n) <> VStr text)
                   (head3 (sort_values_desc notes_df)) ->
            exists msg, notes_block ns = Raise (TypeError msg))).
Proof.
  intros Hne.
  assert (notes_block ns
          = (recent ← recent_notes ns;
             entries ← traverse (note_entry ns) recent; Ok (concat entries))) as Hblock.
  { destruct ns; [contradiction | reflexivity]. }
  rewrite Hblock. unfold recent_notes. split; [|split].
  - intros Hcol. unfold to_frame. now rewrite Hcol.
  - intros Hcol Hex. destruct (to_frame_raises "note_date" ns Hcol Hex) as (r & e & Hr & Hd & Hf).
    exists r, e. rewrite Hf. now repeat split.
  - intros notes_df Hdf. rewrite Hdf. simpl.
    set (recent := head3 (sort_values_desc notes_df)). split.
    + intros Hall. destruct (traverse_all_ok (note_entry ns) recent) as [ys Hys].
      * eapply List.Forall_impl; [|exact Hall]. intros n [text Ht].
        destruct (note_entry_cases ns n) as [(_ & _ & Hok)|[Hbad _]]; [exact Hok|].
        now destruct (Hbad text).
      * rewrite Hys. simpl. eauto.
    + intros Hex.
      destruct (traverse_some_raise (note_entry ns) recent
                  (fun e => exists msg, e = TypeError msg)) as (e & He & msg & ->).
      * intros n e _ Hn.
        destruct (note_entry_cases ns n) as [(_ & _ & out & Hok)|(_ & msg & Hr)].
        -- rewrite Hok in Hn. discriminate.
        -- rewrite Hr in Hn. injection Hn as <-. eauto.
      * eapply List.Exists_impl; [|exact Hex]. intros n Hbad.
        destruct (note_entry_cases ns n) as [(text & Ht & _)|(_ & msg & Hr)]; [|eauto].
        now destruct (Hbad text).
      * rewrite He. simpl. eauto.
Qed.

Lemma notes_block_needs_recent_texts_witness :
  (exists out, notes_block Samples.notes_old_without_text = Ok out)
  /\ (exists msg, notes_block [Samples.note_without_text] = Raise (TypeError msg))
  /\ (exists r e,
        In r Samples.notes_old_misdated
        /\ to_datetime (cell r "note_date") = Raise e
        /\ notes_block Samples.notes_old_misdated = Raise e)
  /\ notes_block [Samples.note_undated_table] = Raise (KeyError "note_date").
Proof.
  split; [|split; [|split]].
  - destruct (notes_block_needs_recent_texts Samples.notes_old_without_text)
      as (_ & _ & Htexts); [discriminate|].
    apply (proj1 (Htexts ((Some Samples.december_20, Samples.note_without_text)
                            :: List.tl Samples.four_notes_frame)
                         ltac:(vm_compute; reflexivity))).
    repeat constructor; eexists; vm_compute; reflexivity.
  - destruct (notes_block_needs_recent_texts [Samples.note_without_text])
      as (_ & _ & Htexts); [discriminate|].
    apply (proj2 (Htexts [(Some Samples.december_20, Samples.note_without_text)]
                         ltac:(vm_compute; reflexivity))).
    constructor. intros text. vm_compute. discriminate.
  - destruct (notes_block_needs_recent_texts Samples.notes_old_misdated)
      as (_ & Hdates & _); [discriminate|].
    apply Hdates; [reflexivity|].
    apply Exists_cons_hd. eexists. vm_compute. reflexivity.
  - destruct (notes_block_needs_recent_texts [Samples.note_undated_table])
      as (Hcol & _); [discriminate|].
    apply Hcol. reflexivity.
Defined.

Lemma to_frame_ok (col : string) (recs : list record) :
  recs <> [] -> dates_ok col recs -> exists df, to_frame col recs = Ok df.
Proof.
  intros Hne [->|[Hcol Hall]]; [contradiction|].
  unfold to_frame. rewrite Hcol. apply traverse_all_ok.
  eapply List.Forall_impl; [|exact Hall]. intros r [d Hd]. rewrite Hd. simpl. eauto.
Qed.

(** X13. [format_for_llm] returns a text, and raises nothing, for every
    bundle in which each of vitals, wounds, assessments and notes is empty
    or has its date column with cells that are missing or dates
    [to_datetime] reads, the wounds have their location and description
    columns, and every note has a string as text. *)
Theorem format_for_llm_succeeds (set_order : list value -> list value) (b : bundle) :
  dates_ok "visit_date" (vitals b) ->
  dates_ok "visit_date" (wounds b) ->
  (wounds b = []
   \/ (has_column (wounds b) "description" = true
       /\ has_column (wounds b) "location" = true)) ->
  dates_ok "assessment_date" (oasis b) ->
  dates_ok "note_date" (notes b) ->
  Forall (fun r => exists text, note_text (notes b) r = VStr text) (notes b) ->
  exists output, format_for_llm set_order b = Ok output.
Proof.
  intros Hv Hw Hwc Ho Hn Ht. unfold format_for_llm.
  assert (exists v, vitals_block (vitals b) = Ok v) as [v ->].
  { destruct (vitals b) as [|r vs] eqn:E; [simpl; eauto|].
    destruct (to_frame_ok "visit_date" (r :: vs)) as [df Hdf]; [discriminate | assumption |].
    unfold vitals_block. rewrite Hdf. simpl. eauto. }
  assert (exists w, wounds_block (wounds b) = Ok w) as [w ->].
  { destruct (wounds b) as [|r ws] eqn:E; [simpl; eauto|].
    destruct (to_frame_ok "visit_date" (r :: ws)) as [df Hdf]; [discriminate | assumption |].
    destruct Hwc as [|[Hd Hl]]; [discriminate|].
    unfold wounds_block. rewrite Hdf. unfold mbind, res_bind. rewrite Hd, Hl. simpl. eauto. }
  assert (exists o, oasis_block (oasis b) = Ok o) as [o ->].
  { destruct (oasis b) as [|r os] eqn:E; [simpl; eauto|].
    destruct (to_frame_ok "assessment_date" (r :: os)) as [df Hdf];
      [discriminate | assumption |].
    unfold oasis_block. rewrite Hdf. unfold mbind, res_bind.
    destruct (sort_values_desc df) eqn:Hsort; [|eauto].
    exfalso. apply (to_frame_nonempty "assessment_date" (r :: os) df);
      [discriminate | exact Hdf | exact Hsort]. }
  assert (exists n, notes_block (notes b) = Ok n) as [n ->]; [|simpl; eauto].
  destruct (notes b) as [|r ns] eqn:E; [simpl; eauto|].
  destruct (to_frame_ok "note_date" (r :: ns)) as [df Hdf]; [discriminate | assumption |].
  apply (proj1 (List.Forall_forall _ _)) with (x := r) in Ht as Htr; [|now left].
  unfold notes_block, recent_notes. rewrite Hdf. unfold mbind at 2, res_bind at 2.
  destruct (traverse_all_ok (note_entry (r :: ns)) (head3 (sort_values_desc df))) as [ys Hys].
  - apply List.Forall_forall. intros x Hx.
    assert (In (snd x) (r :: ns)) as Hin.
    { rewrite <- (to_frame_records _ _ _ Hdf). apply in_map.
      eapply Permutation_in; [apply sort_values_desc_perm|].
      unfold head3 in Hx. rewrite <- (firstn_skipn 3 (sort_values_desc df)).
      apply in_or_app. now left. }
    destruct (proj1 (List.Forall_forall _ _) Ht (snd x) Hin) as [text Htext].
    unfold note_entry. rewrite Htext. eauto.
  - unfold mbind, res_bind. rewrite Hys. eauto.
Qed.

Lemma format_for_llm_succeeds_witness :
  exists output, format_for_llm Samples.order_a Samples.bundle_two_visits = Ok output.
Proof.
  apply (format_for_llm_succeeds Samples.order_a Samples.bundle_two_visits).
  - right. split; [reflexivity|]. repeat constructor; eexists; vm_compute; reflexivity.
  - now left.
  - now left.
  - now left.
  - now left.
  - constructor.
Defined.

End FormatterErrors.

(** * Further properties of the providers and the orchestrator *)

Section CodeFence.
Import LlmService PyStr.

Lemma prefix_cons (c x : ascii) (p s : string) :
  String.prefix (String c p) (String x s)
  = if Ascii.ascii_dec c x then String.prefix p s else false.
Proof. reflexivity. Qed.

Lemma prefix_app (p s : string) : String.prefix p (p ++ s) = true.
Proof.
  induction p as [|c p IH]; [destruct s; reflexivity|].
  rewrite append_cons, prefix_cons.
  destruct (Ascii.ascii_dec c c); [exact IH | contradiction].
Qed.

Lemma prefix_shorter (a b s : string) :
  String.prefix (a ++ b) s = true -> String.prefix a s = true.
Proof.
  revert s. induction a as [|c a IH]; intros s; [destruct s; reflexivity|].
  rewrite append_cons. destruct s as [|x s]; [discriminate|].
  rewrite !prefix_cons. destruct (Ascii.ascii_dec c x); [apply IH | discriminate].
Qed.

Lemma replace_go_skip (old new a rest : string) :
  replace_go old new (String.length a) (a ++ rest) = replace_go old new O rest.
Proof.
  induction a as [|c a IH]; [destruct rest; reflexivity|].
  rewrite append_cons. simpl. exact IH.
Qed.

Lemma replace_go_head (c : ascii) (old new rest : string) :
  replace_go (String c old) new O (String c old ++ rest)
  = new ++ replace_go (String c old) new O rest.
Proof.
  rewrite append_cons.
  change (replace_go (String c old) new O (String c (old ++ rest)))
    with (if String.prefix (String c old) (String c (old ++ rest))
          then new ++ replace_go (String c old) new (String.length old) (old ++ rest)
          else String c (replace_go (String c old) new O (old ++ rest))).
  rewrite <- append_cons, prefix_app. now rewrite replace_go_skip.
Qed.

Lemma replace_go_lacks (c : ascii) (old new s rest : string) :
  lacks c s = true ->
  replace_go (String c old) new O (s ++ rest) = s ++ replace_go (String c old) new O rest.
Proof.
  induction s as [|x s IH]; intros Hl; [reflexivity|].
  simpl in Hl. apply andb_true_iff in Hl as [Hx Hs].
  rewrite !append_cons. simpl.
  destruct (Ascii.ascii_dec c x) as [->|_].
  - rewrite Ascii.eqb_refl in Hx. discriminate.
  - now rewrite IH.
Qed.

Lemma lacks_app (c : ascii) (a b : string) :
  lacks c (a ++ b) = lacks c a && lacks c b.
Proof.
  induction a as [|x a IH]; [reflexivity|].
  rewrite append_cons. simpl. rewrite IH. now rewrite andb_assoc.
Qed.

Lemma rstrip_nl (s : string) : rstrip (s ++ nl) = rstrip s.
Proof.
  induction s as [|c s IH]; [reflexivity|].
  rewrite append_cons. simpl. now rewrite IH.
Qed.

Lemma length_lstrip (s : string) : (String.length (lstrip s) <= String.length s)%nat.
Proof.
  induction s as [|c s IH]; simpl; [lia|]. destruct (is_space c); simpl; lia.
Qed.

Lemma strip_between_newlines (body : string) :
  lstrip body = body -> rstrip body = body -> strip (nl ++ body ++ nl) = body.
Proof.
  intros Hl Hr. unfold strip.
  change (lstrip (nl ++ body ++ nl)) with (lstrip (body ++ nl)).
  destruct body as [|c s]; [reflexivity|].
  assert (is_space c = false) as Hc.
  { destruct (is_space c) eqn:E; [|reflexivity].
    simpl in Hl. rewrite E in Hl. pose proof (length_lstrip s) as Hlen.
    rewrite Hl in Hlen. simpl in Hlen. lia. }
  rewrite append_cons. simpl lstrip. rewrite Hc.
  rewrite <- append_cons, rstrip_nl. exact Hr.
Qed.

Lemma fenced_body (body : string) :
  lacks "`" body = true ->
  replace (nl ++ body ++ nl ++ "```") "```" "" = nl ++ body ++ nl.
Proof.
  intros Hb. unfold replace.
  replace (nl ++ body ++ nl ++ "```") with ((nl ++ body ++ nl) ++ "```")
    by (now rewrite !append_assoc).
  rewrite replace_go_lacks.
  - change (replace_go "```" "" O "```") with "". now rewrite append_nil_r.
  - rewrite !lacks_app, Hb. reflexivity.
Qed.

(** X14. [clean_response] leaves a text that does not start with a fence
    as it is, and unwraps a fenced answer: for a body without backquote
    and without blank at either end, the body comes back from
    [```json], newline, body, newline, [```], and from the same with the
    bare opening fence. *)
Theorem clean_response_unwraps_fence :
  (forall text, startswith text "```" = false -> clean_response text = text)
  /\ (forall body,
        lacks "`" body = true -> lstrip body = body -> rstrip body = body ->
        clean_response ("```json" ++ nl ++ body ++ nl ++ "```") = body
        /\ clean_response ("```" ++ nl ++ body ++ nl ++ "```") = body).
Proof.
  split.
  - intros text Hno. unfold clean_response. rewrite Hno.
    destruct (startswith text "```json") eqn:Hj; [|reflexivity].
    unfold startswith in *. apply (prefix_shorter "```" "json") in Hj. congruence.
  - intros body Hb Hl Hr.
    pose proof (fenced_body body Hb) as Hinner.
    split; unfold clean_response, startswith.
    + rewrite prefix_app. unfold replace at 2. rewrite replace_go_head.
      rewrite append_nil_l.
      replace (nl ++ body ++ nl ++ "```") with ((nl ++ body ++ nl) ++ "```")
        by (now rewrite !append_assoc).
      rewrite replace_go_lacks by (rewrite !lacks_app, Hb; reflexivity).
      change (replace_go "```json" "" O "```") with "```".
      rewrite !append_assoc, Hinner. now apply strip_between_newlines.
    + replace (String.prefix "```json" ("```" ++ nl ++ body ++ nl ++ "```")) with false
        by reflexivity.
      rewrite prefix_app. unfold replace. rewrite replace_go_head, append_nil_l.
      fold (replace (nl ++ body ++ nl ++ "```") "```" ""). rewrite Hinner.
      now apply strip_between_newlines.
Qed.

Lemma clean_response_unwraps_fence_witness :
  clean_response "{}" = "{}"
  /\ clean_response ("```json" ++ nl ++ "{}" ++ nl ++ "```") = "{}".
Proof.
  destruct clean_response_unwraps_fence as [Hplain Hfenced]. split.
  - apply Hplain. reflexivity.
  - apply (Hfenced "{}"); reflexivity.
Defined.

End CodeFence.

Section OrchestratorCases.
Import LlmService PyStr.

(** [generate_summary] case by case. *)
Lemma dict_get_set_same (d : list (string * json)) (key : string) (v : json) :
  dict_get (dict_set d key v) key = Some v.
Proof.
  induction d as [|[k x] d IH]; simpl.
  - now rewrite String.eqb_refl.
  - destruct (String.eqb k key) eqn:E; simpl; rewrite E; [reflexivity | exact IH].
Qed.

Lemma dict_get_set_other (d : list (string * json)) (key other : string) (v : json) :
  other <> key -> dict_get (dict_set d key v) other = dict_get d other.
Proof.
  intros Hne. induction d as [|[k x] d IH]; simpl.
  - apply String.eqb_neq in Hne. rewrite String.eqb_sym. now rewrite Hne.
  - destruct (String.eqb k key) eqn:E; simpl.
    + apply String.eqb_eq in E. subst k.
      assert (String.eqb key other = false) as ->; [|reflexivity].
      apply String.eqb_neq. congruence.
    + destruct (String.eqb k other); [reflexivity | exact IH].
Qed.

Lemma set_item_object (j j' : json) (key : string) (v : json) :
  set_item j key v = inr j' -> exists d, j = JObj d /\ j' = JObj (dict_set d key v).
Proof. destruct j; simpl; intros H; try discriminate. injection H as <-. eauto. Qed.

Lemma gemini_returns (cfg : Config) (sv : Services) (ctx : string) (j : json) :
  gemini_body cfg sv ctx = Returned j ->
  exists text d,
    generate_content sv (system_prompt sv ++ nl ++ nl ++ _build_user_prompt ctx) = inr text
    /\ json_loads sv (clean_response text) = inr (JObj d)
    /\ j = JObj (dict_set d "provider_used" (JStr "gemini")).
Proof.
  unfold gemini_body.
  destruct (negb (GEMINI_AVAILABLE cfg)); [discriminate|].
  destruct (key_unconfigured _ _); [discriminate|].
  destruct (generate_content sv _) as [e|text]; [discriminate|].
  destruct (json_loads sv (clean_response text)) as [e|parsed] eqn:Hp; [discriminate|].
  destruct (set_item parsed _ _) as [e|stamped] eqn:Hs; [discriminate|].
  intros [= <-]. apply set_item_object in Hs as (d & -> & ->). eauto.
Qed.

Lemma openai_returns (cfg : Config) (sv : Services) (ctx : string) (j : json) :
  openai_body cfg sv ctx = Returned j ->
  exists text d,
    chat_completions_create sv (system_prompt sv) (_build_user_prompt ctx) = inr text
    /\ json_loads sv text = inr (JObj d)
    /\ j = JObj (dict_set d "provider_used" (JStr "openai")).
Proof.
  unfold openai_body.
  destruct (negb (OPENAI_AVAILABLE cfg)); [discriminate|].
  destruct (key_unconfigured _ _); [discriminate|].
  destruct (chat_completions_create sv _ _) as [e|text]; [discriminate|].
  destruct (json_loads sv text) as [e|parsed] eqn:Hp; [discriminate|].
  destruct (set_item parsed _ _) as [e|stamped] eqn:Hs; [discriminate|].
  intros [= <-]. apply set_item_object in Hs as (d & -> & ->). eauto.
Qed.

(** X15. A provider function returns only when the remote call answered
    and the answer parsed to a JSON object (for Gemini after the fence was
    removed, for OpenAI as received); what it returns is that object with
    [provider_used] set to the provider's name, overwriting a value the
    model may have written, and every other key as parsed. *)
Theorem provider_success_is_stamped_object (cfg : Config) (sv : Services) (ctx : string)
    (j : json) :
  (gemini_body cfg sv ctx = Returned j ->
   exists text d,
     generate_content sv (system_prompt sv ++ nl ++ nl ++ _build_user_prompt ctx) = inr text
     /\ json_loads sv (clean_response text) = inr (JObj d)
     /\ j = JObj (dict_set d "provider_used" (JStr "gemini"))
     /\ dict_get (dict_set d "provider_used" (JStr "gemini")) "provider_used"
        = Some (JStr "gemini")
     /\ forall key, key <> "provider_used" ->
          dict_get (dict_set d "provider_used" (JStr "gemini")) key = dict_get d key)
  /\ (openai_body cfg sv ctx = Returned j ->
      exists text d,
        chat_completions_create sv (system_prompt sv) (_build_user_prompt ctx) = inr text
        /\ json_loads sv text = inr (JObj d)
        /\ j = JObj (dict_set d "provider_used" (JStr "openai"))
        /\ dict_get (dict_set d "provider_used" (JStr "openai")) "provider_used"
           = Some (JStr "openai")
        /\ forall key, key <> "provider_used" ->
             dict_get (dict_set d "provider_used" (JStr "openai")) key = dict_get d key).
Proof.
  split; intros Hret.
  - destruct (gemini_returns cfg sv ctx j Hret) as (text & d & Ht & Hd & ->).
    exists text, d. repeat split; try assumption.
    + apply dict_get_set_same.
    + intros key Hne. now apply dict_get_set_other.
  - destruct (openai_returns cfg sv ctx j Hret) as (text & d & Ht & Hd & ->).
    exists text, d. repeat split; try assumption.
    + apply dict_get_set_same.
    + intros key Hne. now apply dict_get_set_other.
Qed.

Lemma provider_success_is_stamped_object_witness :
  exists text d,
    generate_content Samples.sv_relabelled
      (system_prompt Samples.sv_relabelled ++ nl ++ nl ++ _build_user_prompt "ctx") = inr text
    /\ json_loads Samples.sv_relabelled (clean_response text) = inr (JObj d)
    /\ JObj [("summary", JStr "Stable."); ("provider_used", JStr "gemini")]
       = JObj (dict_set d "provider_used" (JStr "gemini"))
    /\ dict_get (dict_set d "provider_used" (JStr "gemini")) "provider_used"
       = Some (JStr "gemini")
    /\ forall key, key <> "provider_used" ->
         dict_get (dict_set d "provider_used" (JStr "gemini")) key = dict_get d key.
Proof.
  apply (proj1 (provider_success_is_stamped_object Samples.cfg_plain Samples.sv_relabelled
                  "ctx" (JObj [("summary", JStr "Stable."); ("provider_used", JStr "gemini")]))).
  vm_compute; reflexivity.
Defined.

Lemma stamp_of_returned (cfg : Config) (sv : Services) (ctx : string)
    (j : json) (name : string) :
  result (generate_summary cfg sv ctx) = Returned (j, name) ->
  (exists d, j = JObj d /\ dict_get d "provider_used" = Some (JStr name))
  /\ ((name = "gemini" /\ last (calls (generate_summary cfg sv ctx)) = Some Gemini)
      \/ (name = "openai" /\ last (calls (generate_summary cfg sv ctx)) = Some OpenAI)).
Proof.
  assert (forall s, gemini_body cfg sv ctx = Returned s ->
            exists d, s = JObj d /\ dict_get d "provider_used" = Some (JStr "gemini")) as Hgs.
  { intros s Hs. destruct (gemini_returns cfg sv ctx s Hs) as (_ & d & _ & _ & ->).
    eexists. split; [reflexivity | apply dict_get_set_same]. }
  assert (forall s, openai_body cfg sv ctx = Returned s ->
            exists d, s = JObj d /\ dict_get d "provider_used" = Some (JStr "openai")) as Hos.
  { intros s Hs. destruct (openai_returns cfg sv ctx s Hs) as (_ & d & _ & _ & ->).
    eexists. split; [reflexivity | apply dict_get_set_same]. }
  rewrite generate_summary_cases.
  destruct (String.eqb (FORCE_PROVIDER cfg) "openai").
  { destruct (openai_body cfg sv ctx) as [s|e] eqn:Ho; simpl; [|discriminate].
    intros [= <- <-]. split; [now apply Hos | right; now split]. }
  destruct (String.eqb (FORCE_PROVIDER cfg) "gemini").
  { destruct (gemini_body cfg sv ctx) as [s|e] eqn:Hg; simpl; [|discriminate].
    intros [= <- <-]. split; [now apply Hgs | left; now split]. }
  destruct (gemini_body cfg sv ctx) as [s|ge] eqn:Hg; simpl.
  { intros [= <- <-]. split; [now apply Hgs | left; now split]. }
  destruct (USE_FALLBACK cfg); simpl; [|discriminate].
  destruct (openai_body cfg sv ctx) as [s|oe] eqn:Ho; simpl; [|discriminate].
  intros [= <- <-]. split; [now apply Hos | right; now split].
Qed.

(** X16. Whenever [generate_summary] returns, the name it returns is
    ["gemini"] or ["openai"], the summary is a JSON object whose
    [provider_used] is that same name, and the provider of that name is
    the last one that was called. *)
Theorem returned_name_matches_stamp (cfg : Config) (sv : Services) (ctx : string)
    (j : json) (name : string) :
  result (generate_summary cfg sv ctx) = Returned (j, name) ->
  (exists d, j = JObj d /\ dict_get d "provider_used" = Some (JStr name))
  /\ ((name = "gemini" /\ last (calls (generate_summary cfg sv ctx)) = Some Gemini)
      \/ (name = "openai" /\ last (calls (generate_summary cfg sv ctx)) = Some OpenAI)).
Proof. apply stamp_of_returned. Qed.

Lemma returned_name_matches_stamp_witness :
  (exists d, JObj [("provider_used", JStr "openai")] = JObj d
             /\ dict_get d "provider_used" = Some (JStr "openai"))
  /\ (("openai" = "gemini"
       /\ last (calls (generate_summary Samples.cfg_plain Samples.sv_gemini_down "ctx"))
          = Some Gemini)
      \/ ("openai" = "openai"
          /\ last (calls (generate_summary Samples.cfg_plain Samples.sv_gemini_down "ctx"))
             = Some OpenAI)).
Proof.
  apply (returned_name_matches_stamp Samples.cfg_plain Samples.sv_gemini_down "ctx").
  vm_compute; reflexivity.
Defined.

Lemma generate_summary_call_lengths (cfg : Config) (sv : Services) (ctx : string) :
  (1 <= List.length (calls (generate_summary cfg sv ctx)) <= 2)%nat.
Proof.
  rewrite generate_summary_cases.
  destruct (String.eqb (FORCE_PROVIDER cfg) "openai"); simpl; [lia|].
  destruct (String.eqb (FORCE_PROVIDER cfg) "gemini"); simpl; [lia|].
  destruct (gemini_body cfg sv ctx); simpl; [lia|].
  destruct (USE_FALLBACK cfg); simpl; [|lia].
  destruct (openai_body cfg sv ctx); simpl; lia.
Qed.

Lemma nodup_one (p : provider) : NoDup [p].
Proof. apply NoDup_singleton. Qed.

Lemma nodup_gemini_openai : NoDup [Gemini; OpenAI].
Proof.
  apply NoDup_cons. split; [|apply NoDup_singleton].
  intros H. apply list_elem_of_singleton in H. discriminate.
Qed.

(** X17. The calls [generate_summary] makes: the forced provider alone
    under an override; otherwise Gemini, followed by OpenAI only when
    Gemini raised and fallback is enabled.  So a provider that returned is
    never followed by another call, no provider is called twice, and at
    most two calls are made. *)
Theorem generate_summary_call_log (cfg : Config) (sv : Services) (ctx : string) :
  calls (generate_summary cfg sv ctx) =
    (if String.eqb (FORCE_PROVIDER cfg) "openai" then [OpenAI]
     else if String.eqb (FORCE_PROVIDER cfg) "gemini" then [Gemini]
     else match gemini_body cfg sv ctx with
          | Returned _ => [Gemini]
          | Raised _ => if USE_FALLBACK cfg then [Gemini; OpenAI] else [Gemini]
          end)
  /\ NoDup (calls (generate_summary cfg sv ctx))
  /\ (1 <= List.length (calls (generate_summary cfg sv ctx)) <= 2)%nat.
Proof.
  rewrite generate_summary_cases.
  destruct (String.eqb (FORCE_PROVIDER cfg) "openai"); simpl.
  { repeat split; [auto using nodup_one, nodup_gemini_openai | lia | lia]. }
  destruct (String.eqb (FORCE_PROVIDER cfg) "gemini"); simpl.
  { repeat split; [auto using nodup_one, nodup_gemini_openai | lia | lia]. }
  destruct (gemini_body cfg sv ctx); simpl.
  { repeat split; [auto using nodup_one, nodup_gemini_openai | lia | lia]. }
  destruct (USE_FALLBACK cfg); simpl.
  - destruct (openai_body cfg sv ctx); simpl;
      (repeat split; [auto using nodup_one, nodup_gemini_openai | lia | lia]).
  - repeat split; [auto using nodup_one, nodup_gemini_openai | lia | lia].
Qed.

(** X18. With fallback enabled, the client libraries present and no
    override, a configuration whose two API keys are unset, empty or still
    the placeholders makes [generate_summary] raise the message naming both
    keys; the result is the same whatever the remote services would
    answer. *)
Theorem unconfigured_keys_fail_before_any_request (cfg : Config) (sv : Services)
    (ctx : string) :
  FORCE_PROVIDER cfg <> "openai" ->
  FORCE_PROVIDER cfg <> "gemini" ->
  USE_FALLBACK cfg = true ->
  GEMINI_AVAILABLE cfg = true ->
  OPENAI_AVAILABLE cfg = true ->
  key_unconfigured (getenv cfg "GEMINI_API_KEY") "your-" = true ->
  key_unconfigured (getenv cfg "OPENAI_API_KEY") "sk-your" = true ->
  generate_summary cfg sv ctx
  = MkRun [Gemini; OpenAI]
          (Raised (failure_message "GEMINI_API_KEY not configured in .env file"
                                   "OPENAI_API_KEY not configured in .env file")).
Proof.
  intros Hno Hng Hf Hga Hoa Hgk Hok.
  apply fallback_failure; try assumption.
  - unfold gemini_body. now rewrite Hga, Hgk.
  - unfold openai_body. now rewrite Hoa, Hok.
Qed.

Lemma unconfigured_keys_fail_before_any_request_witness :
  generate_summary Samples.cfg_placeholders Samples.sv_empty_object "ctx"
  = MkRun [Gemini; OpenAI]
          (Raised (failure_message "GEMINI_API_KEY not configured in .env file"
                                   "OPENAI_API_KEY not configured in .env file")).
Proof.
  apply (unconfigured_keys_fail_before_any_request Samples.cfg_placeholders
           Samples.sv_empty_object "ctx"); try reflexivity; vm_compute; discriminate.
Defined.

(** X19. Fallback is enabled only by [USE_FALLBACK] unset or equal to
    [true] in some casing: under any other value ([1], [yes], ...) and no
    override, a failure of Gemini ends the run after that single call, with
    a message that gives Gemini's reason and says that fallback is
    disabled. *)
Theorem other_values_disable_fallback (cfg : Config) (sv : Services) (ctx v ge : string) :
  getenv cfg "USE_FALLBACK" = Some v ->
  lower v <> "true" ->
  FORCE_PROVIDER cfg <> "openai" ->
  FORCE_PROVIDER cfg <> "gemini" ->
  result (_call_gemini cfg sv ctx) = Raised ge ->
  generate_summary cfg sv ctx
  = MkRun [Gemini] (Raised (failure_message ge "Fallback disabled")).
Proof.
  intros Hv Hlow Hno Hng Hg. apply no_fallback_failure; try assumption.
  unfold USE_FALLBACK, getenv_default. rewrite Hv. simpl. now apply String.eqb_neq.
Qed.

Lemma other_values_disable_fallback_witness :
  generate_summary Samples.cfg_fallback_yes Samples.sv_gemini_down "ctx"
  = MkRun [Gemini]
          (Raised (failure_message "Gemini API error: 503 Service Unavailable"
                                   "Fallback disabled")).
Proof.
  apply (other_values_disable_fallback Samples.cfg_fallback_yes Samples.sv_gemini_down
           "ctx" "yes"); try reflexivity; vm_compute; discriminate.
Defined.

End OrchestratorCases.

(** * Properties of the endpoints of main.py *)

Section EndpointFacts.
Import DataLayer LlmService Api PyStr.

Lemma isin_unfold (needle s : string) :
  isin needle s
  = String.prefix needle s
    || match s with
       | EmptyString => false
       | String _ s' => isin needle s'
       end.
Proof. destruct s; reflexivity. Qed.

Lemma isin_contains (needle s : string) : contains s needle -> isin needle s = true.
Proof.
  intros (pre & post & ->). induction pre as [|c pre IH].
  - rewrite append_nil_l, isin_unfold, prefix_app. reflexivity.
  - rewrite append_cons, isin_unfold, IH. apply orb_true_r.
Qed.

Lemma get_patient_ids_unreadable (fs : string -> option DataFrame) :
  fs "diagnoses.csv" = None -> get_patient_ids fs = Ok [].
Proof.
  intros Hnone. unfold get_patient_ids.
  rewrite (load_all_data_lookup fs "diagnoses" "diagnoses.csv") by (simpl; tauto).
  unfold table. now rewrite Hnone.
Qed.

(** X20. [GET /patients] never answers 404: it returns a non-empty,
    strictly increasing list of identifiers with its length as count, or
    raises with status 500.  In particular the 404 it raises for an empty
    list is caught by its own handler and comes out as a 500, as when the
    diagnoses file cannot be read. *)
Theorem list_patients_never_404 (exn_str : exn -> string) (http_str : Z -> string -> string)
    (fs : string -> option DataFrame) :
  match list_patients exn_str http_str fs with
  | Reply body =>
      patient_ids body <> []
      /\ get_patient_ids fs = Ok (patient_ids body)
      /\ StronglySorted Z.lt (patient_ids body)
      /\ count body = Z.of_nat (List.length (patient_ids body))
  | HTTPError status _ => status = 500
  | OutOfModel _ => True
  end
  /\ (fs "diagnoses.csv" = None ->
      list_patients exn_str http_str fs
      = HTTPError 500 ("Error fetching patient list: "
                         ++ http_str 404 "No patients found in database")).
Proof.
  split.
  - unfold list_patients. destruct (get_patient_ids fs) as [ids|e] eqn:Hids.
    + destruct ids as [|z ids]; [reflexivity|]. simpl.
      split; [discriminate|]. split; [reflexivity|]. split; [|reflexivity].
      now destruct (patient_ids_spec fs (z :: ids) Hids).
    + destruct e; simpl; auto.
  - intros Hnone. unfold list_patients. now rewrite (get_patient_ids_unreadable fs Hnone).
Qed.

Lemma list_patients_never_404_witness :
  list_patients Samples.exn_text Samples.http_text Samples.data_dir
  = Reply {| patient_ids := [1001; 1002]; count := 2 |}
  /\ list_patients Samples.exn_text Samples.http_text (fun _ => None)
     = HTTPError 500 "Error fetching patient list: 404: No patients found in database".
Proof.
  split; [vm_compute; reflexivity|].
  rewrite (proj2 (list_patients_never_404 Samples.exn_text Samples.http_text (fun _ => None)))
    by reflexivity.
  vm_compute; reflexivity.
Defined.

Lemma listed_has_row (fs : string -> option DataFrame) (ids : list Z) (pid : Z) :
  get_patient_ids fs = Ok ids ->
  (forall r, In r (rows (table fs "diagnoses.csv")) -> cell r "patient_id" <> VInt pid) ->
  bool_decide (pid ∈ ids) = false.
Proof.
  intros Hids Hnone. apply bool_decide_eq_false. rewrite list_elem_of_In.
  destruct (patient_ids_spec fs ids Hids) as [_ Hin]. rewrite Hin.
  intros [_ (r & Hr & Hc)]. exact (Hnone r Hr Hc).
Qed.

(** X21. [POST /generate_summary] answers 404 for every identifier that
    no row of the diagnoses table bears, also when the patient has rows in
    the other tables; it does so before any data is formatted and without
    calling a provider. *)
Theorem create_summary_unlisted_is_404 (exn_str : exn -> string)
    (set_order : list value -> list value) (fs : string -> option DataFrame)
    (cfg : Config) (sv : Services) (pid : Z) (ids : list Z) :
  get_patient_ids fs = Ok ids ->
  (forall r, In r (rows (table fs "diagnoses.csv")) -> cell r "patient_id" <> VInt pid) ->
  create_summary exn_str set_order fs cfg sv pid
  = ([], HTTPError 404 (not_found pid ids)).
Proof.
  intros Hids Hnone. unfold create_summary.
  now rewrite Hids, (listed_has_row fs ids pid Hids Hnone).
Qed.

Lemma create_summary_unlisted_is_404_witness :
  create_summary Samples.exn_text Samples.order_a Samples.data_dir_vitals_only
    Samples.cfg_plain Samples.sv_empty_object 1003
  = ([], HTTPError 404 "Patient 1003 not found. Available patients: [1001, 1002]").
Proof.
  rewrite (create_summary_unlisted_is_404 Samples.exn_text Samples.order_a
             Samples.data_dir_vitals_only Samples.cfg_plain Samples.sv_empty_object
             1003 [1001; 1002]).
  - vm_compute; reflexivity.
  - vm_compute; reflexivity.
  - intros r Hr. simpl in Hr.
    repeat (destruct Hr as [<-|Hr]; [vm_compute; discriminate|]). destruct Hr.
Defined.

(** X22. Whatever the request, [POST /generate_summary] ends in one of
    three ways: a body that repeats the requested identifier, says
    success, names ["gemini"] or ["openai"] and carries a JSON object
    whose [provider_used] is that same name, after at least one provider
    call; or status 404, with no provider called; or status 500.  It
    never makes more than two provider calls. *)
Theorem create_summary_replies (exn_str : exn -> string)
    (set_order : list value -> list value) (fs : string -> option DataFrame)
    (cfg : Config) (sv : Services) (pid : Z) :
  match snd (create_summary exn_str set_order fs cfg sv pid) with
  | Reply body =>
      response_patient_id body = pid
      /\ success body = true
      /\ (provider_used body = "gemini" \/ provider_used body = "openai")
      /\ (exists d, summary body = JObj d
                    /\ dict_get d "provider_used" = Some (JStr (provider_used body)))
      /\ (1 <= List.length (fst (create_summary exn_str set_order fs cfg sv pid)))%nat
  | HTTPError status _ =>
      (status = 404 /\ fst (create_summary exn_str set_order fs cfg sv pid) = [])
      \/ status = 500
  | OutOfModel _ => fst (create_summary exn_str set_order fs cfg sv pid) = []
  end
  /\ (List.length (fst (create_summary exn_str set_order fs cfg sv pid)) <= 2)%nat.
Proof.
  assert (forall A (e : exn),
            match @summary_error exn_str A e with
            | Reply _ => False
            | HTTPError status _ => status = 500
            | OutOfModel _ => True
            end) as Herr by (intros A []; simpl; auto).
  unfold create_summary.
  destruct (get_patient_ids fs) as [ids|e]; simpl.
  2:{ split; [|lia]. specialize (Herr SummaryResponse e).
      destruct (summary_error exn_str e); [destruct Herr | now right | reflexivity]. }
  destruct (bool_decide (pid ∈ ids)); simpl; [|split; [now left | lia]].
  destruct (get_patient_data fs pid) as [b|e]; simpl.
  2:{ split; [|lia]. specialize (Herr SummaryResponse e).
      destruct (summary_error exn_str e); [destruct Herr | now right | reflexivity]. }
  destruct (format_for_llm set_order b) as [ctx|e]; simpl.
  2:{ split; [|lia]. specialize (Herr SummaryResponse e).
      destruct (summary_error exn_str e); [destruct Herr | now right | reflexivity]. }
  destruct (generate_summary_call_lengths cfg sv ctx) as [Hlo Hhi].
  destruct (result (generate_summary cfg sv ctx)) as [[j name]|msg] eqn:Hres; simpl.
  - split; [|exact Hhi]. split; [reflexivity|]. split; [reflexivity|].
    destruct (stamp_of_returned cfg sv ctx j name Hres) as [Hobj Hname].
    split; [destruct Hname as [[-> _]|[-> _]]; auto|]. split; [exact Hobj | exact Hlo].
  - split; [now right | exact Hhi].
Qed.

Lemma create_summary_replies_witness :
  create_summary Samples.exn_text Samples.order_a Samples.data_dir
    Samples.cfg_plain Samples.sv_gemini_down 1001
  = ([Gemini; OpenAI],
     Reply {| response_patient_id := 1001;
              summary := JObj [("provider_used", JStr "openai")];
              provider_used := "openai";
              success := true |})
  /\ (List.length (fst (create_summary Samples.exn_text Samples.order_a Samples.data_dir
                          Samples.cfg_plain Samples.sv_gemini_down 1001)) <= 2)%nat.
Proof.
  split; [vm_compute; reflexivity|].
  apply (proj2 (create_summary_replies Samples.exn_text Samples.order_a Samples.data_dir
                  Samples.cfg_plain Samples.sv_gemini_down 1001)).
Defined.

(** X23. For a listed patient whose data is formatted, a failure of
    [generate_summary] reaches the client as status 500 with the raised
    message inside the detail; when that message mentions [API], the hint
    about the API keys follows it.  The provider calls are those
    [generate_summary] made. *)
Theorem create_summary_reports_provider_failure (exn_str : exn -> string)
    (set_order : list value -> list value) (fs : string -> option DataFrame)
    (cfg : Config) (sv : Services) (pid : Z) (ids : list Z) (b : bundle) (ctx msg : string) :
  get_patient_ids fs = Ok ids ->
  In pid ids ->
  get_patient_data fs pid = Ok b ->
  format_for_llm set_order b = Ok ctx ->
  result (generate_summary cfg sv ctx) = Raised msg ->
  exists detail,
    create_summary exn_str set_order fs cfg sv pid
    = (calls (generate_summary cfg sv ctx), HTTPError 500 detail)
    /\ contains detail msg
    /\ (contains msg "API" ->
        detail = "Error generating summary: " ++ msg ++ nl ++ nl
                   ++ "Make sure you have configured API keys in .env file.").
Proof.
  intros Hids Hin Hb Hctx Hres. unfold create_summary.
  rewrite Hids, bool_decide_eq_true_2 by (now apply list_elem_of_In).
  simpl. rewrite Hb, Hctx, Hres. eexists. split; [reflexivity|]. split.
  - unfold with_hint. destruct (_ || _).
    + exists "Error generating summary: ",
             (nl ++ nl ++ "Make sure you have configured API keys in .env file.").
      rewrite ?append_assoc. reflexivity.
    + exists "Error generating summary: ", "". now rewrite append_nil_r.
  - intros Hapi. unfold with_hint. rewrite (isin_contains "API" msg Hapi). simpl.
    rewrite ?append_assoc. reflexivity.
Qed.

Lemma create_summary_reports_provider_failure_witness :
  exists detail,
    create_summary Samples.exn_text Samples.order_a Samples.data_dir
      Samples.cfg_placeholders Samples.sv_empty_object 1001
    = ([Gemini; OpenAI], HTTPError 500 detail)
    /\ contains detail "OPENAI_API_KEY not configured in .env file"
    /\ contains detail "Make sure you have configured API keys in .env file.".
Proof.
  destruct (create_summary_reports_provider_failure Samples.exn_text Samples.order_a
              Samples.data_dir Samples.cfg_placeholders Samples.sv_empty_object 1001
              [1001; 1002] Samples.bundle_1001
              (Samples.context_1001)
              (failure_message "GEMINI_API_KEY not configured in .env file"
                               "OPENAI_API_KEY not configured in .env file"))
    as (detail & Hreply & _ & Hhint).
  - vm_compute; reflexivity.
  - now left.
  - vm_compute; reflexivity.
  - vm_compute; reflexivity.
  - vm_compute; reflexivity.
  - exists detail. split; [rewrite Hreply; vm_compute; reflexivity|].
    rewrite Hhint.
    + split.
      * exists ("Error generating summary: Both LLM providers failed:" ++ nl
                  ++ "  Gemini: GEMINI_API_KEY not configured in .env file" ++ nl
                  ++ "  OpenAI: "),
               (nl ++ nl ++ nl ++ "Make sure you have configured API keys in .env file.").
        vm_compute; reflexivity.
      * eexists _, "". rewrite append_nil_r, <- !append_assoc. reflexivity.
    + exists ("Both LLM providers failed:" ++ nl ++ "  Gemini: GEMINI_"),
             ("_KEY not configured in .env file" ++ nl
                ++ "  OpenAI: OPENAI_API_KEY not configured in .env file" ++ nl).
      vm_compute; reflexivity.
Defined.

(** X24. A body of [GET /patient/{patient_id}/data] carries the bundle
    [get_patient_data] returns for the identifier; each of its six counts
    is the number of rows of the table that bear the identifier, and the
    count of diagnoses is at least one. *)
Theorem raw_data_counts_rows (exn_str : exn -> string) (fs : string -> option DataFrame)
    (pid : Z) (body : RawDataResponse) :
  get_raw_patient_data exn_str fs pid = Reply body ->
  raw_patient_id body = pid
  /\ get_patient_data fs pid = Ok (full_data body)
  /\ data_summary body
     = {| diagnoses_count := List.length (diagnoses (full_data body));
          medications_count := List.length (medications (full_data body));
          vitals_count := List.length (vitals (full_data body));
          notes_count := List.length (notes (full_data body));
          wounds_count := List.length (wounds (full_data body));
          oasis_count := List.length (oasis (full_data body)) |}
  /\ (1 <= diagnoses_count (data_summary body))%nat
  /\ forall key filename,
       In (key, filename) csv_files ->
       List.length (bundle_get (full_data body) key)
       = if empty (table fs filename) then O
         else List.length
                (List.filter (fun r => bool_decide (cell r "patient_id" = VInt pid))
                             (rows (table fs filename))).
Proof.
  unfold get_raw_patient_data.
  destruct (get_patient_ids fs) as [ids|e] eqn:Hids; [|destruct e; discriminate].
  destruct (bool_decide_reflect (pid ∈ ids)) as [Hin|_]; simpl; [|discriminate].
  destruct (get_patient_data fs pid) as [b|e] eqn:Hb; [|destruct e; discriminate].
  intros [= <-]. simpl. split; [reflexivity|]. split; [reflexivity|].
  split; [reflexivity|]. split.
  - apply list_elem_of_In in Hin.
    destruct (patient_ids_spec fs ids Hids) as [_ Hspec]. apply Hspec in Hin as [He (r & Hr & Hc)].
    change (diagnoses b) with (bundle_get b "diagnoses").
    rewrite (bundle_get_rows fs pid b "diagnoses" "diagnoses.csv" Hb) by (simpl; tauto).
    rewrite He, List.length_map.
    assert (In r (List.filter (fun r => bool_decide (cell r "patient_id" = VInt pid))
                              (rows (table fs "diagnoses.csv")))) as Hf
      by (apply filter_In; split; [assumption | now apply bool_decide_eq_true]).
    destruct (List.filter _ _); [destruct Hf | simpl; lia].
  - intros key filename Hk. rewrite (bundle_get_rows fs pid b key filename Hb Hk).
    destruct (empty (table fs filename)); [reflexivity | apply List.length_map].
Qed.

Lemma raw_data_counts_rows_witness :
  get_raw_patient_data Samples.exn_text Samples.data_dir 1001
  = Reply {| raw_patient_id := 1001;
             data_summary := {| diagnoses_count := 1; medications_count := 0;
                                vitals_count := 1; notes_count := 0;
                                wounds_count := 0; oasis_count := 0 |};
             full_data := Samples.bundle_1001 |}
  /\ (1 <= 1)%nat.
Proof.
  split; [vm_compute; reflexivity|].
  apply (raw_data_counts_rows Samples.exn_text Samples.data_dir 1001
           {| raw_patient_id := 1001;
              data_summary := {| diagnoses_count := 1; medications_count := 0;
                                 vitals_count := 1; notes_count := 0;
                                 wounds_count := 0; oasis_count := 0 |};
              full_data := Samples.bundle_1001 |}).
  vm_compute; reflexivity.
Defined.

End EndpointFacts.
